(** * Caffe [Blob]: shape, capacity, shared buffers and proto round trip

    A shallow embedding of [src/caffe/blob.cpp].  A [Blob<Dtype>] owns its
    shape metadata by value and refers to its two element buffers (values
    [data_] and gradients [diff_]) through [shared_ptr<SyncedMemory>]
    handles; several blobs may hold the same handle.  The buffers therefore
    live in a store of reference-counted objects and every member function
    that touches them threads the store.

    Fatal glog checks ([CHECK_*], [LOG(FATAL)], [NOT_IMPLEMENTED], [NO_GPU])
    terminate the process; they are the [Fatal] outcomes below.  A null
    dereference or an out-of-bounds access is [Undefined]. *)

From stdpp Require Import base option list gmap.
From Stdlib Require Import ZArith Lia.

Local Open Scope Z_scope.

(** ** Outcomes of a call *)

Inductive FatalError : Set :=
| CHECK_FAILED        (* a CHECK / CHECK_EQ / CHECK_LE / CHECK_GE failed *)
| LOG_FATAL           (* LOG(FATAL) << ... *)
| NOT_IMPLEMENTED     (* the NOT_IMPLEMENTED macro *)
| NO_GPU.             (* the NO_GPU macro of a CPU_ONLY build *)

Inductive Outcome (A : Type) : Type :=
| Ok (a : A)
| Fatal (e : FatalError)
| Undefined.

Arguments Ok {A} a.
Arguments Fatal {A} e.
Arguments Undefined {A}.

Definition obind {A B : Type} (f : A -> Outcome B) (m : Outcome A) : Outcome B :=
  match m with
  | Ok a => f a
  | Fatal e => Fatal e
  | Undefined => Undefined
  end.

#[global] Instance Outcome_ret : MRet Outcome := fun A a => Ok a.
#[global] Instance Outcome_bind : MBind Outcome := fun A B f m => obind f m.

(** [CHECK(c)]: continue when [c] holds, die otherwise. *)
Definition CHECK (c : bool) : Outcome unit :=
  if c then Ok tt else Fatal CHECK_FAILED.

(** Modelled from the spec: the macros [NOT_IMPLEMENTED] and [NO_GPU] come
    from the absent [caffe/common.hpp]; the spec has both as fatal, the
    first as the unimplemented-operation error. *)
Definition NOT_IMPLEMENTED_ {A : Type} : Outcome A := Fatal NOT_IMPLEMENTED.
(** Modelled from the spec: [NO_GPU], fatal in a [CPU_ONLY] build. *)
Definition NO_GPU_ {A : Type} : Outcome A := Fatal NO_GPU.

(** Dereferencing a possibly null pointer. *)
Definition deref {A : Type} (p : option A) : Outcome A :=
  match p with
  | Some a => Ok a
  | None => Undefined
  end.

Definition is_Ok {A : Type} (m : Outcome A) : Prop := exists a, m = Ok a.
Definition is_Fatal {A : Type} (m : Outcome A) : Prop := exists e, m = Fatal e.

(** ** Machine integers *)

(** Two's complement wrap-around of a [bits]-wide signed integer. *)
Definition wrap_signed (bits : Z) (x : Z) : Z :=
  (x + 2 ^ (bits - 1)) mod 2 ^ bits - 2 ^ (bits - 1).

(** [size_t] is 64 bits wide (the LP64 platforms the code's [LONG_MAX] for
    64-bit indices presumes). *)
Definition SIZE_T_MODULUS : Z := 2 ^ 64.
Definition size_t_mul (a b : Z) : Z := (a * b) mod SIZE_T_MODULUS.

Definition INT_MAX : Z := 2 ^ 31 - 1.
Definition LONG_MAX : Z := 2 ^ 63 - 1.

(** ** [SyncedMemory]: the dual-location buffer *)

Inductive SyncedHead : Set :=
| UNINITIALIZED
| HEAD_AT_CPU
| HEAD_AT_GPU
| SYNCED.

#[global] Instance SyncedHead_eq_dec : EqDecision SyncedHead.
Proof. solve_decision. Defined.

Definition Device : Set := nat.

Module SyncedMemory.
Section Cells.
(** The buffer is raw bytes in the source; a blob reads and writes it at
    one element type, so the model keeps typed cells.  [A] is the cell
    type and [elsize] its [sizeof]. *)
Context {A : Type}.

(** Modelled from the spec: [caffe/syncedmem.hpp] and its implementation
    are absent.  The spec's dual-location buffer exposes its residency
    state, a host and an accelerator storage handle, and its byte size;
    the copy to the other side happens lazily on first access from
    there.  A cell that was never written reads as [zero] (fresh storage
    is zero-filled). *)
Record t : Type := mk {
  size_ : Z;                 (* byte size given to the constructor *)
  head_ : SyncedHead;        (* residency state *)
  cpu_mem : gmap nat A;      (* host storage *)
  gpu_mem : gmap nat A;      (* accelerator storage *)
  device_ : Device
}.

(** Modelled from the spec: [new SyncedMemory(size, device)], a buffer
    of [size] bytes with no established residency. *)
Definition new (size : Z) (dev : Device) : t :=
  mk size UNINITIALIZED ∅ ∅ dev.

(** Modelled from the spec: the byte size and the residency state. *)
Definition size (m : t) : Z := size_ m.
Definition head (m : t) : SyncedHead := head_ m.

(** Modelled from the spec: the lazy copy to the host on access from
    there; an uninitialized buffer gets zero-filled host storage. *)
Definition to_cpu (m : t) : t :=
  match head_ m with
  | UNINITIALIZED => mk (size_ m) HEAD_AT_CPU ∅ (gpu_mem m) (device_ m)
  | HEAD_AT_GPU => mk (size_ m) SYNCED (gpu_mem m) (gpu_mem m) (device_ m)
  | HEAD_AT_CPU | SYNCED => m
  end.

(** Modelled from the spec: the lazy copy to the accelerator. *)
Definition to_gpu (m : t) : t :=
  match head_ m with
  | UNINITIALIZED => mk (size_ m) HEAD_AT_GPU (cpu_mem m) ∅ (device_ m)
  | HEAD_AT_CPU => mk (size_ m) SYNCED (cpu_mem m) (cpu_mem m) (device_ m)
  | HEAD_AT_GPU | SYNCED => m
  end.

Definition set_head (hd : SyncedHead) (m : t) : t :=
  mk (size_ m) hd (cpu_mem m) (gpu_mem m) (device_ m).

(** Modelled from the spec: the const and mutable storage handles of
    either side.  A mutable access leaves that side the only valid
    one. *)
Definition cpu_data (m : t) : t := to_cpu m.
Definition mutable_cpu_data (m : t) : t := set_head HEAD_AT_CPU (to_cpu m).
Definition gpu_data (m : t) : t := to_gpu m.
Definition mutable_gpu_data (m : t) : t := set_head HEAD_AT_GPU (to_gpu m).

(** Element [i] lies inside the buffer when its last byte does. *)
Definition in_bounds (elsize : Z) (m : t) (i : nat) : bool :=
  (Z.of_nat i + 1) * elsize <=? size_ m.

Definition set_cpu_mem (c : gmap nat A) (m : t) : t :=
  mk (size_ m) (head_ m) c (gpu_mem m) (device_ m).
Definition set_gpu_mem (g : gmap nat A) (m : t) : t :=
  mk (size_ m) (head_ m) (cpu_mem m) g (device_ m).

(** [p[i]] and [p[i] = v] through a host pointer [p]. *)
Definition peek_cpu (zero : A) (elsize : Z) (m : t) (i : nat) : Outcome A :=
  if in_bounds elsize m i then Ok (default zero (cpu_mem m !! i)) else Undefined.
Definition poke_cpu (elsize : Z) (m : t) (i : nat) (v : A) : Outcome t :=
  if in_bounds elsize m i then Ok (set_cpu_mem (<[i := v]> (cpu_mem m)) m)
  else Undefined.

(** The first [n] elements behind a host / accelerator pointer, as the
    BLAS-like helpers read them, and the write-back of their result. *)
Definition span_ok (elsize : Z) (m : t) (n : nat) : bool :=
  Z.of_nat n * elsize <=? size_ m.
Definition read_mem (zero : A) (mem : gmap nat A) (n : nat) : list A :=
  (fun i => default zero (mem !! i)) <$> seq 0 n.
Fixpoint write_mem (i : nat) (vs : list A) (mem : gmap nat A) : gmap nat A :=
  match vs with
  | [] => mem
  | v :: vs' => write_mem (S i) vs' (<[i := v]> mem)
  end.
End Cells.
Arguments t : clear implicits.
End SyncedMemory.

(** ** Element types of the instantiated template

    [INSTANTIATE_CLASS_1T] instantiates [Blob] at three floating and eight
    integer element types; the member specialisations select on them. *)

Inductive ElemType : Set :=
| half_fp | float | double
| int8_t | int16_t | int32_t | int64_t
| uint8_t | uint16_t | uint32_t | uint64_t.

(** The element types with explicit [NOT_IMPLEMENTED] specialisations of
    the arithmetic members; the other three take the generic template. *)
Definition is_integer (ty : ElemType) : bool :=
  match ty with
  | int8_t | int16_t | int32_t | int64_t
  | uint8_t | uint16_t | uint32_t | uint64_t => true
  | half_fp | float | double => false
  end.

Definition is_floating (ty : ElemType) : bool :=
  match ty with
  | half_fp | float | double => true
  | _ => false
  end.

(** [sizeof(Dtype)] *)
Definition sizeof_elem (ty : ElemType) : Z :=
  match ty with
  | int8_t | uint8_t => 1
  | half_fp | int16_t | uint16_t => 2
  | float | int32_t | uint32_t => 4
  | double | int64_t | uint64_t => 8
  end.

(** ** The wire message [BlobProto]

    [caffe.proto] is absent; the fields are those the code reads and
    writes.  An optional scalar has a presence bit ([has_num()]) and reads
    as its default 0 when unset.  [Float] and [Double] are the types of
    the values of the [data]/[diff] and [double_data]/[double_diff]
    payloads; the code only copies and converts them. *)

Record BlobProto (Float Double : Type) : Type := mkBlobProto {
  proto_num : option Z;
  proto_channels : option Z;
  proto_height : option Z;
  proto_width : option Z;
  proto_shape : list Z;           (* shape().dim *)
  proto_shape_stride : list Z;    (* shape_stride().dim *)
  proto_data_type : option ElemType;
  proto_data : list Float;
  proto_diff : list Float;
  proto_double_data : list Double;
  proto_double_diff : list Double
}.

Arguments mkBlobProto {Float Double}.
Arguments proto_num {Float Double}.
Arguments proto_channels {Float Double}.
Arguments proto_height {Float Double}.
Arguments proto_width {Float Double}.
Arguments proto_shape {Float Double}.
Arguments proto_shape_stride {Float Double}.
Arguments proto_data_type {Float Double}.
Arguments proto_data {Float Double}.
Arguments proto_diff {Float Double}.
Arguments proto_double_data {Float Double}.
Arguments proto_double_diff {Float Double}.

Module Proto.
Section Accessors.
Context {Float Double : Type}.
Implicit Type p : BlobProto Float Double.

Definition has {A : Type} (f : option A) : bool :=
  match f with Some _ => true | None => false end.
Definition has_num p : bool := has (proto_num p).
Definition has_channels p : bool := has (proto_channels p).
Definition has_height p : bool := has (proto_height p).
Definition has_width p : bool := has (proto_width p).
Definition num p : Z := default 0 (proto_num p).
Definition channels p : Z := default 0 (proto_channels p).
Definition height p : Z := default 0 (proto_height p).
Definition width p : Z := default 0 (proto_width p).
Definition dim_size p : Z := Z.of_nat (length (proto_shape p)).
Definition data_size p : Z := Z.of_nat (length (proto_data p)).
Definition diff_size p : Z := Z.of_nat (length (proto_diff p)).
Definition double_data_size p : Z := Z.of_nat (length (proto_double_data p)).
Definition double_diff_size p : Z := Z.of_nat (length (proto_double_diff p)).

(** A newly constructed message. *)
Definition empty : BlobProto Float Double :=
  mkBlobProto None None None None [] [] None [] [] [] [].

Definition clear_shape p : BlobProto Float Double :=
  mkBlobProto (proto_num p) (proto_channels p) (proto_height p) (proto_width p)
    [] (proto_shape_stride p) (proto_data_type p)
    (proto_data p) (proto_diff p) (proto_double_data p) (proto_double_diff p).
Definition add_shape_dim (d : Z) p : BlobProto Float Double :=
  mkBlobProto (proto_num p) (proto_channels p) (proto_height p) (proto_width p)
    (proto_shape p ++ [d]) (proto_shape_stride p) (proto_data_type p)
    (proto_data p) (proto_diff p) (proto_double_data p) (proto_double_diff p).
Definition add_shape_stride_dim (d : Z) p : BlobProto Float Double :=
  mkBlobProto (proto_num p) (proto_channels p) (proto_height p) (proto_width p)
    (proto_shape p) (proto_shape_stride p ++ [d]) (proto_data_type p)
    (proto_data p) (proto_diff p) (proto_double_data p) (proto_double_diff p).
Definition set_data_type (ty : ElemType) p : BlobProto Float Double :=
  mkBlobProto (proto_num p) (proto_channels p) (proto_height p) (proto_width p)
    (proto_shape p) (proto_shape_stride p) (Some ty)
    (proto_data p) (proto_diff p) (proto_double_data p) (proto_double_diff p).
Definition set_data (xs : list Float) p : BlobProto Float Double :=
  mkBlobProto (proto_num p) (proto_channels p) (proto_height p) (proto_width p)
    (proto_shape p) (proto_shape_stride p) (proto_data_type p)
    xs (proto_diff p) (proto_double_data p) (proto_double_diff p).
Definition set_diff (xs : list Float) p : BlobProto Float Double :=
  mkBlobProto (proto_num p) (proto_channels p) (proto_height p) (proto_width p)
    (proto_shape p) (proto_shape_stride p) (proto_data_type p)
    (proto_data p) xs (proto_double_data p) (proto_double_diff p).
Definition set_double_data (xs : list Double) p : BlobProto Float Double :=
  mkBlobProto (proto_num p) (proto_channels p) (proto_height p) (proto_width p)
    (proto_shape p) (proto_shape_stride p) (proto_data_type p)
    (proto_data p) (proto_diff p) xs (proto_double_diff p).
Definition set_double_diff (xs : list Double) p : BlobProto Float Double :=
  mkBlobProto (proto_num p) (proto_channels p) (proto_height p) (proto_width p)
    (proto_shape p) (proto_shape_stride p) (proto_data_type p)
    (proto_data p) (proto_diff p) (proto_double_data p) xs.
Definition clear_data p := set_data [] p.
Definition clear_diff p := set_diff [] p.
Definition clear_double_data p := set_double_data [] p.
Definition clear_double_diff p := set_double_diff [] p.
Definition add_data (x : Float) p := set_data (proto_data p ++ [x]) p.
Definition add_diff (x : Float) p := set_diff (proto_diff p ++ [x]) p.
Definition add_double_data (x : Double) p :=
  set_double_data (proto_double_data p ++ [x]) p.
Definition add_double_diff (x : Double) p :=
  set_double_diff (proto_double_diff p ++ [x]) p.
End Accessors.
End Proto.

(** ** The blob *)

Section BlobTemplate.

(** Build configuration: [USE_INDEX_64] selects a 64-bit [int_tp],
    [CPU_ONLY] compiles the accelerator paths out. *)
Variable USE_INDEX_64 : bool.
Variable CPU_ONLY : bool.

(** [kMaxBlobAxes] is declared in the absent [blob.hpp]. *)
Variable kMaxBlobAxes : nat.

(** The template parameter: its tag, the type of its values, and the
    constants [Dtype(0)] and [Dtype(-1)]. *)
Variable elem_type : ElemType.
Context {Dtype : Type}.
Definition sizeof_Dtype : Z := sizeof_elem elem_type.
Variable zero : Dtype.
Variable minus_one : Dtype.

(** Host math helpers ([caffe/util/math_functions.hpp]) and the device
    backend ([caffe/backend/device.hpp]); both are external to this file.
    Each takes the element count and the first [count] elements behind
    its pointer arguments, and returns the scalar result or the new
    contents of the array it overwrites. *)
Variable caffe_axpy : Z -> Dtype -> list Dtype -> list Dtype -> list Dtype.
Variable caffe_cpu_asum : Z -> list Dtype -> Dtype.
Variable caffe_cpu_dot : Z -> list Dtype -> list Dtype -> Dtype.
Variable caffe_scal : Z -> Dtype -> list Dtype -> list Dtype.
Variable device_axpy : Z -> Dtype -> list Dtype -> list Dtype -> list Dtype.
Variable device_asum : Z -> list Dtype -> Dtype.
Variable device_dot : Z -> list Dtype -> list Dtype -> Dtype.
Variable device_scal : Z -> Dtype -> list Dtype -> list Dtype.

(** The quantizer ([caffe/quantizer.hpp]): [Backward_cpu(n, in, out)]
    expands [n] stored elements into the caller's buffer [out]. *)
Context {Quantizer External : Type}.
Variable Backward_cpu : Quantizer -> Z -> list Dtype -> list External.

(** The payload value types of the wire message and the implicit
    conversions of [data_vec[i] = proto.data(i)] and
    [data_vec[i] = proto.double_data(i)]. *)
Context {Float Double : Type}.
Variable of_float : Float -> Dtype.
Variable of_double : Double -> Dtype.

Definition int_tp_bits : Z := if USE_INDEX_64 then 64 else 32.
Definition sizeof_int_tp : Z := if USE_INDEX_64 then 8 else 4.
(** The bound of the overflow check: [LONG_MAX] or [INT_MAX]. *)
Definition INT_TP_MAX : Z := if USE_INDEX_64 then LONG_MAX else INT_MAX.
Definition wrap_int_tp (x : Z) : Z := wrap_signed int_tp_bits x.

(** *** Store of [SyncedMemory] objects

    A location is the identity of an object; locations are handed out in
    increasing order and never reused.  [use_count] is the number of
    [shared_ptr] handles to the object, at least one while it lives. *)

Record Cell : Type := mkCell {
  obj : SyncedMemory.t Dtype;
  use_count : positive
}.

Record Heap : Type := mkHeap {
  cells : gmap nat Cell;
  next_loc : nat
}.

(** [shared_ptr<SyncedMemory>(new SyncedMemory(...))] *)
Definition alloc (h : Heap) (m : SyncedMemory.t Dtype) : Heap * nat :=
  (mkHeap (<[next_loc h := mkCell m 1]> (cells h)) (S (next_loc h)), next_loc h).

(** Copying a handle. *)
Definition acquire (h : Heap) (p : option nat) : Heap :=
  match p with
  | None => h
  | Some l =>
      mkHeap (alter (fun c => mkCell (obj c) (Pos.succ (use_count c))) l (cells h))
             (next_loc h)
  end.

(** Dropping a handle; the object dies with its last handle. *)
Definition release (h : Heap) (p : option nat) : Heap :=
  match p with
  | None => h
  | Some l =>
      match cells h !! l with
      | None => h
      | Some c =>
          if (use_count c =? 1)%positive
          then mkHeap (delete l (cells h)) (next_loc h)
          else mkHeap (<[l := mkCell (obj c) (Pos.pred (use_count c))]> (cells h))
                      (next_loc h)
      end
  end.

(** In-place update of the object at [l]. *)
Definition update_obj (h : Heap) (l : nat) (m : SyncedMemory.t Dtype) : Heap :=
  mkHeap (alter (fun c => mkCell m (use_count c)) l (cells h)) (next_loc h).

(** [p->method()] on a handle: the object after the call, stored back. *)
Definition call_on (h : Heap) (p : option nat)
    (method : SyncedMemory.t Dtype -> SyncedMemory.t Dtype) : Outcome (Heap * nat) :=
  l ← deref p;
  c ← deref (cells h !! l);
  Ok (update_obj h l (method (obj c)), l).

(** [p->head()] *)
Definition head_of (h : Heap) (p : option nat) : Outcome SyncedHead :=
  l ← deref p;
  c ← deref (cells h !! l);
  Ok (SyncedMemory.head (obj c)).

(** *** Fields of [BlobBase] / [Blob<Dtype>] *)

Record Blob : Type := mkBlob {
  data_ : option nat;                       (* shared_ptr<SyncedMemory> *)
  diff_ : option nat;                       (* shared_ptr<SyncedMemory> *)
  shape_data_ : option (SyncedMemory.t Z);  (* held by this blob only *)
  shape_ : list Z;
  shape_stride_ : list Z;
  count_ : Z;
  capacity_ : Z;
  device_ : Device;
  net_quant_ : option Quantizer
}.

Definition count (b : Blob) : Z := count_ b.
Definition shape (b : Blob) : list Z := shape_ b.
Definition data (b : Blob) : option nat := data_ b.
Definition diff (b : Blob) : option nat := diff_ b.

Definition set_data_ (p : option nat) (b : Blob) : Blob :=
  mkBlob p (diff_ b) (shape_data_ b) (shape_ b) (shape_stride_ b)
         (count_ b) (capacity_ b) (device_ b) (net_quant_ b).
Definition set_diff_ (p : option nat) (b : Blob) : Blob :=
  mkBlob (data_ b) p (shape_data_ b) (shape_ b) (shape_stride_ b)
         (count_ b) (capacity_ b) (device_ b) (net_quant_ b).
Definition set_capacity_ (c : Z) (b : Blob) : Blob :=
  mkBlob (data_ b) (diff_ b) (shape_data_ b) (shape_ b) (shape_stride_ b)
         (count_ b) c (device_ b) (net_quant_ b).
Definition set_shape_state (cnt : Z) (shp : list Z) (sd : SyncedMemory.t Z)
    (b : Blob) : Blob :=
  mkBlob (data_ b) (diff_ b) (Some sd) shp (shape_stride_ b)
         cnt (capacity_ b) (device_ b) (net_quant_ b).

(** [v[i] = x] on a [std::vector]. *)
Definition vector_set {A : Type} (v : list A) (i : nat) (x : A) : Outcome (list A) :=
  if (i <? length v)%nat then Ok (<[i := x]> v) else Undefined.
(** [v[i]] on a [std::vector] or a repeated proto field. *)
Definition vector_get {A : Type} (v : list A) (i : nat) : Outcome A :=
  deref (v !! i).

(** *** [Reshape] (blob.cpp 15-95) *)

(** The [for] loop of lines 42-54, at index [i] with [rest] the extents
    from [i] on. *)
Fixpoint Reshape_loop (i : nat) (rest : list Z) (cnt : Z) (shp : list Z)
    (sd : SyncedMemory.t Z) : Outcome (Z * list Z * SyncedMemory.t Z) :=
  match rest with
  | [] => Ok (cnt, shp, sd)
  | e :: rest' =>
      CHECK (0 <=? e);;
      (if negb (cnt =? 0) then CHECK (e <=? INT_TP_MAX `quot` cnt) else Ok tt);;
      let cnt' := wrap_int_tp (cnt * e) in
      shp' ← vector_set shp i e;
      sd' ← SyncedMemory.poke_cpu sizeof_int_tp sd i e;
      Reshape_loop (S i) rest' cnt' shp' sd'
  end.

Definition Reshape (h : Heap) (b : Blob) (shape shape_stride : list Z)
    : Outcome (Heap * Blob * bool) :=
  CHECK (length shape <=? kMaxBlobAxes)%nat;;
  let shp0 := resize (length shape) 0 (shape_ b) in
  let bytes := size_t_mul (Z.of_nat (length shape)) sizeof_int_tp in
  let sd0 :=
    match shape_data_ b with
    | Some sd =>
        if SyncedMemory.size sd <? bytes
        then SyncedMemory.new bytes (device_ b) else sd
    | None => SyncedMemory.new bytes (device_ b)
    end in
  let sd1 := SyncedMemory.mutable_cpu_data sd0 in
  '(cnt, shp, sd) ← Reshape_loop 0 shape 1 shp0 sd1;
  let b1 := set_shape_state cnt shp sd b in
  if capacity_ b1 <? cnt then
    let b2 := set_capacity_ cnt b1 in
    let bytes := size_t_mul (capacity_ b2) sizeof_Dtype in
    let '(h1, l1) := alloc h (SyncedMemory.new bytes (device_ b2)) in
    let h2 := release h1 (data_ b2) in
    let b3 := set_data_ (Some l1) b2 in
    let '(h3, l2) := alloc h2 (SyncedMemory.new bytes (device_ b3)) in
    let h4 := release h3 (diff_ b3) in
    let b4 := set_diff_ (Some l2) b3 in
    Ok (h4, b4, true)
  else Ok (h, b1, false).

(** [Reshape(num, channels, height, width)] and [Reshape(shape)] *)
Definition Reshape4 (h : Heap) (b : Blob) (num channels height width : Z)
    : Outcome (Heap * Blob * bool) :=
  let shape := [num; channels; height; width] in
  Reshape h b shape shape.
Definition Reshape1 (h : Heap) (b : Blob) (shape : list Z)
    : Outcome (Heap * Blob * bool) :=
  Reshape h b shape shape.
Definition ReshapeLike (h : Heap) (b other : Blob) : Outcome (Heap * Blob * bool) :=
  Reshape1 h b (shape other).

(** The state in which a constructor body starts: the members are
    default-initialised (null handles, empty vectors). *)
Definition unconstructed (q : option Quantizer) : Blob :=
  mkBlob None None None [] [] 0 0 0%nat q.

(** [Blob(shape, dev)] (blob.cpp 107-113) *)
Definition Blob_ctor (h : Heap) (q : option Quantizer) (shape : list Z)
    (dev : Device) : Outcome (Heap * Blob) :=
  let b := unconstructed q in
  let b := mkBlob (data_ b) (diff_ b) (shape_data_ b) (shape_ b)
                  (shape_stride_ b) (count_ b) 0 dev (net_quant_ b) in
  '(h', b', _) ← Reshape1 h b shape;
  Ok (h', b').

(** *** Raw accessors (blob.cpp 126-195) *)

Definition non_null {A : Type} (p : option A) : bool :=
  match p with Some _ => true | None => false end.

Definition cpu_data (h : Heap) (b : Blob) : Outcome (Heap * nat) :=
  CHECK (non_null (data_ b));;
  call_on h (data_ b) SyncedMemory.cpu_data.
Definition gpu_data (h : Heap) (b : Blob) : Outcome (Heap * nat) :=
  CHECK (non_null (data_ b));;
  call_on h (data_ b) SyncedMemory.gpu_data.
Definition cpu_diff (h : Heap) (b : Blob) : Outcome (Heap * nat) :=
  CHECK (non_null (diff_ b));;
  call_on h (diff_ b) SyncedMemory.cpu_data.
Definition gpu_diff (h : Heap) (b : Blob) : Outcome (Heap * nat) :=
  CHECK (non_null (diff_ b));;
  call_on h (diff_ b) SyncedMemory.gpu_data.
Definition mutable_cpu_data (h : Heap) (b : Blob) : Outcome (Heap * nat) :=
  CHECK (non_null (data_ b));;
  call_on h (data_ b) SyncedMemory.mutable_cpu_data.
Definition mutable_gpu_data (h : Heap) (b : Blob) : Outcome (Heap * nat) :=
  CHECK (non_null (data_ b));;
  call_on h (data_ b) SyncedMemory.mutable_gpu_data.
Definition mutable_cpu_diff (h : Heap) (b : Blob) : Outcome (Heap * nat) :=
  CHECK (non_null (diff_ b));;
  call_on h (diff_ b) SyncedMemory.mutable_cpu_data.
Definition mutable_gpu_diff (h : Heap) (b : Blob) : Outcome (Heap * nat) :=
  CHECK (non_null (diff_ b));;
  call_on h (diff_ b) SyncedMemory.mutable_gpu_data.

(** Use of the pointer an accessor returned: [p[i]], [p[i] = v], and the
    first [n] elements as a helper reads or overwrites them. *)
Definition load (h : Heap) (p : nat) (i : nat) : Outcome Dtype :=
  c ← deref (cells h !! p);
  SyncedMemory.peek_cpu zero sizeof_Dtype (obj c) i.
Definition store (h : Heap) (p : nat) (i : nat) (v : Dtype) : Outcome Heap :=
  c ← deref (cells h !! p);
  m ← SyncedMemory.poke_cpu sizeof_Dtype (obj c) i v;
  Ok (update_obj h p m).

Definition read_cpu (h : Heap) (p : nat) (n : Z) : Outcome (list Dtype) :=
  c ← deref (cells h !! p);
  if SyncedMemory.span_ok sizeof_Dtype (obj c) (Z.to_nat n)
  then Ok (SyncedMemory.read_mem zero (SyncedMemory.cpu_mem (obj c)) (Z.to_nat n))
  else Undefined.
Definition read_gpu (h : Heap) (p : nat) (n : Z) : Outcome (list Dtype) :=
  c ← deref (cells h !! p);
  if SyncedMemory.span_ok sizeof_Dtype (obj c) (Z.to_nat n)
  then Ok (SyncedMemory.read_mem zero (SyncedMemory.gpu_mem (obj c)) (Z.to_nat n))
  else Undefined.
Definition write_cpu (h : Heap) (p : nat) (vs : list Dtype) : Outcome Heap :=
  c ← deref (cells h !! p);
  if SyncedMemory.span_ok sizeof_Dtype (obj c) (length vs)
  then Ok (update_obj h p
             (SyncedMemory.set_cpu_mem
                (SyncedMemory.write_mem 0 vs (SyncedMemory.cpu_mem (obj c))) (obj c)))
  else Undefined.
Definition write_gpu (h : Heap) (p : nat) (vs : list Dtype) : Outcome Heap :=
  c ← deref (cells h !! p);
  if SyncedMemory.span_ok sizeof_Dtype (obj c) (length vs)
  then Ok (update_obj h p
             (SyncedMemory.set_gpu_mem
                (SyncedMemory.write_mem 0 vs (SyncedMemory.gpu_mem (obj c))) (obj c)))
  else Undefined.

(** *** [ShareData] / [ShareDiff] (blob.cpp 197-207)

    [data_ = other.data()] is a [shared_ptr] copy assignment: the new
    object gains a handle, then the old one loses one. *)
Definition ShareData (h : Heap) (b other : Blob) : Outcome (Heap * Blob) :=
  CHECK (count_ b =? count other);;
  let h1 := acquire h (data other) in
  let h2 := release h1 (data_ b) in
  Ok (h2, set_data_ (data other) b).

Definition ShareDiff (h : Heap) (b other : Blob) : Outcome (Heap * Blob) :=
  CHECK (count_ b =? count other);;
  let h1 := acquire h (diff other) in
  let h2 := release h1 (diff_ b) in
  Ok (h2, set_diff_ (diff other) b).

(** *** [Update] (blob.cpp 224-278) *)
Definition Update (h : Heap) (b : Blob) : Outcome Heap :=
  if is_integer elem_type then NOT_IMPLEMENTED_     (* lines 255-278 *)
  else
    hd ← head_of h (data_ b);
    match hd with
    | HEAD_AT_CPU =>
        '(h1, x) ← call_on h (diff_ b) SyncedMemory.cpu_data;
        '(h2, y) ← call_on h1 (data_ b) SyncedMemory.mutable_cpu_data;
        xs ← read_cpu h2 x (count_ b);
        ys ← read_cpu h2 y (count_ b);
        write_cpu h2 y (caffe_axpy (count_ b) minus_one xs ys)
    | HEAD_AT_GPU | SYNCED =>
        if CPU_ONLY then NO_GPU_
        else
          '(h1, x) ← call_on h (diff_ b) SyncedMemory.gpu_data;
          '(h2, y) ← call_on h1 (data_ b) SyncedMemory.mutable_gpu_data;
          xs ← read_gpu h2 x (count_ b);
          ys ← read_gpu h2 y (count_ b);
          write_gpu h2 y (device_axpy (count_ b) minus_one xs ys)
    | UNINITIALIZED => Fatal LOG_FATAL    (* "Syncedmem not initialized." *)
    end.

(** *** Reductions (blob.cpp 280-529) *)
Definition asum_data (h : Heap) (b : Blob) : Outcome (Heap * Dtype) :=
  if is_integer elem_type then NOT_IMPLEMENTED_     (* lines 280-311 *)
  else if negb (non_null (data_ b)) then Ok (h, zero)
  else
    hd ← head_of h (data_ b);
    match hd with
    | HEAD_AT_CPU =>
        '(h1, p) ← cpu_data h b;
        xs ← read_cpu h1 p (count_ b);
        Ok (h1, caffe_cpu_asum (count_ b) xs)
    | HEAD_AT_GPU | SYNCED =>
        if CPU_ONLY then NO_GPU_
        else
          '(h1, p) ← gpu_data h b;
          xs ← read_gpu h1 p (count_ b);
          Ok (h1, device_asum (count_ b) xs)
    | UNINITIALIZED => Ok (h, zero)
    end.

Definition asum_diff (h : Heap) (b : Blob) : Outcome (Heap * Dtype) :=
  if is_integer elem_type then NOT_IMPLEMENTED_     (* lines 339-370 *)
  else if negb (non_null (diff_ b)) then Ok (h, zero)
  else
    hd ← head_of h (diff_ b);
    match hd with
    | HEAD_AT_CPU =>
        '(h1, p) ← cpu_diff h b;
        xs ← read_cpu h1 p (count_ b);
        Ok (h1, caffe_cpu_asum (count_ b) xs)
    | HEAD_AT_GPU | SYNCED =>
        if CPU_ONLY then NO_GPU_
        else
          '(h1, p) ← gpu_diff h b;
          xs ← read_gpu h1 p (count_ b);
          Ok (h1, device_asum (count_ b) xs)
    | UNINITIALIZED => Ok (h, zero)
    end.

Definition sumsq_data (h : Heap) (b : Blob) : Outcome (Heap * Dtype) :=
  if is_integer elem_type then NOT_IMPLEMENTED_     (* lines 431-462 *)
  else if negb (non_null (data_ b)) then Ok (h, zero)
  else
    hd ← head_of h (data_ b);
    match hd with
    | HEAD_AT_CPU =>
        '(h1, p) ← cpu_data h b;
        xs ← read_cpu h1 p (count_ b);
        Ok (h1, caffe_cpu_dot (count_ b) xs xs)
    | HEAD_AT_GPU | SYNCED =>
        if CPU_ONLY then NO_GPU_
        else
          '(h1, p) ← gpu_data h b;
          xs ← read_gpu h1 p (count_ b);
          Ok (h1, device_dot (count_ b) xs xs)
    | UNINITIALIZED => Ok (h, zero)
    end.

Definition sumsq_diff (h : Heap) (b : Blob) : Outcome (Heap * Dtype) :=
  if is_integer elem_type then NOT_IMPLEMENTED_     (* lines 498-529 *)
  else if negb (non_null (diff_ b)) then Ok (h, zero)
  else
    hd ← head_of h (diff_ b);
    match hd with
    | HEAD_AT_CPU =>
        '(h1, p) ← cpu_diff h b;
        xs ← read_cpu h1 p (count_ b);
        Ok (h1, caffe_cpu_dot (count_ b) xs xs)
    | HEAD_AT_GPU | SYNCED =>
        if CPU_ONLY then NO_GPU_
        else
          '(h1, p) ← gpu_diff h b;
          xs ← read_gpu h1 p (count_ b);
          Ok (h1, device_dot (count_ b) xs xs)
    | UNINITIALIZED => Ok (h, zero)
    end.

(** *** [scale_data] / [scale_diff] (blob.cpp 531-654) *)
Definition scale_data (h : Heap) (b : Blob) (scale_factor : Dtype) : Outcome Heap :=
  if is_integer elem_type then NOT_IMPLEMENTED_     (* lines 561-592 *)
  else if negb (non_null (data_ b)) then Ok h
  else
    hd ← head_of h (data_ b);
    match hd with
    | HEAD_AT_CPU =>
        '(h1, p) ← mutable_cpu_data h b;
        xs ← read_cpu h1 p (count_ b);
        write_cpu h1 p (caffe_scal (count_ b) scale_factor xs)
    | HEAD_AT_GPU | SYNCED =>
        if CPU_ONLY then NO_GPU_
        else
          '(h1, p) ← mutable_gpu_data h b;
          xs ← read_gpu h1 p (count_ b);
          write_gpu h1 p (device_scal (count_ b) scale_factor xs)
    | UNINITIALIZED => Ok h
    end.

Definition scale_diff (h : Heap) (b : Blob) (scale_factor : Dtype) : Outcome Heap :=
  if is_integer elem_type then NOT_IMPLEMENTED_     (* lines 624-654 *)
  else if negb (non_null (diff_ b)) then Ok h
  else
    hd ← head_of h (diff_ b);
    match hd with
    | HEAD_AT_CPU =>
        '(h1, p) ← mutable_cpu_diff h b;
        xs ← read_cpu h1 p (count_ b);
        write_cpu h1 p (caffe_scal (count_ b) scale_factor xs)
    | HEAD_AT_GPU | SYNCED =>
        if CPU_ONLY then NO_GPU_
        else
          '(h1, p) ← mutable_gpu_diff h b;
          xs ← read_gpu h1 p (count_ b);
          write_gpu h1 p (device_scal (count_ b) scale_factor xs)
    | UNINITIALIZED => Ok h
    end.

(** *** Quantized reductions (blob.cpp 835-854)

    [net_quant_->Backward_cpu(1, &val, out)]: what is written to [out]. *)
Definition Backward_cpu_scalar (b : Blob) (val : Dtype) : Outcome (list External) :=
  q ← deref (net_quant_ b);
  Ok (Backward_cpu q 1 [val]).

Definition asum_data_out (h : Heap) (b : Blob) : Outcome (Heap * list External) :=
  '(h1, val) ← asum_data h b;
  out ← Backward_cpu_scalar b val;
  Ok (h1, out).
Definition asum_diff_out (h : Heap) (b : Blob) : Outcome (Heap * list External) :=
  '(h1, val) ← asum_diff h b;
  out ← Backward_cpu_scalar b val;
  Ok (h1, out).
Definition sumsq_data_out (h : Heap) (b : Blob) : Outcome (Heap * list External) :=
  '(h1, val) ← sumsq_data h b;
  out ← Backward_cpu_scalar b val;
  Ok (h1, out).
Definition sumsq_diff_out (h : Heap) (b : Blob) : Outcome (Heap * list External) :=
  '(h1, val) ← sumsq_data h b;           (* line 852 *)
  out ← Backward_cpu_scalar b val;
  Ok (h1, out).

(** *** [ShapeEquals] (blob.cpp 656-675) *)

(** Modelled from the spec: [LegacyShape] is declared in the absent
    [blob.hpp].  The legacy four axes are the trailing axes of the local
    shape, indexed from its end; an axis the shape does not have counts as
    extent 1.  A non-negative [index] counts from the start. *)
Definition LegacyShape (b : Blob) (index : Z) : Z :=
  let n := Z.of_nat (length (shape_ b)) in
  if (index >=? n) || (index <? - n) then 1
  else
    let axis := if index <? 0 then index + n else index in
    nth (Z.to_nat axis) (shape_ b) 1.

(** The conversion of a [dim] of the message to [int_tp]. *)
Definition dims_to_int_tp (dims : list Z) : list Z := wrap_int_tp <$> dims.

Definition uses_legacy_fields (other : BlobProto Float Double) : bool :=
  Proto.has_num other || Proto.has_channels other || Proto.has_height other
  || Proto.has_width other.

Definition ShapeEquals (b : Blob) (other : BlobProto Float Double) : bool :=
  if uses_legacy_fields other then
    (length (shape_ b) <=? 4)%nat
    && (LegacyShape b (-4) =? Proto.num other)
    && (LegacyShape b (-3) =? Proto.channels other)
    && (LegacyShape b (-2) =? Proto.height other)
    && (LegacyShape b (-1) =? Proto.width other)
  else
    let other_shape := dims_to_int_tp (proto_shape other) in
    bool_decide (shape_ b = other_shape).

(** *** [FromProto] (blob.cpp 712-761) *)

(** [for (i = 0; i < count_; ++i) dst[i] = src(i)], with [n] iterations
    left at index [i]. *)
Fixpoint copy_loop {Src : Type} (conv : Src -> Dtype) (src : list Src) (dst : nat)
    (i n : nat) (h : Heap) : Outcome Heap :=
  match n with
  | O => Ok h
  | S n' =>
      v ← vector_get src i;
      h' ← store h dst i (conv v);
      copy_loop conv src dst (S i) n' h'
  end.

(** The shape [FromProto] reshapes to. *)
Definition proto_target_shape (proto : BlobProto Float Double) : list Z :=
  if uses_legacy_fields proto then
    [Proto.num proto; Proto.channels proto; Proto.height proto; Proto.width proto]
  else dims_to_int_tp (proto_shape proto).

Definition FromProto_shape (h : Heap) (b : Blob) (proto : BlobProto Float Double)
    (reshape : bool) : Outcome (Heap * Blob) :=
  if reshape then
    '(h1, b1, _) ← Reshape1 h b (proto_target_shape proto);
    Ok (h1, b1)
  else
    CHECK (ShapeEquals b proto);;
    Ok (h, b).

Definition FromProto_data (h : Heap) (b : Blob) (proto : BlobProto Float Double)
    : Outcome Heap :=
  '(h1, data_vec) ← mutable_cpu_data h b;
  if 0 <? Proto.double_data_size proto then
    CHECK (count_ b =? Proto.double_data_size proto);;
    copy_loop of_double (proto_double_data proto) data_vec 0 (Z.to_nat (count_ b)) h1
  else
    CHECK (count_ b =? Proto.data_size proto);;
    copy_loop of_float (proto_data proto) data_vec 0 (Z.to_nat (count_ b)) h1.

Definition FromProto_diff (h : Heap) (b : Blob) (proto : BlobProto Float Double)
    : Outcome Heap :=
  if 0 <? Proto.double_diff_size proto then
    CHECK (count_ b =? Proto.double_diff_size proto);;
    '(h1, diff_vec) ← mutable_cpu_diff h b;
    copy_loop of_double (proto_double_diff proto) diff_vec 0 (Z.to_nat (count_ b)) h1
  else if 0 <? Proto.diff_size proto then
    CHECK (count_ b =? Proto.diff_size proto);;
    '(h1, diff_vec) ← mutable_cpu_diff h b;
    copy_loop of_float (proto_diff proto) diff_vec 0 (Z.to_nat (count_ b)) h1
  else Ok h.

Definition FromProto (h : Heap) (b : Blob) (proto : BlobProto Float Double)
    (reshape : bool) : Outcome (Heap * Blob) :=
  '(h1, b1) ← FromProto_shape h b proto reshape;   (* lines 714-734 *)
  h2 ← FromProto_data h1 b1 proto;                 (* lines 736-747 *)
  h3 ← FromProto_diff h2 b1 proto;                 (* lines 748-760 *)
  Ok (h3, b1).

(** *** The loops of [ToProto] (blob.cpp 763-805) *)

(** [for (i = 0; i < shape_.size(); ++i)] adding [shape_[i]] and
    [shape_stride_[i]] to the message. *)
Fixpoint ToProto_shape_loop (b : Blob) (i n : nat) (proto : BlobProto Float Double)
    : Outcome (BlobProto Float Double) :=
  match n with
  | O => Ok proto
  | S n' =>
      d ← vector_get (shape_ b) i;
      let proto := Proto.add_shape_dim d proto in
      s ← vector_get (shape_stride_ b) i;
      let proto := Proto.add_shape_stride_dim s proto in
      ToProto_shape_loop b (S i) n' proto
  end.

(** [for (i = 0; i < count_; ++i) proto->add_x(src[i])] *)
Fixpoint ToProto_payload_loop
    (add : Dtype -> BlobProto Float Double -> BlobProto Float Double)
    (h : Heap) (src : nat) (i n : nat) (proto : BlobProto Float Double)
    : Outcome (BlobProto Float Double) :=
  match n with
  | O => Ok proto
  | S n' =>
      v ← load h src i;
      ToProto_payload_loop add h src (S i) n' (add v proto)
  end.

End BlobTemplate.

Arguments Heap : clear implicits.
Arguments Cell : clear implicits.
Arguments Blob : clear implicits.

(** ** [ToProto] for [Blob<float>] and [Blob<double>] (blob.cpp 763-805)

    The two explicit specialisations.  At [Dtype = float] the payload
    fields [data]/[diff] hold the blob's own element type, at
    [Dtype = double] the fields [double_data]/[double_diff] do. *)

Section FloatDouble.
Context {Float Double Quantizer : Type}.
Variable float_zero : Float.
Variable double_zero : Double.

Definition ToProto_float (h : Heap Float) (b : Blob Quantizer)
    (proto : BlobProto Float Double) (write_diff : bool)
    : Outcome (Heap Float * BlobProto Float Double) :=
  let proto := Proto.clear_shape proto in
  proto ← ToProto_shape_loop b 0 (length (shape_ b)) proto;
  let proto := Proto.set_data_type float proto in
  let proto := Proto.clear_data proto in
  let proto := Proto.clear_diff proto in
  '(h1, data_vec) ← cpu_data h b;
  proto ← ToProto_payload_loop float float_zero Proto.add_data
            h1 data_vec 0 (Z.to_nat (count_ b)) proto;
  if write_diff then
    '(h2, diff_vec) ← cpu_diff h1 b;
    proto ← ToProto_payload_loop float float_zero Proto.add_diff
              h2 diff_vec 0 (Z.to_nat (count_ b)) proto;
    Ok (h2, proto)
  else Ok (h1, proto).

Definition ToProto_double (h : Heap Double) (b : Blob Quantizer)
    (proto : BlobProto Float Double) (write_diff : bool)
    : Outcome (Heap Double * BlobProto Float Double) :=
  let proto := Proto.clear_shape proto in
  proto ← ToProto_shape_loop b 0 (length (shape_ b)) proto;
  let proto := Proto.set_data_type double proto in
  let proto := Proto.clear_double_data proto in
  let proto := Proto.clear_double_diff proto in
  '(h1, data_vec) ← cpu_data h b;
  proto ← ToProto_payload_loop double double_zero Proto.add_double_data
            h1 data_vec 0 (Z.to_nat (count_ b)) proto;
  if write_diff then
    '(h2, diff_vec) ← cpu_diff h1 b;
    proto ← ToProto_payload_loop double double_zero Proto.add_double_diff
              h2 diff_vec 0 (Z.to_nat (count_ b)) proto;
    Ok (h2, proto)
  else Ok (h1, proto).

(** [FromProto] at the two element types.  Reading a payload of the
    blob's own type converts nothing; the other payload goes through the
    C++ narrowing or widening conversion. *)
Variable USE_INDEX_64 : bool.
Variable kMaxBlobAxes : nat.
Variable double_to_float : Double -> Float.
Variable float_to_double : Float -> Double.

Definition FromProto_float (h : Heap Float) (b : Blob Quantizer)
    (proto : BlobProto Float Double) (reshape : bool)
    : Outcome (Heap Float * Blob Quantizer) :=
  FromProto USE_INDEX_64 kMaxBlobAxes float (fun x => x) double_to_float
            h b proto reshape.

Definition FromProto_double (h : Heap Double) (b : Blob Quantizer)
    (proto : BlobProto Float Double) (reshape : bool)
    : Outcome (Heap Double * Blob Quantizer) :=
  FromProto USE_INDEX_64 kMaxBlobAxes double float_to_double (fun x => x)
            h b proto reshape.

End FloatDouble.

(** * Further members of [Blob<Dtype>]

    The members of [blob.cpp] beside those above: the [BlobShape]
    overloads of [Reshape], the four-extent constructor, the pointer
    setters, [CopyFrom], [Clear], the quantized element accessors and
    the generic [ToProto]. *)

(** [Caffe::mode()], the ambient compute mode. *)
Inductive Brew : Set := CPU | GPU.

(** Modelled from the spec: [SyncedMemory::set_cpu_data] and
    [set_gpu_data], the "set host / accelerator pointer" override of
    the absent [syncedmem.hpp]: the buffer adopts the caller's storage
    in place of its own, and that side becomes the valid one.  The
    adopted storage is kept by its contents [ext]. *)
Definition SyncedMemory_set_cpu_data {A : Type} (ext : gmap nat A)
    (m : SyncedMemory.t A) : SyncedMemory.t A :=
  SyncedMemory.set_head HEAD_AT_CPU (SyncedMemory.set_cpu_mem ext m).
Definition SyncedMemory_set_gpu_data {A : Type} (ext : gmap nat A)
    (m : SyncedMemory.t A) : SyncedMemory.t A :=
  SyncedMemory.set_head HEAD_AT_GPU (SyncedMemory.set_gpu_mem ext m).

Section BlobMembers.
Variable USE_INDEX_64 : bool.
Variable CPU_ONLY : bool.
Variable kMaxBlobAxes : nat.
Variable elem_type : ElemType.
Context {Dtype : Type}.
Variable zero : Dtype.

(** [Caffe::mode()] is read where the C++ reads it. *)
Variable mode : Brew.

(** Further helpers of [math_functions.hpp] and of the device backend;
    as before, each takes the element count and the first [count]
    elements behind its pointers and returns the new contents of the
    array it overwrites. *)
Variable caffe_cpu_copy : Z -> list Dtype -> list Dtype.
Variable device_copy : Z -> list Dtype -> list Dtype.
Variable caffe_set : Z -> Dtype -> list Dtype.
Variable device_set : Z -> Dtype -> list Dtype.

(** The quantizer's two directions on the host. *)
Context {Quantizer External : Type}.
Variable Backward_cpu : Quantizer -> Z -> list Dtype -> list External.
Variable Forward_cpu : Quantizer -> Z -> list External -> list Dtype.

Context {Float Double : Type}.

Local Abbreviation sizeof := (sizeof_Dtype elem_type).
Local Abbreviation Reshape_ := (Reshape USE_INDEX_64 kMaxBlobAxes elem_type).

(** *** [Reshape] from a [BlobShape] (blob.cpp 64-85) *)

(** The loop of lines 70-73, filling the two vectors that were sized to
    [shape.dim_size()]. *)
Fixpoint BlobShape_loop2 (shape shape_stride : list Z) (i n : nat)
    (shape_vec shape_stride_vec : list Z) : Outcome (list Z * list Z) :=
  match n with
  | O => Ok (shape_vec, shape_stride_vec)
  | S n' =>
      d ← vector_get shape i;
      shape_vec' ← vector_set shape_vec i (wrap_int_tp USE_INDEX_64 d);
      s ← vector_get shape_stride i;
      shape_stride_vec' ← vector_set shape_stride_vec i (wrap_int_tp USE_INDEX_64 s);
      BlobShape_loop2 shape shape_stride (S i) n' shape_vec' shape_stride_vec'
  end.

(** The loop of lines 81-83. *)
Fixpoint BlobShape_loop1 (shape : list Z) (i n : nat) (shape_vec : list Z)
    : Outcome (list Z) :=
  match n with
  | O => Ok shape_vec
  | S n' =>
      d ← vector_get shape i;
      shape_vec' ← vector_set shape_vec i (wrap_int_tp USE_INDEX_64 d);
      BlobShape_loop1 shape (S i) n' shape_vec'
  end.

(** [Reshape(const BlobShape& shape, const BlobShape& shape_stride)];
    a [BlobShape] is given by its [dim] list. *)
Definition Reshape_BlobShape2 (h : Heap Dtype) (b : Blob Quantizer)
    (shape shape_stride : list Z) : Outcome (Heap Dtype * Blob Quantizer * bool) :=
  CHECK (length shape <=? kMaxBlobAxes)%nat;;
  '(shape_vec, shape_stride_vec) ←
    BlobShape_loop2 shape shape_stride 0 (length shape)
                    (replicate (length shape) 0) (replicate (length shape) 0);
  Reshape_ h b shape_vec shape_stride_vec.

(** [Reshape(const BlobShape& shape)] *)
Definition Reshape_BlobShape1 (h : Heap Dtype) (b : Blob Quantizer)
    (shape : list Z) : Outcome (Heap Dtype * Blob Quantizer * bool) :=
  CHECK (length shape <=? kMaxBlobAxes)%nat;;
  shape_vec ← BlobShape_loop1 shape 0 (length shape) (replicate (length shape) 0);
  Reshape_ h b shape_vec shape_vec.

(** *** [Blob(num, channels, height, width, dev)] (blob.cpp 97-105) *)
Definition Blob_ctor4 (h : Heap Dtype) (q : option Quantizer)
    (num channels height width : Z) (dev : Device)
    : Outcome (Heap Dtype * Blob Quantizer) :=
  let b := unconstructed q in
  let b := mkBlob (data_ b) (diff_ b) (shape_data_ b) (shape_ b)
                  (shape_stride_ b) (count_ b) 0 dev (net_quant_ b) in
  '(h', b', _) ← Reshape4 USE_INDEX_64 kMaxBlobAxes elem_type h b
                   num channels height width;
  Ok (h', b').

(** *** [gpu_shape] (blob.cpp 120-124)

    The shape cache is held by this blob alone; the call may bring its
    accelerator copy up to date, so the blob after the call is returned
    with the buffer the pointer refers to. *)
Definition gpu_shape (b : Blob Quantizer)
    : Outcome (Blob Quantizer * SyncedMemory.t Z) :=
  CHECK (non_null (shape_data_ b));;
  sd ← deref (shape_data_ b);
  let sd' := SyncedMemory.gpu_data sd in
  Ok (mkBlob (data_ b) (diff_ b) (Some sd') (shape_ b) (shape_stride_ b)
             (count_ b) (capacity_ b) (device_ b) (net_quant_ b), sd').

(** *** [set_cpu_data] / [set_gpu_data] on a raw pointer
        (blob.cpp 132-159) *)

(** [p->size()] on a handle. *)
Definition size_of (h : Heap Dtype) (p : option nat) : Outcome Z :=
  l ← deref p;
  c ← deref (cells h !! l);
  Ok (SyncedMemory.size (obj c)).

(** The two [reset(new SyncedMemory(size, device_))] of lines 138-139
    and 155-156. *)
Definition reset_buffers (h : Heap Dtype) (b : Blob Quantizer) (size : Z)
    : Heap Dtype * Blob Quantizer :=
  let '(h1, l1) := alloc h (SyncedMemory.new size (device_ b)) in
  let h2 := release h1 (data_ b) in
  let b1 := set_data_ (Some l1) b in
  let '(h3, l2) := alloc h2 (SyncedMemory.new size (device_ b1)) in
  let h4 := release h3 (diff_ b1) in
  (h4, set_diff_ (Some l2) b1).

(** The argument [data] is null ([None]) or points to the caller's
    storage, given by its contents.  [safe_sizeof<Dtype>()] of the
    absent [type_utils.hpp] is [sizeof(Dtype)] at the instantiated
    element types. *)
Definition set_cpu_data (h : Heap Dtype) (b : Blob Quantizer)
    (data : option (gmap nat Dtype)) : Outcome (Heap Dtype * Blob Quantizer) :=
  CHECK (non_null data);;
  ext ← deref data;
  let size := size_t_mul (count_ b) sizeof in
  sz ← size_of h (data_ b);
  let '(h1, b1) := if negb (sz =? size) then reset_buffers h b size else (h, b) in
  '(h2, _) ← call_on h1 (data_ b1) (SyncedMemory_set_cpu_data ext);
  Ok (h2, b1).

(** An accelerator pointer is not checked against null. *)
Definition set_gpu_data (h : Heap Dtype) (b : Blob Quantizer)
    (data : gmap nat Dtype) : Outcome (Heap Dtype * Blob Quantizer) :=
  let size := size_t_mul (count_ b) sizeof in
  sz ← size_of h (data_ b);
  let '(h1, b1) := if negb (sz =? size) then reset_buffers h b size else (h, b) in
  '(h2, _) ← call_on h1 (data_ b1) (SyncedMemory_set_gpu_data data);
  Ok (h2, b1).

(** *** [CopyFrom] (blob.cpp 677-710) *)
Definition CopyFrom (h : Heap Dtype) (b source : Blob Quantizer)
    (copy_diff reshape : bool) : Outcome (Heap Dtype * Blob Quantizer) :=
  '(h1, b1) ←
    (if negb (count source =? count_ b)
        || negb (bool_decide (shape source = shape_ b))
     then
       if reshape then
         '(h', b', _) ← ReshapeLike USE_INDEX_64 kMaxBlobAxes elem_type h b source;
         Ok (h', b')
       else Fatal LOG_FATAL     (* "Trying to copy blobs of different sizes." *)
     else Ok (h, b));
  match mode with
  | GPU =>
      if copy_diff then
        '(h2, src) ← gpu_diff h1 source;
        '(h3, dst) ← call_on h2 (diff_ b1) SyncedMemory.mutable_gpu_data;
        xs ← read_gpu elem_type zero h3 src (count_ b1);
        _ ← read_gpu elem_type zero h3 dst (count_ b1);
        h4 ← write_gpu elem_type h3 dst (device_copy (count_ b1) xs);
        Ok (h4, b1)
      else
        '(h2, src) ← gpu_data h1 source;
        '(h3, dst) ← call_on h2 (data_ b1) SyncedMemory.mutable_gpu_data;
        xs ← read_gpu elem_type zero h3 src (count_ b1);
        _ ← read_gpu elem_type zero h3 dst (count_ b1);
        h4 ← write_gpu elem_type h3 dst (device_copy (count_ b1) xs);
        Ok (h4, b1)
  | CPU =>
      if copy_diff then
        '(h2, src) ← cpu_diff h1 source;
        '(h3, dst) ← call_on h2 (diff_ b1) SyncedMemory.mutable_cpu_data;
        xs ← read_cpu elem_type zero h3 src (count_ b1);
        _ ← read_cpu elem_type zero h3 dst (count_ b1);
        h4 ← write_cpu elem_type h3 dst (caffe_cpu_copy (count_ b1) xs);
        Ok (h4, b1)
      else
        '(h2, src) ← cpu_data h1 source;
        '(h3, dst) ← call_on h2 (data_ b1) SyncedMemory.mutable_cpu_data;
        xs ← read_cpu elem_type zero h3 src (count_ b1);
        _ ← read_cpu elem_type zero h3 dst (count_ b1);
        h4 ← write_cpu elem_type h3 dst (caffe_cpu_copy (count_ b1) xs);
        Ok (h4, b1)
  end.

(** *** [Clear] (blob.cpp 897-913) *)
Definition Clear (h : Heap Dtype) (b : Blob Quantizer) : Outcome (Heap Dtype) :=
  match mode with
  | CPU =>
      '(h1, p) ← mutable_cpu_diff h b;
      _ ← read_cpu elem_type zero h1 p (count b);
      write_cpu elem_type h1 p (caffe_set (count b) zero)
  | GPU =>
      if CPU_ONLY then NO_GPU_
      else
        '(h1, p) ← mutable_gpu_diff h b;
        _ ← read_gpu elem_type zero h1 p (count b);
        write_gpu elem_type h1 p (device_set (count b) zero)
  end.

(** *** Quantized element accessors on the host (blob.cpp 856-886)

    The [CHECK] of each is on the pointer the buffer returns, which the
    buffer model never has null; the handle itself is dereferenced
    unchecked. *)

(** [cpu_data(void* out)], [cpu_diff(void* out)]: what is written to
    [out]. *)
Definition cpu_data_out (h : Heap Dtype) (b : Blob Quantizer)
    : Outcome (Heap Dtype * list External) :=
  '(h1, _) ← call_on h (data_ b) SyncedMemory.mutable_cpu_data;
  q ← deref (net_quant_ b);
  '(h2, p) ← call_on h1 (data_ b) SyncedMemory.mutable_cpu_data;
  xs ← read_cpu elem_type zero h2 p (count b);
  Ok (h2, Backward_cpu q (count b) xs).

Definition cpu_diff_out (h : Heap Dtype) (b : Blob Quantizer)
    : Outcome (Heap Dtype * list External) :=
  '(h1, _) ← call_on h (diff_ b) SyncedMemory.mutable_cpu_data;
  q ← deref (net_quant_ b);
  '(h2, p) ← call_on h1 (diff_ b) SyncedMemory.mutable_cpu_data;
  xs ← read_cpu elem_type zero h2 p (count b);
  Ok (h2, Backward_cpu q (count b) xs).

(** [set_cpu_data(const void* in)], [set_cpu_diff(const void* in)]:
    [input] is the first [count()] elements behind [in]. *)
Definition set_cpu_data_in (h : Heap Dtype) (b : Blob Quantizer)
    (input : list External) : Outcome (Heap Dtype) :=
  '(h1, _) ← call_on h (data_ b) SyncedMemory.cpu_data;
  q ← deref (net_quant_ b);
  '(h2, p) ← call_on h1 (data_ b) SyncedMemory.mutable_cpu_data;
  _ ← read_cpu elem_type zero h2 p (count b);
  write_cpu elem_type h2 p (Forward_cpu q (count b) input).

Definition set_cpu_diff_in (h : Heap Dtype) (b : Blob Quantizer)
    (input : list External) : Outcome (Heap Dtype) :=
  '(h1, _) ← call_on h (diff_ b) SyncedMemory.cpu_data;
  q ← deref (net_quant_ b);
  '(h2, p) ← call_on h1 (diff_ b) SyncedMemory.mutable_cpu_data;
  _ ← read_cpu elem_type zero h2 p (count b);
  write_cpu elem_type h2 p (Forward_cpu q (count b) input).

(** *** The generic [ToProto] (blob.cpp 807-823)

    The template body, instantiated at the element types other than
    [float] and [double].  [packed_data] is raw bytes in the message; it
    is kept here as the [count_] elements whose byte image it is, and
    returned beside the message.  [set_packed_data] replaces the field,
    so its earlier content plays no part. *)
Definition ToProto_generic (h : Heap Dtype) (b : Blob Quantizer)
    (proto : BlobProto Float Double) (write_diff : bool)
    : Outcome (Heap Dtype * BlobProto Float Double * list Dtype) :=
  let proto := Proto.clear_shape proto in
  proto ← ToProto_shape_loop b 0 (length (shape_ b)) proto;
  let proto := Proto.set_data_type elem_type proto in
  let proto := Proto.clear_double_data proto in
  let proto := Proto.clear_double_diff proto in
  '(h1, data_vec) ← cpu_data h b;
  packed_data ← read_cpu elem_type zero h1 data_vec (count_ b);
  if write_diff then
    '(h2, diff_vec) ← cpu_diff h1 b;
    packed_data ← read_cpu elem_type zero h2 diff_vec (count_ b);   (* line 821 *)
    Ok (h2, proto, packed_data)
  else Ok (h1, proto, packed_data).

End BlobMembers.

(** * Specification-side definitions *)

(** The element count of a shape. *)
Definition product (extents : list Z) : Z := foldr Z.mul 1 extents.

(** The overflow check of every multiplication step, as the spec words
    it: [extent[i] <= IntMax / count_so_far], skipped while
    [count_so_far = 0]. *)
Fixpoint overflow_checks (IntMax : Z) (count_so_far : Z) (extents : list Z) : Prop :=
  match extents with
  | [] => True
  | e :: rest =>
      (count_so_far = 0 \/ e <= IntMax / count_so_far)
      /\ overflow_checks IntMax (count_so_far * e) rest
  end.

(** A shape [Reshape] accepts. *)
Definition valid_shape (kMaxAxes : nat) (IntMax : Z) (S : list Z) : Prop :=
  (length S <= kMaxAxes)%nat /\ Forall (fun e => 0 <= e) S /\ overflow_checks IntMax 1 S.

Section Callers.
Variable USE_INDEX_64 : bool.
Variable kMaxBlobAxes : nat.
Variable elem_type : ElemType.
Context {Dtype Quantizer : Type}.

(** A caller reshaping one blob to each shape of a list in turn. *)
Fixpoint Reshape_sequence (h : Heap Dtype) (b : Blob Quantizer)
    (shapes : list (list Z)) : Outcome (Heap Dtype * Blob Quantizer) :=
  match shapes with
  | [] => Ok (h, b)
  | shp :: rest =>
      '(h1, b1, _) ← Reshape1 USE_INDEX_64 kMaxBlobAxes elem_type h b shp;
      Reshape_sequence h1 b1 rest
  end.

(** Every handle of the blob was handed out by the store. *)
Definition handles_allocated (h : Heap Dtype) (b : Blob Quantizer) : Prop :=
  forall l, data_ b = Some l \/ diff_ b = Some l -> (l < next_loc h)%nat.

(** The object at [l] is a buffer of [bytes] bytes. *)
Definition buffer_of_size (h : Heap Dtype) (p : option nat) (bytes : Z) : Prop :=
  exists l c, p = Some l /\ cells h !! l = Some c /\ SyncedMemory.size (obj c) = bytes.

(** Both buffers are sized to the capacity (once there is one). *)
Definition buffers_track_capacity (h : Heap Dtype) (b : Blob Quantizer) : Prop :=
  handles_allocated h b
  /\ (0 < capacity_ b ->
      buffer_of_size h (data_ b) (size_t_mul (capacity_ b) (sizeof_elem elem_type))
      /\ buffer_of_size h (diff_ b) (size_t_mul (capacity_ b) (sizeof_elem elem_type))).

(** [l] is a newly created, never touched buffer of [bytes] bytes with
    one handle to it. *)
Definition fresh_buffer (h h' : Heap Dtype) (l : nat) (bytes : Z) (dev : Device) : Prop :=
  (next_loc h <= l)%nat
  /\ cells h' !! l = Some (mkCell (SyncedMemory.new bytes dev) 1).
End Callers.


Section Residency.
Context {Dtype : Type}.

(** The buffer behind handle [p] exists and has residency state [st]. *)
Definition residency (h : Heap Dtype) (p : option nat) (st : SyncedHead) : Prop :=
  exists l c, p = Some l /\ cells h !! l = Some c /\ SyncedMemory.head (obj c) = st.
End Residency.

(** The eight integer element types. *)
Definition integer_types : list ElemType :=
  [int8_t; int16_t; int32_t; int64_t; uint8_t; uint16_t; uint32_t; uint64_t].

(** The four legacy axes of a local shape of rank at most 4: its axes
    read from the end, the missing leading ones counting as 1. *)
Definition legacy_axes (shape : list Z) : list Z :=
  replicate (4 - length shape) 1 ++ shape.

(** The values an [int_tp] holds. *)
Definition int_tp_range (USE_INDEX_64 : bool) (x : Z) : Prop :=
  - 2 ^ (int_tp_bits USE_INDEX_64 - 1) <= x < 2 ^ (int_tp_bits USE_INDEX_64 - 1).

Section Contents.
Variable elem_type : ElemType.
Context {Dtype Quantizer Float Double : Type}.
Variable zero : Dtype.
Variable of_float : Float -> Dtype.
Variable of_double : Double -> Dtype.

(** The first [n] elements of the host copy of the buffer behind [p]:
    what a reader of [cpu_data()] / [cpu_diff()] sees of a tensor of
    count [n]. *)
Definition host_values (h : Heap Dtype) (p : option nat) (n : Z) : option (list Dtype) :=
  l ← p;
  c ← cells h !! l;
  Some (SyncedMemory.read_mem zero (SyncedMemory.cpu_mem (obj c)) (Z.to_nat n)).

(** The buffer behind [p] exists and has room for [n] elements. *)
Definition can_hold (h : Heap Dtype) (p : option nat) (n : Z) : Prop :=
  exists l c, p = Some l /\ cells h !! l = Some c
              /\ n * sizeof_elem elem_type <= SyncedMemory.size (obj c).

(** ... and its valid copy is on the host. *)
Definition host_resident (h : Heap Dtype) (p : option nat) (n : Z) : Prop :=
  exists l c, p = Some l /\ cells h !! l = Some c
              /\ n * sizeof_elem elem_type <= SyncedMemory.size (obj c)
              /\ (SyncedMemory.head (obj c) = HEAD_AT_CPU
                  \/ SyncedMemory.head (obj c) = SYNCED).

(** The element values a message carries for the values buffer, and for
    the gradients buffer if it has diff content, as [FromProto] selects
    and converts them: the double payload when non-empty, else the float
    payload. *)
Definition data_payload (proto : BlobProto Float Double) : list Dtype :=
  if 0 <? Proto.double_data_size proto
  then of_double <$> proto_double_data proto
  else of_float <$> proto_data proto.

Definition diff_payload (proto : BlobProto Float Double) : option (list Dtype) :=
  if 0 <? Proto.double_diff_size proto
  then Some (of_double <$> proto_double_diff proto)
  else if 0 <? Proto.diff_size proto
       then Some (of_float <$> proto_diff proto)
       else None.

(** A message without legacy shape fields and without payload, such as
    a newly constructed one. *)
Definition no_stale_content (proto : BlobProto Float Double) : Prop :=
  uses_legacy_fields proto = false
  /\ proto_data proto = [] /\ proto_diff proto = []
  /\ proto_double_data proto = [] /\ proto_double_diff proto = [].
End Contents.

Section RoundTripConditions.
Variable USE_INDEX_64 : bool.
Variable elem_type : ElemType.
Context {Dtype Quantizer : Type}.

(** The blob being serialised: values (and, when they are written,
    gradients) valid on the host in buffers that hold [count_] elements,
    a stride entry for every axis, and extents that are [int_tp]
    values. *)
Definition serialisable (h : Heap Dtype) (b : Blob Quantizer) (write_diff : bool) : Prop :=
  host_resident elem_type h (data_ b) (count_ b)
  /\ (write_diff = true -> host_resident elem_type h (diff_ b) (count_ b))
  /\ 0 <= count_ b
  /\ (length (shape_ b) <= length (shape_stride_ b))%nat
  /\ Forall (int_tp_range USE_INDEX_64) (shape_ b).

(** The blob deserialised into: the shape and count of [src], a values
    buffer with room for them and, when gradients are written, a
    gradients buffer with room that is another object. *)
Definition receiving (h : Heap Dtype) (src b : Blob Quantizer) (write_diff : bool) : Prop :=
  shape_ b = shape_ src /\ count_ b = count_ src
  /\ can_hold elem_type h (data_ b) (count_ b)
  /\ (write_diff = true ->
      can_hold elem_type h (diff_ b) (count_ b) /\ data_ b <> diff_ b).

(** For a deserialisation that reshapes: the serialised shape is one
    [Reshape] accepts, the count is its product, and the receiving blob
    has the capacity for it (so that it keeps its buffers). *)
Definition reshape_keeps (kMaxBlobAxes : nat) (src b : Blob Quantizer) : Prop :=
  valid_shape kMaxBlobAxes (INT_TP_MAX USE_INDEX_64) (shape_ src)
  /\ count_ src = product (shape_ src)
  /\ count_ src <= capacity_ b.
End RoundTripConditions.

(** ** A concrete instance

    A 32-bit-index build with rank bound 32, integers standing for the
    element values, and the store before any allocation. *)
Module Example.
Definition store0 : Heap Z := mkHeap ∅ 0.
Definition blob0 : Blob unit := unconstructed None.

(** A host-resident buffer of [float]-sized cells holding [vs]. *)
Definition host_buffer (vs : list Z) : SyncedMemory.t Z :=
  SyncedMemory.mk (Z.of_nat (length vs) * sizeof_elem float) HEAD_AT_CPU
                  (SyncedMemory.write_mem 0 vs ∅) ∅ 0%nat.

(** A blob of shape [2] with values 3, 4 and gradients 1, 2. *)
Definition store1 : Heap Z :=
  mkHeap (<[0%nat := mkCell (host_buffer [3; 4]) 1]>
            (<[1%nat := mkCell (host_buffer [1; 2]) 1]> ∅)) 2.
Definition blob1 : Blob unit :=
  mkBlob (Some 0%nat) (Some 1%nat) None [2] [2] 2 2 0%nat (Some tt).

(** Integer stand-ins for the external helpers. *)
Definition dot (n : Z) (xs ys : list Z) : Z := foldr Z.add 0 (zip_with Z.mul xs ys).
Definition asum (n : Z) (xs : list Z) : Z := foldr Z.add 0 (Z.abs <$> xs).
Definition axpy (n : Z) (alpha : Z) (xs ys : list Z) : list Z :=
  zip_with (fun x y => alpha * x + y) xs ys.
Definition scal (n : Z) (alpha : Z) (xs : list Z) : list Z := Z.mul alpha <$> xs.
(** A quantizer that copies. *)
Definition expand (q : unit) (n : Z) (xs : list Z) : list Z := xs.

(** A second blob of the same count with buffers of its own, both
    never touched. *)
Definition store2 : Heap Z :=
  mkHeap (<[2%nat := mkCell (SyncedMemory.new 8 0%nat) 1]>
            (<[3%nat := mkCell (SyncedMemory.new 8 0%nat) 1]> (cells store1))) 4.
Definition blob2 : Blob unit :=
  mkBlob (Some 2%nat) (Some 3%nat) None [2] [2] 2 2 0%nat (Some tt).

(** A bias blob and a legacy descriptor of it; a message of three
    elements; a newly constructed message. *)
Definition bias_blob : Blob unit :=
  mkBlob None None None [1; 1; 1; 5] [] 5 5 0%nat None.
Definition legacy_message : BlobProto Z Z :=
  mkBlobProto (Some 1) (Some 1) (Some 1) (Some 5) [] [] None [] [] [] [].
Definition message3 : BlobProto Z Z :=
  mkBlobProto None None None None [3] [] None [7; 8; 9] [] [] [].
Definition new_message : BlobProto Z Z := Proto.empty.

(** The store with two buffers of the given contents at locations 0
    (values) and 1 (gradients), and the blob of count [n] on them. *)
Definition store_of (values gradients : list Z) : Heap Z :=
  mkHeap (<[0%nat := mkCell (host_buffer values) 1]>
            (<[1%nat := mkCell (host_buffer gradients) 1]> ∅)) 2.
Definition blob_of (n : Z) : Blob unit :=
  mkBlob (Some 0%nat) (Some 1%nat) None [n] [n] n n 0%nat (Some tt).
Definition values_after (r : Outcome (Heap Z)) (n : Z) : option (list Z) :=
  match r with
  | Ok h => host_values 0 h (Some 0%nat) n
  | _ => None
  end.
Definition result_of {A : Type} (r : Outcome (Heap Z * A)) : option A :=
  match r with
  | Ok (_, v) => Some v
  | _ => None
  end.
End Example.

(** ** Conditions on blobs used by the further properties *)

Section Ownership.
Variable USE_INDEX_64 : bool.
Variable kMaxBlobAxes : nat.
Variable elem_type : ElemType.
Context {Dtype Quantizer : Type}.

(** [b1] in store [h1] is what one of the two constructors made,
    starting from store [h]. *)
Definition constructed (h h1 : Heap Dtype) (b1 : Blob Quantizer) : Prop :=
  (exists q shape dev,
     Blob_ctor USE_INDEX_64 kMaxBlobAxes elem_type h q shape dev = Ok (h1, b1))
  \/ (exists q num channels height width dev,
        Blob_ctor4 USE_INDEX_64 kMaxBlobAxes elem_type h q num channels height width dev
        = Ok (h1, b1)).

(** The blob has no buffers while its capacity is 0, and from then on
    two live buffers of its own, distinct objects, each created for
    [capacity_] elements. *)
Definition owns_buffers (h : Heap Dtype) (b : Blob Quantizer) : Prop :=
  handles_allocated h b
  /\ 0 <= capacity_ b
  /\ (capacity_ b = 0 -> data_ b = None /\ diff_ b = None)
  /\ (0 < capacity_ b ->
      exists l1 l2 c1 c2,
        data_ b = Some l1 /\ diff_ b = Some l2 /\ l1 <> l2
        /\ cells h !! l1 = Some c1 /\ cells h !! l2 = Some c2
        /\ SyncedMemory.size (obj c1) = size_t_mul (capacity_ b) (sizeof_elem elem_type)
        /\ SyncedMemory.size (obj c2) = size_t_mul (capacity_ b) (sizeof_elem elem_type)).
End Ownership.

(** The buffer [CopyFrom] works on: the gradients with [copy_diff], else
    the values. *)
Definition copied_side {Quantizer : Type} (copy_diff : bool) (b : Blob Quantizer)
    : option nat :=
  if copy_diff then diff_ b else data_ b.

(** The buffer behind [p] exists, has room for [n] elements and its
    only valid copy is on the host. *)
Definition host_only (elem_type : ElemType) {Dtype : Type} (h : Heap Dtype)
    (p : option nat) (n : Z) : Prop :=
  exists l c, p = Some l /\ cells h !! l = Some c
              /\ n * sizeof_elem elem_type <= SyncedMemory.size (obj c)
              /\ SyncedMemory.head (obj c) = HEAD_AT_CPU.

(** ... or it has a valid copy on the accelerator. *)
Definition on_accelerator {Dtype : Type} (h : Heap Dtype) (p : option nat) : Prop :=
  residency h p HEAD_AT_GPU \/ residency h p SYNCED.

(** ** The shape of a message, in the spec's words *)

Section MessageShape.
Variable USE_INDEX_64 : bool.
Context {Quantizer Float Double : Type}.

(** The message uses the legacy encoding: at least one of the four
    fields num, channels, height, width is present. *)
Definition legacy_encoded (proto : BlobProto Float Double) : Prop :=
  is_Some (proto_num proto) \/ is_Some (proto_channels proto)
  \/ is_Some (proto_height proto) \/ is_Some (proto_width proto).

(** The four legacy fields as read, an absent one reading 0. *)
Definition legacy_tuple (proto : BlobProto Float Double) : list Z :=
  [default 0 (proto_num proto); default 0 (proto_channels proto);
   default 0 (proto_height proto); default 0 (proto_width proto)].

(** The explicit shape list with every dim converted to the index type
    [int_tp]. *)
Definition dims_as_index (dims : list Z) : list Z :=
  (fun d => wrap_signed (if USE_INDEX_64 then 64 else 32) d) <$> dims.

(** The shape a message describes: the legacy four fields when any is
    present, otherwise the explicit shape list. *)
Inductive describes_shape (proto : BlobProto Float Double) : list Z -> Prop :=
  | described_by_legacy_fields :
      legacy_encoded proto -> describes_shape proto (legacy_tuple proto)
  | described_by_shape_list :
      ~ legacy_encoded proto ->
      describes_shape proto (dims_as_index (proto_shape proto)).

(** The message's shape matches the blob's: by the legacy rule (rank at
    most 4, the trailing axes padded in front with 1 equal the four
    fields) when the message is legacy encoded, element by element
    otherwise. *)
Definition shape_matches (b : Blob Quantizer) (proto : BlobProto Float Double) : Prop :=
  (legacy_encoded proto
   /\ (length (shape_ b) <= 4)%nat
   /\ legacy_axes (shape_ b) = legacy_tuple proto)
  \/ (~ legacy_encoded proto
      /\ shape_ b = dims_as_index (proto_shape proto)).
End MessageShape.

(** ** Further concrete inputs *)
Module Sample.
(** A message left over with two double values. *)
Definition stale_message : BlobProto Z Z :=
  mkBlobProto None None None None [] [] None [] [] [70; 80] [].

(** The blob of [Example.store1] after a reshape to one element: its
    buffers still have room for two. *)
Definition shrunk_blob : Blob unit :=
  mkBlob (Some 0%nat) (Some 1%nat) None [1] [1] 1 2 0%nat (Some tt).
(** Caller-owned storage holding 9. *)
Definition caller_storage : gmap nat Z := {[ 0%nat := 9 ]}.
(** A message of shape [2] with values 7, 8, and the message of an
    empty tensor of shape [0]. *)
Definition message2 : BlobProto Z Z :=
  mkBlobProto None None None None [2] [] None [7; 8] [] [] [].
Definition empty_tensor_message : BlobProto Z Z :=
  mkBlobProto None None None None [0] [] None [] [] [] [].
(** A store whose one buffer is valid on both sides, and a blob with
    its values there. *)
Definition synced_store : Heap Z :=
  mkHeap {[ 0%nat := mkCell (SyncedMemory.mk 8 SYNCED
                               (SyncedMemory.write_mem 0 [3; 4] ∅)
                               (SyncedMemory.write_mem 0 [3; 4] ∅) 0%nat) 1 ]} 1.
Definition synced_blob : Blob unit :=
  mkBlob (Some 0%nat) None None [2] [2] 2 2 0%nat None.
(** In the 32-bit-index build: a message of two values whose one dim,
    2^32 + 2, is not the extent 2; a descriptor with dim 2^32 + 5 and a
    blob of shape [5]. *)
Definition wrapped_message : BlobProto Z Z :=
  mkBlobProto None None None None [2 ^ 32 + 2] [] None [7; 8] [] [] [].
Definition wrapped_descriptor : BlobProto Z Z :=
  mkBlobProto None None None None [2 ^ 32 + 5] [] None [] [] [] [].
Definition blob5 : Blob unit :=
  mkBlob None None None [5] [] 5 5 0%nat None.
End Sample.
(** * Properties *)

Lemma obind_Ok {A B} (f : A -> Outcome B) (m : Outcome A) (r : B) :
  m ≫= f = Ok r -> exists a, m = Ok a /\ f a = Ok r.
Proof. destruct m; simpl; intros H; try discriminate. eauto. Qed.

Lemma CHECK_Ok c u : CHECK c = Ok u -> c = true.
Proof. destruct c; simpl; congruence. Qed.

Lemma wrap_signed_small bits x :
  0 < bits -> - 2 ^ (bits - 1) <= x < 2 ^ (bits - 1) -> wrap_signed bits x = x.
Proof.
  intros Hb Hx. unfold wrap_signed.
  assert (E : 2 ^ bits = 2 * 2 ^ (bits - 1)).
  { replace bits with (Z.succ (bits - 1)) at 1 by lia. rewrite Z.pow_succ_r; lia. }
  rewrite Z.mod_small; lia.
Qed.

Lemma index_in_span i n s size :
  (i < n)%nat -> 0 < s -> Z.of_nat n * s <= size -> (Z.of_nat i + 1) * s <= size.
Proof.
  intros Hi Hs Hn. transitivity (Z.of_nat n * s); [|done].
  apply Z.mul_le_mono_nonneg_r; lia.
Qed.

Section ReshapeFacts.
Variable USE_INDEX_64 : bool.
Local Abbreviation MAX := (INT_TP_MAX USE_INDEX_64).

Lemma INT_TP_MAX_pos : 0 < MAX.
Proof. unfold INT_TP_MAX, LONG_MAX, INT_MAX. destruct USE_INDEX_64; lia. Qed.

Lemma wrap_int_tp_small x : 0 <= x <= MAX -> wrap_int_tp USE_INDEX_64 x = x.
Proof.
  intros Hx. unfold wrap_int_tp, int_tp_bits. revert Hx.
  unfold INT_TP_MAX, LONG_MAX, INT_MAX.
  destruct USE_INDEX_64; intros; apply wrap_signed_small; lia.
Qed.

Lemma sizeof_int_tp_pos : 0 < sizeof_int_tp USE_INDEX_64.
Proof. unfold sizeof_int_tp. destruct USE_INDEX_64; lia. Qed.

(** the check of one step, in the two readings *)
Lemma step_check_mul cnt e :
  0 < cnt -> 0 <= e -> (e <= MAX `quot` cnt <-> cnt * e <= MAX).
Proof.
  intros Hc He. pose proof INT_TP_MAX_pos.
  rewrite Z.quot_div_nonneg by lia.
  split; intros Hle.
  - pose proof (Z.mul_div_le MAX cnt Hc). nia.
  - apply Z.div_le_lower_bound; lia.
Qed.

Lemma Reshape_loop_Ok rest : forall i cnt shp sd cnt' shp' sd',
  0 <= cnt <= MAX ->
  Reshape_loop USE_INDEX_64 i rest cnt shp sd = Ok (cnt', shp', sd') ->
  cnt' = cnt * product rest /\ 0 <= cnt' <= MAX
  /\ Forall (fun e => 0 <= e) rest /\ overflow_checks MAX cnt rest
  /\ (length shp = (i + length rest)%nat -> shp' = take i shp ++ rest).
Proof.
  induction rest as [|e rest IH]; intros i cnt shp sd cnt' shp' sd' Hc H; simpl in H.
  - injection H as <- <- <-. simpl. repeat split; try lia; auto.
    intros Hl. rewrite take_ge by lia. by rewrite app_nil_r.
  - apply obind_Ok in H as (u1 & H1 & H). apply CHECK_Ok in H1. apply Z.leb_le in H1.
    apply obind_Ok in H as (u2 & H2 & H).
    apply obind_Ok in H as (shp1 & H3 & H).
    apply obind_Ok in H as (sd1 & H4 & H).
    assert (Hstep : cnt = 0 \/ (0 < cnt /\ cnt * e <= MAX)).
    { destruct (Z.eqb_spec cnt 0) as [->|Hne]; [by left|right]. simpl in H2.
      apply CHECK_Ok in H2. apply Z.leb_le in H2. split; [lia|].
      apply step_check_mul; lia. }
    assert (Hce : 0 <= cnt * e <= MAX) by (destruct Hstep as [->|[? ?]]; nia).
    rewrite wrap_int_tp_small in H by exact Hce.
    apply IH in H as (-> & Hb & Hf & Hchk & Hshp); [|exact Hce].
    simpl. repeat split; try lia; auto.
    + destruct Hstep as [->|[Hpos Hle]]; [by left|right].
      rewrite <- Z.quot_div_nonneg by (pose proof INT_TP_MAX_pos; lia).
      apply step_check_mul; lia.
    + intros Hl. unfold vector_set in H3.
      destruct (i <? length shp)%nat eqn:Hi; [|discriminate]. injection H3 as <-.
      rewrite Hshp by (rewrite length_insert; simpl in Hl; lia).
      apply Nat.ltb_lt in Hi.
      rewrite (take_S_r _ _ e) by (apply list_lookup_insert_eq; lia).
      rewrite take_insert_ge by lia. by rewrite <- app_assoc.
Qed.

(** The two stores of one iteration of the [Reshape] loop, [shape_[i]]
    and [shape_data[i]], are in bounds. *)
Ltac loop_stores Hl Hsd :=
  unfold vector_set; cbn [length] in Hl, Hsd;
  match goal with
  | |- context [Nat.ltb ?i (length ?shp)] =>
      destruct (Nat.ltb_spec i (length shp)) as [_|]; [simpl|lia]
  end;
  unfold SyncedMemory.poke_cpu, SyncedMemory.in_bounds;
  match goal with
  | |- context [Z.leb ((Z.of_nat ?i + 1) * ?s) (SyncedMemory.size_ ?sd)] =>
      let Hout := fresh "Hout" in
      destruct (Z.leb_spec ((Z.of_nat i + 1) * s) (SyncedMemory.size_ sd)) as [_|Hout];
      [simpl
      |apply Z.lt_nge in Hout; destruct Hout;
       eapply index_in_span; [|apply sizeof_int_tp_pos|exact Hsd]; lia]
  end.

Lemma Reshape_loop_total rest : forall i cnt shp sd,
  0 <= cnt <= MAX ->
  (i + length rest <= length shp)%nat ->
  Z.of_nat (i + length rest) * sizeof_int_tp USE_INDEX_64 <= SyncedMemory.size_ sd ->
  Forall (fun e => 0 <= e) rest -> overflow_checks MAX cnt rest ->
  exists r, Reshape_loop USE_INDEX_64 i rest cnt shp sd = Ok r.
Proof.
  induction rest as [|e rest IH]; intros i cnt shp sd Hc Hl Hsd Hf Hchk; simpl.
  - eauto.
  - apply Forall_cons in Hf as [He Hf]. destruct Hchk as [Hstep Hchk].
    destruct (Z.leb_spec 0 e) as [_|]; [simpl|lia].
    assert (Hce : 0 <= cnt * e <= MAX /\
      (if negb (cnt =? 0) then CHECK (e <=? MAX `quot` cnt) else Ok ()) = Ok ()).
    { destruct (Z.eqb_spec cnt 0) as [->|Hne]; simpl.
      - pose proof INT_TP_MAX_pos. split; [lia|done].
      - destruct Hstep as [?|Hle]; [lia|].
        rewrite <- Z.quot_div_nonneg in Hle by (pose proof INT_TP_MAX_pos; lia).
        split; [split; [nia|apply step_check_mul; lia]|].
        destruct (Z.leb_spec e (MAX `quot` cnt)); [done|lia]. }
    destruct Hce as [Hce ->]. simpl.
    rewrite wrap_int_tp_small by exact Hce.
    loop_stores Hl Hsd.
    apply IH; auto.
    + rewrite length_insert. lia.
    + cbn [SyncedMemory.size_ SyncedMemory.set_cpu_mem].
      replace (S i + length rest)%nat with (i + S (length rest))%nat by lia. exact Hsd.
Qed.

Lemma Reshape_loop_fatal rest : forall i cnt shp sd,
  0 <= cnt <= MAX ->
  (i + length rest <= length shp)%nat ->
  Z.of_nat (i + length rest) * sizeof_int_tp USE_INDEX_64 <= SyncedMemory.size_ sd ->
  ~ (Forall (fun e => 0 <= e) rest /\ overflow_checks MAX cnt rest) ->
  Reshape_loop USE_INDEX_64 i rest cnt shp sd = Fatal CHECK_FAILED.
Proof.
  induction rest as [|e rest IH]; intros i cnt shp sd Hc Hl Hsd Hbad; simpl.
  - exfalso. apply Hbad. split; [constructor|exact I].
  - destruct (Z.leb_spec 0 e) as [He|]; [simpl|done].
    destruct (Z.eqb_spec cnt 0) as [Hz|Hne]; simpl.
    + subst cnt. rewrite wrap_int_tp_small by (pose proof INT_TP_MAX_pos; lia).
      loop_stores Hl Hsd.
      apply IH.
      * pose proof INT_TP_MAX_pos. lia.
      * rewrite length_insert. lia.
      * cbn [SyncedMemory.size_ SyncedMemory.set_cpu_mem].
        replace (S i + length rest)%nat with (i + S (length rest))%nat by lia. exact Hsd.
      * intros [Hf Hchk]. apply Hbad. split; [by constructor|]. simpl. split; [by left|done].
    + destruct (Z.leb_spec e (MAX `quot` cnt)) as [Hle|]; [simpl|done].
      assert (Hce : 0 <= cnt * e <= MAX).
      { split; [nia|]. apply step_check_mul; lia. }
      rewrite wrap_int_tp_small by exact Hce.
      loop_stores Hl Hsd.
      apply IH; auto.
      * rewrite length_insert. lia.
      * cbn [SyncedMemory.size_ SyncedMemory.set_cpu_mem].
        replace (S i + length rest)%nat with (i + S (length rest))%nat by lia. exact Hsd.
      * intros [Hf Hchk]. apply Hbad. split; [by constructor|]. simpl. split; [|done].
        right. rewrite <- Z.quot_div_nonneg by (pose proof INT_TP_MAX_pos; lia). done.
Qed.

(** a product that does not fit is caught by some step *)
Lemma overflow_checks_bound rest : forall cnt,
  0 < cnt -> Forall (fun e => 0 <= e) rest -> overflow_checks MAX cnt rest ->
  cnt <= MAX -> cnt * product rest <= MAX.
Proof.
  induction rest as [|e rest IH]; intros cnt Hc Hf Hchk Hle; simpl.
  - lia.
  - apply Forall_cons in Hf as [He Hf]. destruct Hchk as [Hstep Hchk].
    destruct Hstep as [?|Hstep]; [lia|].
    assert (cnt * e <= MAX).
    { apply step_check_mul; [lia|lia|]. rewrite Z.quot_div_nonneg; [done|pose proof INT_TP_MAX_pos; lia|lia]. }
    destruct (Z.eq_dec e 0) as [->|Hne].
    + rewrite Z.mul_0_l, Z.mul_0_r. pose proof INT_TP_MAX_pos. lia.
    + rewrite Z.mul_assoc. apply IH; auto. nia.
Qed.
End ReshapeFacts.

(** ** The store *)

Section HeapFacts.
Context {Dtype : Type}.
Implicit Type h : Heap Dtype.

Lemma next_loc_release h p : next_loc (release h p) = next_loc h.
Proof.
  unfold release. destruct p as [l|]; [|done].
  destruct (cells h !! l) as [c|]; [|done]. by destruct (use_count c =? 1)%positive.
Qed.

Lemma lookup_release_ne h p l :
  p <> Some l -> cells (release h p) !! l = cells h !! l.
Proof.
  intros Hne. unfold release. destruct p as [l'|]; [|done].
  assert (l' <> l) by congruence.
  destruct (cells h !! l') as [c|]; [|done].
  destruct (use_count c =? 1)%positive; simpl.
  - by rewrite lookup_delete_ne.
  - by rewrite lookup_insert_ne.
Qed.

Lemma lookup_alloc_new h m : cells (alloc h m).1 !! next_loc h = Some (mkCell m 1).
Proof. simpl. by rewrite lookup_insert_eq. Qed.

Lemma lookup_alloc_ne h m l :
  l <> next_loc h -> cells (alloc h m).1 !! l = cells h !! l.
Proof. intros Hne. simpl. by rewrite lookup_insert_ne. Qed.

Lemma lookup_acquire_ne h p l :
  p <> Some l -> cells (acquire h p) !! l = cells h !! l.
Proof.
  intros Hne. destruct p as [l'|]; [|done]. simpl.
  apply lookup_alter_ne. congruence.
Qed.

Lemma lookup_update_obj_eq h l m c :
  cells h !! l = Some c ->
  cells (update_obj h l m) !! l = Some (mkCell m (use_count c)).
Proof. intros Hc. simpl. by rewrite lookup_alter_eq, Hc. Qed.

Lemma lookup_update_obj_ne h l l' m :
  l <> l' -> cells (update_obj h l m) !! l' = cells h !! l'.
Proof. intros Hne. simpl. by rewrite lookup_alter_ne. Qed.
End HeapFacts.

(** ** [Reshape] *)

Lemma size_mutable_cpu_data {A : Type} (m : SyncedMemory.t A) :
  SyncedMemory.size_ (SyncedMemory.mutable_cpu_data m) = SyncedMemory.size_ m.
Proof. unfold SyncedMemory.mutable_cpu_data, SyncedMemory.to_cpu. by destruct (SyncedMemory.head_ m). Qed.

Lemma sizeof_elem_pos ty : 0 < sizeof_elem ty.
Proof. destruct ty; simpl; lia. Qed.

Lemma sizeof_elem_le ty : sizeof_elem ty <= 8.
Proof. destruct ty; simpl; lia. Qed.

Section ReshapeTheorems.
Variable USE_INDEX_64 : bool.
Variable kMaxBlobAxes : nat.
Variable elem_type : ElemType.
Context {Dtype Quantizer : Type}.
Implicit Type h : Heap Dtype.
Implicit Type b : Blob Quantizer.

Local Abbreviation MAX := (INT_TP_MAX USE_INDEX_64).
Local Abbreviation Reshape_ := (Reshape USE_INDEX_64 kMaxBlobAxes elem_type).
Local Abbreviation sizeof := (sizeof_elem elem_type).

(** The store after the reallocation of lines 56-58. *)
Lemma realloc_store h b bytes dev :
  handles_allocated h b ->
  let n := next_loc h in
  let m := SyncedMemory.new bytes dev in
  let h' := release (alloc (release (alloc h m).1 (data_ b)) m).1 (diff_ b) in
  next_loc h' = S (S n)
  /\ cells h' !! n = Some (mkCell m 1)
  /\ cells h' !! S n = Some (mkCell m 1).
Proof.
  intros Hal n m h'. subst h'.
  assert (Hd : data_ b <> Some n /\ data_ b <> Some (S n)).
  { split; intros E; specialize (Hal _ (or_introl E)); subst n; lia. }
  assert (Hg : diff_ b <> Some n /\ diff_ b <> Some (S n)).
  { split; intros E; specialize (Hal _ (or_intror E)); subst n; lia. }
  destruct Hd as [Hd1 Hd2], Hg as [Hg1 Hg2].
  set (h2 := release (alloc h m).1 (data_ b)).
  assert (Hn2 : next_loc h2 = S n) by (unfold h2; by rewrite next_loc_release).
  split; [|split].
  - by rewrite next_loc_release; simpl; rewrite Hn2.
  - rewrite lookup_release_ne by done. rewrite lookup_alloc_ne by lia.
    unfold h2. rewrite lookup_release_ne by done. apply lookup_alloc_new.
  - rewrite lookup_release_ne by done. rewrite <- Hn2. apply lookup_alloc_new.
Qed.

(** What a returning [Reshape] has done. *)
Lemma Reshape_Ok h b shape shape_stride h' b' changed :
  Reshape_ h b shape shape_stride = Ok (h', b', changed) ->
  valid_shape kMaxBlobAxes MAX shape
  /\ count_ b' = product shape /\ 0 <= product shape <= MAX
  /\ shape_ b' = shape
  /\ shape_stride_ b' = shape_stride_ b
  /\ device_ b' = device_ b /\ net_quant_ b' = net_quant_ b
  /\ changed = bool_decide (capacity_ b < product shape)
  /\ (changed = false ->
      h' = h /\ data_ b' = data_ b /\ diff_ b' = diff_ b
      /\ capacity_ b' = capacity_ b)
  /\ (changed = true ->
      capacity_ b' = product shape
      /\ data_ b' = Some (next_loc h) /\ diff_ b' = Some (S (next_loc h))
      /\ let m := SyncedMemory.new (size_t_mul (product shape) sizeof) (device_ b) in
         h' = release (alloc (release (alloc h m).1 (data_ b)) m).1 (diff_ b)).
Proof.
  intros H. unfold Reshape in H.
  apply obind_Ok in H as (u & Hrank & H). apply CHECK_Ok, Nat.leb_le in Hrank.
  apply obind_Ok in H as ([[cnt shp] sd] & Hloop & H).
  pose proof INT_TP_MAX_pos USE_INDEX_64 as Hmax.
  apply Reshape_loop_Ok in Hloop as (Hcnt & Hb & Hf & Hchk & Hshp); [|lia].
  rewrite Z.mul_1_l in Hcnt. subst cnt.
  rewrite Hshp in H by (rewrite length_resize; lia). rewrite take_0 in H. simpl in H.
  assert (Hv : valid_shape kMaxBlobAxes MAX shape) by done.
  destruct (Z.ltb_spec (capacity_ b) (product shape)) as [Hlt|Hge];
    injection H as <- <- <-; simpl.
  - rewrite bool_decide_eq_true_2 by done.
    split; [exact Hv|]. split; [done|]. split; [lia|]. do 5 (split; [done|]).
    split; [intros [=]|]. intros _. split; [done|]. split; [done|].
    split; [|done]. by rewrite next_loc_release.
  - rewrite bool_decide_eq_false_2 by lia.
    split; [exact Hv|]. split; [done|]. split; [lia|]. do 5 (split; [done|]).
    split; [done|]. intros [=].
Qed.

Lemma size_t_mul_small (x y : Z) :
  0 <= x * y < SIZE_T_MODULUS -> size_t_mul x y = x * y.
Proof. intros Hxy. unfold size_t_mul. by apply Z.mod_small. Qed.

Lemma size_t_mul_one_elem : size_t_mul 1 sizeof = sizeof.
Proof. unfold size_t_mul, SIZE_T_MODULUS. by destruct elem_type. Qed.

Lemma handles_allocated_unconstructed h (q : option Quantizer) dev :
  handles_allocated h (mkBlob None None None [] [] 0 0 dev q).
Proof. intros l [E|E]; discriminate. Qed.

(** C10. [Reshape] to the empty shape always returns and leaves
    [count_ = 1]; a blob constructed with the empty shape has count and
    capacity 1 and two newly created buffers of one element each. *)
Theorem Reshape_empty_shape_counts_one :
  (forall h b shape_stride,
     exists h' b' changed,
       Reshape_ h b [] shape_stride = Ok (h', b', changed)
       /\ count_ b' = 1 /\ shape_ b' = [])
  /\ (forall h (q : option Quantizer) dev,
     exists h' b',
       Blob_ctor USE_INDEX_64 kMaxBlobAxes elem_type h q [] dev = Ok (h', b')
       /\ count_ b' = 1 /\ capacity_ b' = 1
       /\ data_ b' = Some (next_loc h) /\ diff_ b' = Some (S (next_loc h))
       /\ fresh_buffer h h' (next_loc h) sizeof dev
       /\ fresh_buffer h h' (S (next_loc h)) sizeof dev).
Proof.
  split.
  - intros h b shape_stride. unfold Reshape. simpl.
    destruct (capacity_ b <? 1); simpl; do 3 eexists;
      (split; [reflexivity|]); (split; [reflexivity|]); simpl; apply resize_0.
  - intros h q dev.
    destruct (Blob_ctor USE_INDEX_64 kMaxBlobAxes elem_type h q [] dev)
      as [[h' b']| |] eqn:E; unfold Blob_ctor, Reshape1 in E; simpl in E;
      try discriminate.
    injection E as <- <-.
    exists (release
              (alloc (release (alloc h (SyncedMemory.new (size_t_mul 1 sizeof) dev)).1 None)
                     (SyncedMemory.new (size_t_mul 1 sizeof) dev)).1 None).
    eexists. split; [reflexivity|]. simpl.
    rewrite size_t_mul_one_elem.
    do 4 (split; [done|]). unfold fresh_buffer. simpl.
    split; (split; [lia|]).
    + rewrite lookup_insert_ne by lia. by rewrite lookup_insert_eq.
    + by rewrite lookup_insert_eq.
Qed.

(** One call of [Reshape]. *)
Lemma Reshape_step h b shape shape_stride h' b' changed :
  Reshape_ h b shape shape_stride = Ok (h', b', changed) ->
  (changed = true <-> capacity_ b < count_ b')
  /\ (changed = true ->
      capacity_ b' = count_ b'
      /\ (exists l1 l2,
           data_ b' = Some l1 /\ diff_ b' = Some l2 /\ l1 <> l2
           /\ (handles_allocated h b ->
               fresh_buffer h h' l1 (size_t_mul (count_ b') sizeof) (device_ b)
               /\ fresh_buffer h h' l2 (size_t_mul (count_ b') sizeof) (device_ b)
               /\ handles_allocated h' b'))
      /\ (count_ b' * sizeof < SIZE_T_MODULUS \/ USE_INDEX_64 = false ->
          size_t_mul (count_ b') sizeof = count_ b' * sizeof))
  /\ (changed = false ->
      h' = h /\ data_ b' = data_ b /\ diff_ b' = diff_ b
      /\ capacity_ b' = capacity_ b)
  /\ capacity_ b' = Z.max (capacity_ b) (count_ b').
Proof.
  intros E.
  apply Reshape_Ok in E as (Hv & Hc & Hb & _ & _ & _ & _ & Hch & Hsame & Hnew).
  rewrite Hc. split; [|split; [|split]].
  - rewrite Hch. rewrite bool_decide_eq_true. done.
  - intros ->. destruct (Hnew eq_refl) as (Hcap & Hd & Hg & Hh).
    split; [done|]. split.
    + exists (next_loc h), (S (next_loc h)). split; [done|]. split; [done|].
      split; [lia|]. intros Hal.
      destruct (realloc_store h b (size_t_mul (product shape) sizeof) (device_ b) Hal)
        as (Hn & H1 & H2).
      cbv zeta in Hh. rewrite <- Hh in Hn, H1, H2.
      split; [|split].
      * split; [lia|done].
      * split; [lia|done].
      * intros l [El|El]; rewrite Hn; [rewrite Hd in El|rewrite Hg in El];
          injection El as <-; lia.
    + intros Hfit. apply size_t_mul_small.
      pose proof (sizeof_elem_pos elem_type). pose proof (sizeof_elem_le elem_type).
      split; [nia|]. destruct Hfit as [Hfit|Hcfg]; [done|].
      rewrite Hcfg in Hb. unfold INT_TP_MAX, INT_MAX in Hb.
      unfold SIZE_T_MODULUS. nia.
  - done.
  - destruct changed.
    + destruct (Hnew eq_refl) as (Hcap & _).
      symmetry in Hch. apply bool_decide_eq_true in Hch. lia.
    + destruct (Hsame eq_refl) as (_ & _ & _ & Hcap).
      symmetry in Hch. apply bool_decide_eq_false in Hch. lia.
Qed.

Lemma foldl_max_ge (xs : list Z) : forall c, c <= foldl Z.max c xs.
Proof.
  induction xs as [|x xs IH]; intros c; simpl; [lia|].
  specialize (IH (Z.max c x)). lia.
Qed.

Lemma buffers_track_capacity_step h b shape shape_stride h' b' changed :
  Reshape_ h b shape shape_stride = Ok (h', b', changed) ->
  buffers_track_capacity elem_type h b -> buffers_track_capacity elem_type h' b'.
Proof.
  intros E [Hal Hsz].
  destruct (Reshape_step _ _ _ _ _ _ _ E) as (_ & Hnew & Hsame & _).
  destruct changed.
  - destruct (Hnew eq_refl) as (Hcap & (l1 & l2 & Hd & Hg & _ & Hfresh) & _).
    destruct (Hfresh Hal) as ((_ & H1) & (_ & H2) & Hal').
    split; [done|]. intros _. rewrite Hcap. split.
    + exists l1. eexists. split; [done|]. split; [exact H1|done].
    + exists l2. eexists. split; [done|]. split; [exact H2|done].
  - destruct (Hsame eq_refl) as (-> & Hd & Hg & Hcap).
    split.
    + intros l Hl. apply Hal. by rewrite <- Hd, <- Hg.
    + rewrite Hd, Hg, Hcap. done.
Qed.

(** Any sequence of calls of [Reshape]. *)
Lemma Reshape_sequence_capacity (shapes : list (list Z)) : forall h b h' b',
  Reshape_sequence USE_INDEX_64 kMaxBlobAxes elem_type h b shapes = Ok (h', b') ->
  capacity_ b <= capacity_ b'
  /\ capacity_ b' = foldl Z.max (capacity_ b) (product <$> shapes)
  /\ (buffers_track_capacity elem_type h b -> buffers_track_capacity elem_type h' b').
Proof.
  induction shapes as [|shp shapes IH]; intros h b h' b' E; simpl in E.
  - injection E as <- <-. simpl. split; [lia|done].
  - apply obind_Ok in E as ([[h1 b1] c] & E1 & E). unfold Reshape1 in E1.
    apply IH in E as (Hle & Hcap & Htrack).
    pose proof (Reshape_step _ _ _ _ _ _ _ E1) as (_ & _ & _ & Hmax).
    pose proof (Reshape_Ok _ _ _ _ _ _ _ E1) as (_ & Hc & _).
    rewrite Hc in Hmax. simpl. rewrite <- Hmax.
    split; [lia|]. split; [done|].
    intros Ht. apply Htrack. eapply buffers_track_capacity_step; eauto.
Qed.


(** The rank bound keeps the byte size of the shape cache inside
    [size_t]. *)
Hypothesis kMaxBlobAxes_fits : Z.of_nat kMaxBlobAxes * 8 < SIZE_T_MODULUS.

Lemma shape_bytes_exact (n : nat) :
  (n <= kMaxBlobAxes)%nat ->
  size_t_mul (Z.of_nat n) (sizeof_int_tp USE_INDEX_64)
  = Z.of_nat n * sizeof_int_tp USE_INDEX_64.
Proof.
  intros Hn. apply size_t_mul_small.
  unfold sizeof_int_tp. destruct USE_INDEX_64; nia.
Qed.

(** The shape cache the loop writes to holds the whole shape. *)
Lemma shape_cache_holds b (shape : list Z) :
  (length shape <= kMaxBlobAxes)%nat ->
  let bytes := size_t_mul (Z.of_nat (length shape)) (sizeof_int_tp USE_INDEX_64) in
  let sd0 := match shape_data_ b with
             | Some sd => if SyncedMemory.size sd <? bytes
                          then SyncedMemory.new bytes (device_ b) else sd
             | None => SyncedMemory.new bytes (device_ b)
             end in
  Z.of_nat (0 + length shape) * sizeof_int_tp USE_INDEX_64
  <= SyncedMemory.size_ (SyncedMemory.mutable_cpu_data sd0).
Proof.
  intros Hn bytes sd0. rewrite size_mutable_cpu_data.
  subst sd0 bytes. rewrite shape_bytes_exact by done. simpl.
  destruct (shape_data_ b) as [sd|]; simpl; [|lia].
  unfold SyncedMemory.size.
  destruct (Z.ltb_spec (SyncedMemory.size_ sd)
              (Z.of_nat (length shape) * sizeof_int_tp USE_INDEX_64)); simpl; lia.
Qed.

Lemma Reshape_total h b shape shape_stride :
  valid_shape kMaxBlobAxes MAX shape ->
  exists h' b' changed, Reshape_ h b shape shape_stride = Ok (h', b', changed).
Proof.
  intros (Hrank & Hf & Hchk). unfold Reshape.
  destruct (Nat.leb_spec (length shape) kMaxBlobAxes) as [_|]; [simpl|lia].
  pose proof INT_TP_MAX_pos USE_INDEX_64 as Hmax.
  edestruct (Reshape_loop_total USE_INDEX_64 shape 0 1) as [[[cnt shp] sd] ->];
    [lia| |apply (shape_cache_holds b shape Hrank)|exact Hf|exact Hchk|].
  { rewrite length_resize. lia. }
  simpl. destruct (capacity_ b <? cnt); eauto.
Qed.

Lemma Reshape_fatal h b shape shape_stride :
  ~ valid_shape kMaxBlobAxes MAX shape ->
  Reshape_ h b shape shape_stride = Fatal CHECK_FAILED.
Proof.
  intros Hbad. unfold Reshape.
  destruct (Nat.leb_spec (length shape) kMaxBlobAxes) as [Hrank|]; [simpl|done].
  pose proof INT_TP_MAX_pos USE_INDEX_64 as Hmax.
  rewrite (Reshape_loop_fatal USE_INDEX_64 shape 0 1); [done|lia| | |].
  - rewrite length_resize. lia.
  - apply (shape_cache_holds b shape Hrank).
  - intros [Hf Hchk]. by apply Hbad.
Qed.

(** C2. [Reshape] multiplies the extents into [count_] under the per-step
    overflow check: a shape within the rank bound, with non-negative
    extents, that passes every step check is accepted and leaves
    [count_] equal to the product of its extents; whenever [Reshape]
    returns, the shape was such a shape and [count_] is the product; a
    rank above the bound, a negative extent, a failing step check and a
    product above the integer maximum are each a fatal check failure. *)
Theorem Reshape_count_is_checked_product h b shape shape_stride :
  (valid_shape kMaxBlobAxes MAX shape ->
     exists h' b' changed,
       Reshape_ h b shape shape_stride = Ok (h', b', changed)
       /\ count_ b' = product shape)
  /\ (forall h' b' changed,
       Reshape_ h b shape shape_stride = Ok (h', b', changed) ->
       valid_shape kMaxBlobAxes MAX shape
       /\ count_ b' = product shape /\ 0 <= count_ b' <= MAX)
  /\ ((kMaxBlobAxes < length shape)%nat ->
       Reshape_ h b shape shape_stride = Fatal CHECK_FAILED)
  /\ (Exists (fun e => e < 0) shape ->
       Reshape_ h b shape shape_stride = Fatal CHECK_FAILED)
  /\ (~ overflow_checks MAX 1 shape ->
       Reshape_ h b shape shape_stride = Fatal CHECK_FAILED)
  /\ (Forall (fun e => 0 <= e) shape -> MAX < product shape ->
       Reshape_ h b shape shape_stride = Fatal CHECK_FAILED).
Proof.
  split; [|split; [|split; [|split; [|split]]]].
  - intros Hv. destruct (Reshape_total h b shape shape_stride Hv) as (h' & b' & c & E).
    exists h', b', c. split; [done|]. by apply Reshape_Ok in E as (_ & ? & _).
  - intros h' b' c E. apply Reshape_Ok in E as (Hv & Hc & Hb & _).
    rewrite Hc. done.
  - intros Hrank. apply Reshape_fatal. intros (? & _). lia.
  - intros Hneg. apply Reshape_fatal. intros (_ & Hf & _).
    apply Exists_exists in Hneg as (e & Hin & He).
    rewrite Forall_forall in Hf. specialize (Hf e Hin). lia.
  - intros Hchk. apply Reshape_fatal. by intros (_ & _ & ?).
  - intros Hf Hbig. apply Reshape_fatal. intros (_ & _ & Hchk).
    pose proof INT_TP_MAX_pos USE_INDEX_64 as Hmax.
    pose proof (overflow_checks_bound USE_INDEX_64 shape 1) as Hle.
    specialize (Hle ltac:(lia) Hf Hchk ltac:(lia)). lia.
Qed.

Lemma Reshape_sequence_total (shapes : list (list Z)) : forall h b,
  Forall (valid_shape kMaxBlobAxes MAX) shapes ->
  exists h' b',
    Reshape_sequence USE_INDEX_64 kMaxBlobAxes elem_type h b shapes = Ok (h', b').
Proof.
  induction shapes as [|shp shapes IH]; intros h b Hv; simpl; [eauto|].
  apply Forall_cons in Hv as [Hshp Hv].
  destruct (Reshape_total h b shp shp Hshp) as (h1 & b1 & c & E).
  unfold Reshape1. rewrite E. simpl. by apply IH.
Qed.

(** X22. [Reshape] returns on every valid shape, and [true] exactly when
    the new count exceeds the capacity; it then sets the capacity to the
    count and replaces both handles by two distinct newly created
    buffers of [size_t(count * sizeof(Dtype))] bytes, which is
    [count * sizeof(Dtype)] whenever that fits [size_t] and always in the
    32-bit-index build; otherwise it returns [false] and leaves the
    store, both handles and the capacity as they were.  Over any
    sequence of calls the capacity never decreases, is the maximum of
    the initial capacity and the counts reshaped to, and buffers sized
    to the capacity stay so. *)
Theorem Reshape_reallocates_iff_count_exceeds_capacity :
  (forall h b shape shape_stride,
     valid_shape kMaxBlobAxes MAX shape ->
     exists h' b' changed, Reshape_ h b shape shape_stride = Ok (h', b', changed))
  /\ (forall h b shape shape_stride h' b' changed,
     Reshape_ h b shape shape_stride = Ok (h', b', changed) ->
     (changed = true <-> capacity_ b < count_ b')
     /\ (changed = true ->
         capacity_ b' = count_ b'
         /\ (exists l1 l2,
              data_ b' = Some l1 /\ diff_ b' = Some l2 /\ l1 <> l2
              /\ (handles_allocated h b ->
                  fresh_buffer h h' l1 (size_t_mul (count_ b') sizeof) (device_ b)
                  /\ fresh_buffer h h' l2 (size_t_mul (count_ b') sizeof) (device_ b)
                  /\ handles_allocated h' b'))
         /\ (count_ b' * sizeof < SIZE_T_MODULUS \/ USE_INDEX_64 = false ->
             size_t_mul (count_ b') sizeof = count_ b' * sizeof))
     /\ (changed = false ->
         h' = h /\ data_ b' = data_ b /\ diff_ b' = diff_ b
         /\ capacity_ b' = capacity_ b)
     /\ capacity_ b' = Z.max (capacity_ b) (count_ b'))
  /\ (forall shapes h b h' b',
     Reshape_sequence USE_INDEX_64 kMaxBlobAxes elem_type h b shapes = Ok (h', b') ->
     capacity_ b <= capacity_ b'
     /\ capacity_ b' = foldl Z.max (capacity_ b) (product <$> shapes)
     /\ (buffers_track_capacity elem_type h b ->
         buffers_track_capacity elem_type h' b'))
  /\ (forall shapes h b,
     Forall (valid_shape kMaxBlobAxes MAX) shapes ->
     exists h' b',
       Reshape_sequence USE_INDEX_64 kMaxBlobAxes elem_type h b shapes = Ok (h', b')).
Proof.
  split; [|split; [|split]].
  - intros. by apply Reshape_total.
  - intros. by eapply Reshape_step.
  - intros. by eapply Reshape_sequence_capacity.
  - intros. by apply Reshape_sequence_total.
Qed.
End ReshapeTheorems.

(** ** Arithmetic members *)

Section Arithmetic.
Variable CPU_ONLY : bool.
Variable elem_type : ElemType.
Context {Dtype Quantizer : Type}.
Variable zero minus_one : Dtype.
Variable caffe_axpy : Z -> Dtype -> list Dtype -> list Dtype -> list Dtype.
Variable caffe_cpu_asum : Z -> list Dtype -> Dtype.
Variable caffe_cpu_dot : Z -> list Dtype -> list Dtype -> Dtype.
Variable caffe_scal : Z -> Dtype -> list Dtype -> list Dtype.
Variable device_axpy : Z -> Dtype -> list Dtype -> list Dtype -> list Dtype.
Variable device_asum : Z -> list Dtype -> Dtype.
Variable device_dot : Z -> list Dtype -> list Dtype -> Dtype.
Variable device_scal : Z -> Dtype -> list Dtype -> list Dtype.
Implicit Type h : Heap Dtype.
Implicit Type b : Blob Quantizer.

Local Abbreviation Update_ :=
  (Update CPU_ONLY elem_type zero minus_one caffe_axpy device_axpy).
Local Abbreviation asum_data_ :=
  (asum_data CPU_ONLY elem_type zero caffe_cpu_asum device_asum).
Local Abbreviation asum_diff_ :=
  (asum_diff CPU_ONLY elem_type zero caffe_cpu_asum device_asum).
Local Abbreviation sumsq_data_ :=
  (sumsq_data CPU_ONLY elem_type zero caffe_cpu_dot device_dot).
Local Abbreviation sumsq_diff_ :=
  (sumsq_diff CPU_ONLY elem_type zero caffe_cpu_dot device_dot).
Local Abbreviation scale_data_ :=
  (scale_data CPU_ONLY elem_type zero caffe_scal device_scal).
Local Abbreviation scale_diff_ :=
  (scale_diff CPU_ONLY elem_type zero caffe_scal device_scal).

Lemma head_of_residency h p st : residency h p st -> head_of h p = Ok st.
Proof. intros (l & c & -> & Hc & <-). unfold head_of. simpl. by rewrite Hc. Qed.

Lemma residency_non_null h p st : residency h p st -> non_null p = true.
Proof. by intros (l & c & -> & _). Qed.

(** C4. On a floating element type, with the buffer in the
    uninitialized residency state, the sums of absolute values and of
    squares return zero and scaling changes nothing, on the values and
    on the gradients side alike, while [Update] on uninitialized values
    is fatal. *)
Theorem uninitialized_buffer_operations h b :
  is_floating elem_type = true ->
  (residency h (data_ b) UNINITIALIZED ->
     asum_data_ h b = Ok (h, zero)
     /\ sumsq_data_ h b = Ok (h, zero)
     /\ (forall scale_factor, scale_data_ h b scale_factor = Ok h)
     /\ Update_ h b = Fatal LOG_FATAL)
  /\ (residency h (diff_ b) UNINITIALIZED ->
     asum_diff_ h b = Ok (h, zero)
     /\ sumsq_diff_ h b = Ok (h, zero)
     /\ (forall scale_factor, scale_diff_ h b scale_factor = Ok h)).
Proof.
  intros Hfl.
  assert (Hint : is_integer elem_type = false) by (by destruct elem_type).
  split; intros Hres;
    pose proof (head_of_residency _ _ _ Hres) as Hhd;
    pose proof (residency_non_null _ _ _ Hres) as Hnn.
  - unfold asum_data, sumsq_data, scale_data, Update.
    rewrite Hint, Hnn, Hhd. simpl. done.
  - unfold asum_diff, sumsq_diff, scale_diff.
    rewrite Hint, Hnn, Hhd. simpl. done.
Qed.

(** C5. On each of the eight integer element types [Update], both
    scalings and all four reductions fail with the not-implemented
    error, whatever the store, the blob and the scale factor. *)
Theorem integer_arithmetic_not_implemented h b :
  In elem_type integer_types ->
  Update_ h b = Fatal NOT_IMPLEMENTED
  /\ asum_data_ h b = Fatal NOT_IMPLEMENTED
  /\ asum_diff_ h b = Fatal NOT_IMPLEMENTED
  /\ sumsq_data_ h b = Fatal NOT_IMPLEMENTED
  /\ sumsq_diff_ h b = Fatal NOT_IMPLEMENTED
  /\ (forall scale_factor, scale_data_ h b scale_factor = Fatal NOT_IMPLEMENTED)
  /\ (forall scale_factor, scale_diff_ h b scale_factor = Fatal NOT_IMPLEMENTED).
Proof.
  intros Hin.
  assert (Hint : is_integer elem_type = true).
  { unfold integer_types in Hin. simpl in Hin.
    repeat (destruct Hin as [<-|Hin]; [done|]). done. }
  unfold Update, asum_data, asum_diff, sumsq_data, sumsq_diff, scale_data, scale_diff.
  rewrite Hint. done.
Qed.
End Arithmetic.

(** ** Quantized reductions *)

(** C9. The quantized [sumsq_diff(out)] writes the quantizer's expansion
    of the sum of squares of the values, [sumsq_data()], not of the
    gradients: on the blob with values 3, 4 and gradients 1, 2 it writes
    25 where the expansion of the raw [sumsq_diff()] is 5. *)
Theorem sumsq_diff_out_expands_sumsq_data :
  (forall (CPU_ONLY : bool) (elem_type : ElemType) (Dtype Quantizer External : Type)
          (zero : Dtype) (caffe_cpu_dot device_dot : Z -> list Dtype -> list Dtype -> Dtype)
          (Backward_cpu : Quantizer -> Z -> list Dtype -> list External)
          (h : Heap Dtype) (b : Blob Quantizer),
     sumsq_diff_out CPU_ONLY elem_type zero caffe_cpu_dot device_dot Backward_cpu h b
     = ('(h1, val) ← sumsq_data CPU_ONLY elem_type zero caffe_cpu_dot device_dot h b;
        out ← Backward_cpu_scalar Backward_cpu b val;
        Ok (h1, out)))
  /\ sumsq_diff_out false float 0 Example.dot Example.dot Example.expand
       Example.store1 Example.blob1
     = Ok (Example.store1, [25])
  /\ ('(h1, val) ← sumsq_diff false float 0 Example.dot Example.dot
                     Example.store1 Example.blob1;
      out ← Backward_cpu_scalar Example.expand Example.blob1 val;
      Ok (h1, out))
     = Ok (Example.store1, [5]).
Proof.
  split; [reflexivity|]. split; vm_compute; reflexivity.
Qed.

(** ** Sharing *)

Section Sharing.
Variable elem_type : ElemType.
Context {Dtype Quantizer : Type}.
Variable zero : Dtype.
Implicit Type h : Heap Dtype.
Implicit Type b : Blob Quantizer.

Local Abbreviation load_ := (load elem_type zero).
Local Abbreviation store_ := (store elem_type).

Lemma call_on_Ok h p method h' l :
  call_on h p method = Ok (h', l) ->
  exists c, p = Some l /\ cells h !! l = Some c
            /\ h' = update_obj h l (method (obj c)).
Proof.
  unfold call_on. destruct p as [l0|]; simpl; [|discriminate].
  destruct (cells h !! l0) as [c|] eqn:Hc; simpl; [|discriminate].
  intros [= <- <-]. eauto.
Qed.

(** A write through a handle is read back through the same handle. *)
Lemma write_then_read h p h1 q i v h2 :
  call_on h p SyncedMemory.mutable_cpu_data = Ok (h1, q) ->
  store_ h1 q i v = Ok h2 ->
  exists h3, call_on h2 p SyncedMemory.cpu_data = Ok (h3, q)
             /\ load_ h3 q i = Ok v.
Proof.
  intros Hm Hs. apply call_on_Ok in Hm as (c & -> & Hc & ->).
  unfold store in Hs. rewrite (lookup_update_obj_eq _ _ _ _ Hc) in Hs. simpl in Hs.
  unfold SyncedMemory.poke_cpu in Hs.
  destruct (SyncedMemory.in_bounds _ _ i) eqn:Hin; simpl in Hs; [|discriminate].
  injection Hs as <-.
  unfold call_on. simpl. rewrite !lookup_alter_eq, Hc. simpl.
  eexists. split; [reflexivity|].
  unfold load. simpl. rewrite !lookup_alter_eq, Hc. simpl.
  unfold SyncedMemory.peek_cpu, SyncedMemory.cpu_data, SyncedMemory.to_cpu.
  simpl. unfold SyncedMemory.in_bounds in *. simpl in *. rewrite Hin.
  by rewrite lookup_insert_eq.
Qed.

Lemma release_keeps_objects h p l c' :
  cells (release h p) !! l = Some c' ->
  exists c, cells h !! l = Some c /\ obj c' = obj c.
Proof.
  unfold release. destruct p as [l0|]; [|eauto].
  destruct (cells h !! l0) as [c0|] eqn:Hc0; [|eauto].
  destruct (use_count c0 =? 1)%positive; simpl.
  - destruct (decide (l0 = l)) as [->|Hne].
    + by rewrite lookup_delete_eq.
    + rewrite lookup_delete_ne by done. eauto.
  - destruct (decide (l0 = l)) as [->|Hne].
    + rewrite lookup_insert_eq. intros [= <-]. eauto.
    + rewrite lookup_insert_ne by done. eauto.
Qed.

Lemma acquire_keeps_objects h p l c' :
  cells (acquire h p) !! l = Some c' ->
  exists c, cells h !! l = Some c /\ obj c' = obj c.
Proof.
  destruct p as [l0|]; [|eauto]. simpl.
  destruct (decide (l0 = l)) as [->|Hne].
  - rewrite lookup_alter_eq. destruct (cells h !! l) as [c|]; simpl; [|done].
    intros [= <-]. eauto.
  - rewrite lookup_alter_ne by done. eauto.
Qed.

(** The object a shared handle names survives the assignment. *)
Lemma share_keeps_target h (old new : option nat) l c :
  new = Some l -> cells h !! l = Some c ->
  exists c', cells (release (acquire h new) old) !! l = Some c' /\ obj c' = obj c.
Proof.
  intros -> Hc.
  destruct (decide (old = Some l)) as [->|Hne].
  - unfold release. simpl. rewrite lookup_alter_eq, Hc. simpl.
    destruct (Pos.succ (use_count c)) eqn:E; [| |lia];
      simpl; rewrite lookup_insert_eq; eauto.
  - rewrite lookup_release_ne by done. simpl. rewrite lookup_alter_eq, Hc. simpl. eauto.
Qed.

(** C3. [ShareData] and [ShareDiff] die on unequal counts; on equal
    counts they return with this blob's handle for that side set to the
    other blob's handle and nothing else of the blob changed, every
    object left in the store has the contents it had (no element is
    copied) and the shared object is still there; from then on an
    element written through either blob's mutable accessor is the
    element read through the other blob's accessor. *)
Theorem Share_aliases_the_buffer h b other :
  (count_ b <> count_ other ->
     ShareData h b other = Fatal CHECK_FAILED
     /\ ShareDiff h b other = Fatal CHECK_FAILED)
  /\ (count_ b = count_ other ->
     exists h1 h2,
       ShareData h b other = Ok (h1, set_data_ (data_ other) b)
       /\ ShareDiff h b other = Ok (h2, set_diff_ (diff_ other) b)
       /\ (forall l c', cells h1 !! l = Some c' ->
             exists c, cells h !! l = Some c /\ obj c' = obj c)
       /\ (forall l c', cells h2 !! l = Some c' ->
             exists c, cells h !! l = Some c /\ obj c' = obj c)
       /\ (forall l c, data_ other = Some l -> cells h !! l = Some c ->
             exists c', cells h1 !! l = Some c' /\ obj c' = obj c)
       /\ (forall l c, diff_ other = Some l -> cells h !! l = Some c ->
             exists c', cells h2 !! l = Some c' /\ obj c' = obj c))
  /\ (forall h' b', ShareData h b other = Ok (h', b') ->
     data_ b' = data_ other
     /\ forall hx hy hz p i v,
          (mutable_cpu_data hx other = Ok (hy, p) \/ mutable_cpu_data hx b' = Ok (hy, p)) ->
          store_ hy p i v = Ok hz ->
          exists hw q,
            cpu_data hz b' = Ok (hw, q) /\ cpu_data hz other = Ok (hw, q)
            /\ load_ hw q i = Ok v)
  /\ (forall h' b', ShareDiff h b other = Ok (h', b') ->
     diff_ b' = diff_ other
     /\ forall hx hy hz p i v,
          (mutable_cpu_diff hx other = Ok (hy, p) \/ mutable_cpu_diff hx b' = Ok (hy, p)) ->
          store_ hy p i v = Ok hz ->
          exists hw q,
            cpu_diff hz b' = Ok (hw, q) /\ cpu_diff hz other = Ok (hw, q)
            /\ load_ hw q i = Ok v).
Proof.
  split; [|split; [|split]].
  - intros Hne. unfold ShareData, ShareDiff, count.
    destruct (Z.eqb_spec (count_ b) (count_ other)); [done|]. done.
  - intros Heq. unfold ShareData, ShareDiff, count, data, diff.
    rewrite Heq, Z.eqb_refl. simpl.
    do 2 eexists. split; [reflexivity|]. split; [reflexivity|].
    split; [|split; [|split]].
    + intros l c' Hl. apply release_keeps_objects in Hl as (c1 & Hl & E1).
      apply acquire_keeps_objects in Hl as (c & Hl & E). exists c. split; [done|congruence].
    + intros l c' Hl. apply release_keeps_objects in Hl as (c1 & Hl & E1).
      apply acquire_keeps_objects in Hl as (c & Hl & E). exists c. split; [done|congruence].
    + intros l c Hp Hc. by apply share_keeps_target.
    + intros l c Hp Hc. by apply share_keeps_target.
  - intros h' b' E. unfold ShareData, count, data in E.
    destruct (count_ b =? count_ other); simpl in E; [|discriminate].
    injection E as <- <-. split; [done|].
    intros hx hy hz p i v Hm Hs.
    assert (Hcall : call_on hx (data_ other) SyncedMemory.mutable_cpu_data = Ok (hy, p)).
    { destruct Hm as [Hm|Hm]; unfold mutable_cpu_data in Hm; simpl in Hm;
        destruct (data_ other); simpl in Hm; done. }
    destruct (write_then_read _ _ _ _ _ _ _ Hcall Hs) as (hw & Hr & Hl).
    exists hw, p. unfold cpu_data. simpl.
    apply call_on_Ok in Hcall as (c & Hp & _). rewrite Hp in *. simpl. done.
  - intros h' b' E. unfold ShareDiff, count, diff in E.
    destruct (count_ b =? count_ other); simpl in E; [|discriminate].
    injection E as <- <-. split; [done|].
    intros hx hy hz p i v Hm Hs.
    assert (Hcall : call_on hx (diff_ other) SyncedMemory.mutable_cpu_data = Ok (hy, p)).
    { destruct Hm as [Hm|Hm]; unfold mutable_cpu_diff in Hm; simpl in Hm;
        destruct (diff_ other); simpl in Hm; done. }
    destruct (write_then_read _ _ _ _ _ _ _ Hcall Hs) as (hw & Hr & Hl).
    exists hw, p. unfold cpu_diff. simpl.
    apply call_on_Ok in Hcall as (c & Hp & _). rewrite Hp in *. simpl. done.
Qed.
End Sharing.

(** ** [ShapeEquals] *)

Lemma dims_to_int_tp_id USE_INDEX_64 (dims : list Z) :
  Forall (int_tp_range USE_INDEX_64) dims ->
  dims_to_int_tp USE_INDEX_64 dims = dims.
Proof.
  intros Hr. unfold dims_to_int_tp.
  induction Hr as [|d dims Hd _ IH]; [done|]. simpl. f_equal; [|exact IH].
  unfold wrap_int_tp. apply wrap_signed_small; [|exact Hd].
  unfold int_tp_bits. destruct USE_INDEX_64; lia.
Qed.

Lemma LegacyShape_legacy_axes {Quantizer : Type} (b : Blob Quantizer) :
  (length (shape_ b) <= 4)%nat ->
  legacy_axes (shape_ b)
  = [LegacyShape b (-4); LegacyShape b (-3); LegacyShape b (-2); LegacyShape b (-1)].
Proof.
  unfold LegacyShape, legacy_axes.
  destruct (shape_ b) as [|x1 [|x2 [|x3 [|x4 [|x5 rest]]]]]; simpl; intros Hr;
    first [reflexivity | lia].
Qed.

(** C7. Against a descriptor that uses a legacy field, [ShapeEquals] is
    true exactly when the local rank is at most 4 and the legacy axes of
    the local shape are (num, channels, height, width); shape
    [1,1,1,5] matches num = channels = height = 1, width = 5.  Against a
    descriptor without legacy fields it compares the local shape with
    the descriptor's dims as converted to [int_tp], which are the dims
    themselves when they fit. *)
Theorem ShapeEquals_legacy_or_exact
    (USE_INDEX_64 : bool) {Quantizer Float Double : Type}
    (b : Blob Quantizer) (other : BlobProto Float Double) :
  (uses_legacy_fields other = true ->
     (ShapeEquals USE_INDEX_64 b other = true
      <-> (length (shape_ b) <= 4)%nat
          /\ legacy_axes (shape_ b)
             = [Proto.num other; Proto.channels other;
                Proto.height other; Proto.width other]))
  /\ (shape_ b = [1; 1; 1; 5] ->
      proto_num other = Some 1 -> proto_channels other = Some 1 ->
      proto_height other = Some 1 -> proto_width other = Some 5 ->
      ShapeEquals USE_INDEX_64 b other = true)
  /\ (uses_legacy_fields other = false ->
      (ShapeEquals USE_INDEX_64 b other = true
       <-> shape_ b = dims_to_int_tp USE_INDEX_64 (proto_shape other))
      /\ (Forall (int_tp_range USE_INDEX_64) (proto_shape other) ->
          (ShapeEquals USE_INDEX_64 b other = true
           <-> shape_ b = proto_shape other))).
Proof.
  split; [|split].
  - intros Hleg. unfold ShapeEquals. rewrite Hleg.
    rewrite !andb_true_iff, !Z.eqb_eq, Nat.leb_le.
    split.
    + intros ((((Hr & H1) & H2) & H3) & H4). split; [done|].
      rewrite (LegacyShape_legacy_axes b Hr). congruence.
    + intros [Hr E]. rewrite (LegacyShape_legacy_axes b Hr) in E.
      injection E as E1 E2 E3 E4. done.
  - intros Hs H1 H2 H3 H4. unfold ShapeEquals, uses_legacy_fields, Proto.has_num.
    unfold LegacyShape, Proto.num, Proto.channels, Proto.height, Proto.width.
    rewrite Hs, H1, H2, H3, H4. reflexivity.
  - intros Hleg. unfold ShapeEquals. rewrite Hleg.
    split; [apply bool_decide_eq_true|].
    intros Hr. rewrite (dims_to_int_tp_id _ _ Hr). apply bool_decide_eq_true.
Qed.

(** ** Element copies *)

Lemma vector_get_Ok {A : Type} (v : list A) (i : nat) (x : A) :
  vector_get v i = Ok x -> v !! i = Some x.
Proof. unfold vector_get, deref. by destruct (v !! i); intros [= ->]. Qed.

Lemma lookup_read_mem {A : Type} (zero : A) (mem : gmap nat A) (n j : nat) :
  (j < n)%nat ->
  SyncedMemory.read_mem zero mem n !! j = Some (default zero (mem !! j)).
Proof.
  intros Hj. unfold SyncedMemory.read_mem.
  rewrite list_lookup_fmap, lookup_seq_lt by done. done.
Qed.

Lemma length_read_mem {A : Type} (zero : A) (mem : gmap nat A) (n : nat) :
  length (SyncedMemory.read_mem zero mem n) = n.
Proof. unfold SyncedMemory.read_mem. by rewrite length_fmap, length_seq. Qed.

(** Memory whose first cells hold the converted source reads as the
    converted source. *)
Lemma read_mem_converted {A B : Type} (zero : A) (conv : B -> A)
    (mem : gmap nat A) (src : list B) :
  (forall j, (j < length src)%nat ->
     exists v, src !! j = Some v /\ mem !! j = Some (conv v)) ->
  SyncedMemory.read_mem zero mem (length src) = conv <$> src.
Proof.
  intros Hmem. apply list_eq. intros j.
  destruct (decide (j < length src)%nat) as [Hj|Hj].
  - rewrite lookup_read_mem by done.
    destruct (Hmem j Hj) as (v & Hv & Hm).
    by rewrite Hm, list_lookup_fmap, Hv.
  - rewrite !lookup_ge_None_2; [done| |].
    + rewrite length_fmap. lia.
    + rewrite length_read_mem. lia.
Qed.

Section Copy.
Variable elem_type : ElemType.
Context {Dtype Src : Type}.
Variable conv : Src -> Dtype.
Variable src : list Src.
Variable dst : nat.
Implicit Type h : Heap Dtype.

Local Abbreviation sizeof := (sizeof_elem elem_type).

Lemma store_Ok h i v h' :
  store elem_type h dst i v = Ok h' ->
  exists c, cells h !! dst = Some c
    /\ (Z.of_nat i + 1) * sizeof <= SyncedMemory.size_ (obj c)
    /\ h' = update_obj h dst
              (SyncedMemory.set_cpu_mem (<[i := v]> (SyncedMemory.cpu_mem (obj c))) (obj c)).
Proof.
  unfold store. destruct (cells h !! dst) as [c|]; simpl; [|discriminate].
  unfold SyncedMemory.poke_cpu, SyncedMemory.in_bounds.
  destruct (Z.leb_spec ((Z.of_nat i + 1) * sizeof_Dtype elem_type)
              (SyncedMemory.size_ (obj c))); simpl; [|discriminate].
  intros [= <-]. eauto.
Qed.

(** What a completed copy loop has done to the store. *)
Lemma copy_loop_Ok (n : nat) : forall i h h' c,
  cells h !! dst = Some c ->
  copy_loop elem_type conv src dst i n h = Ok h' ->
  next_loc h' = next_loc h
  /\ (forall l, l <> dst -> cells h' !! l = cells h !! l)
  /\ exists c',
       cells h' !! dst = Some c'
       /\ use_count c' = use_count c
       /\ SyncedMemory.size_ (obj c') = SyncedMemory.size_ (obj c)
       /\ SyncedMemory.head_ (obj c') = SyncedMemory.head_ (obj c)
       /\ (forall j, (i <= j < i + n)%nat ->
             exists v, src !! j = Some v
                       /\ SyncedMemory.cpu_mem (obj c') !! j = Some (conv v))
       /\ (forall j, (j < i)%nat ->
             SyncedMemory.cpu_mem (obj c') !! j = SyncedMemory.cpu_mem (obj c) !! j).
Proof.
  induction n as [|n IH]; intros i h h' c Hc E; simpl in E.
  - injection E as <-. split; [done|]. split; [done|].
    exists c. repeat split; try done. intros j Hj. lia.
  - apply obind_Ok in E as (v & Hv & E). apply vector_get_Ok in Hv.
    apply obind_Ok in E as (h1 & Hs & E).
    apply store_Ok in Hs as (c0 & Hc0 & Hb & ->).
    rewrite Hc in Hc0. injection Hc0 as <-.
    pose proof (lookup_update_obj_eq h dst
      (SyncedMemory.set_cpu_mem (<[i := conv v]> (SyncedMemory.cpu_mem (obj c))) (obj c))
      c Hc) as Hc1.
    destruct (IH _ _ _ _ Hc1 E) as (Hn & Hfr & c' & Hc' & Hrc & Hsz & Hhd & Hw & Hold).
    split; [done|]. split.
    { intros l Hl. rewrite Hfr by done. by apply lookup_update_obj_ne. }
    exists c'. split; [done|]. split; [done|]. split; [done|]. split; [done|].
    split.
    + intros j Hj. destruct (decide (j = i)) as [->|Hne].
      * exists v. split; [done|]. rewrite Hold by lia. simpl. by rewrite lookup_insert_eq.
      * apply Hw. lia.
    + intros j Hj. rewrite Hold by lia. simpl. by rewrite lookup_insert_ne by lia.
Qed.

(** The loop completes when the source and the destination are long
    enough. *)
Lemma copy_loop_total (n : nat) : forall i h c,
  cells h !! dst = Some c ->
  Z.of_nat (i + n) * sizeof <= SyncedMemory.size_ (obj c) ->
  (i + n <= length src)%nat ->
  exists h', copy_loop elem_type conv src dst i n h = Ok h'.
Proof.
  induction n as [|n IH]; intros i h c Hc Hsz Hlen; simpl.
  - eauto.
  - destruct (lookup_lt_is_Some_2 src i ltac:(lia)) as [v Hv].
    unfold vector_get. rewrite Hv. simpl.
    unfold store. rewrite Hc. simpl.
    unfold SyncedMemory.poke_cpu, SyncedMemory.in_bounds.
    pose proof (sizeof_elem_pos elem_type) as Hpos.
    destruct (Z.leb_spec ((Z.of_nat i + 1) * sizeof_Dtype elem_type)
                (SyncedMemory.size_ (obj c))) as [_|Hout]; simpl.
    2:{ apply Z.lt_nge in Hout. destruct Hout.
        eapply index_in_span; [|exact Hpos|exact Hsz]. lia. }
    eapply IH.
    + apply lookup_update_obj_eq. exact Hc.
    + cbn [obj SyncedMemory.size_ SyncedMemory.set_cpu_mem].
      replace (S i + n)%nat with (i + S n)%nat by lia. exact Hsz.
    + lia.
Qed.
End Copy.

(** ** [FromProto] *)

Section FromProtoFacts.
Variable USE_INDEX_64 : bool.
Variable kMaxBlobAxes : nat.
Variable elem_type : ElemType.
Context {Dtype Quantizer Float Double : Type}.
Variable zero : Dtype.
Variable of_float : Float -> Dtype.
Variable of_double : Double -> Dtype.
Implicit Type h : Heap Dtype.
Implicit Type b : Blob Quantizer.
Implicit Type proto : BlobProto Float Double.

Local Abbreviation MAX := (INT_TP_MAX USE_INDEX_64).
Local Abbreviation sizeof := (sizeof_elem elem_type).
Local Abbreviation FromProto_ :=
  (FromProto USE_INDEX_64 kMaxBlobAxes elem_type of_float of_double).
Local Abbreviation FromProto_shape_ :=
  (FromProto_shape USE_INDEX_64 kMaxBlobAxes elem_type).
Local Abbreviation FromProto_data_ := (FromProto_data elem_type of_float of_double).
Local Abbreviation FromProto_diff_ := (FromProto_diff elem_type of_float of_double).
Local Abbreviation data_payload_ := (data_payload of_float of_double).
Local Abbreviation diff_payload_ := (diff_payload of_float of_double).
Local Abbreviation host_values_ := (host_values zero).

(** The handle-level core of both copy stages: a mutable host access to
    the buffer behind [p], then the loop over [cnt] source elements. *)
Lemma copy_into_Ok {Src : Type} (conv : Src -> Dtype) (src : list Src)
    h (p : option nat) (cnt : Z) h1 l h' :
  call_on h p SyncedMemory.mutable_cpu_data = Ok (h1, l) ->
  cnt = Z.of_nat (length src) ->
  copy_loop elem_type conv src l 0 (Z.to_nat cnt) h1 = Ok h' ->
  p = Some l
  /\ next_loc h' = next_loc h
  /\ (forall l', l' <> l -> cells h' !! l' = cells h !! l')
  /\ (exists c c', cells h !! l = Some c /\ cells h' !! l = Some c'
        /\ use_count c' = use_count c
        /\ SyncedMemory.size (obj c') = SyncedMemory.size (obj c))
  /\ host_values_ h' p cnt = Some (conv <$> src).
Proof.
  intros Hm Hcnt Hloop. apply call_on_Ok in Hm as (c & -> & Hc & ->).
  pose proof (lookup_update_obj_eq h l (SyncedMemory.mutable_cpu_data (obj c)) c Hc) as Hc1.
  destruct (copy_loop_Ok _ _ _ _ _ _ _ _ _ Hc1 Hloop)
    as (Hn & Hfr & c' & Hc' & Hrc & Hsz & _ & Hw & _).
  split; [done|]. split; [done|]. split.
  { intros l' Hl'. rewrite Hfr by done. by apply lookup_update_obj_ne. }
  split.
  { exists c, c'. split; [done|]. split; [done|]. split; [done|].
    unfold SyncedMemory.size. rewrite Hsz. cbn [obj]. apply size_mutable_cpu_data. }
  unfold host_values. simpl. rewrite Hc'. simpl. f_equal.
  rewrite Hcnt, Nat2Z.id. apply read_mem_converted.
  intros j Hj. apply Hw. rewrite Hcnt, Nat2Z.id. lia.
Qed.

Lemma copy_into_total {Src : Type} (conv : Src -> Dtype) (src : list Src)
    h (p : option nat) (cnt : Z) :
  can_hold elem_type h p cnt ->
  cnt = Z.of_nat (length src) ->
  exists h1 l h',
    call_on h p SyncedMemory.mutable_cpu_data = Ok (h1, l)
    /\ copy_loop elem_type conv src l 0 (Z.to_nat cnt) h1 = Ok h'.
Proof.
  intros (l & c & -> & Hc & Hsz) Hcnt.
  unfold call_on. simpl. rewrite Hc. simpl.
  pose proof (lookup_update_obj_eq h l (SyncedMemory.mutable_cpu_data (obj c)) c Hc) as Hc1.
  edestruct (copy_loop_total elem_type conv src l (Z.to_nat cnt) 0) as [h' Hh'];
    [exact Hc1| | |].
  - cbn [obj]. rewrite size_mutable_cpu_data. unfold SyncedMemory.size in Hsz.
    rewrite Hcnt, Nat2Z.id. rewrite Hcnt in Hsz. exact Hsz.
  - rewrite Hcnt, Nat2Z.id. lia.
  - eauto.
Qed.

Lemma length_data_payload proto :
  length (data_payload_ proto)
  = if 0 <? Proto.double_data_size proto
    then length (proto_double_data proto) else length (proto_data proto).
Proof.
  unfold data_payload. destruct (0 <? Proto.double_data_size proto);
    by rewrite length_fmap.
Qed.

(** The values stage, when it returns. *)
Lemma FromProto_data_Ok h b proto h' :
  FromProto_data_ h b proto = Ok h' ->
  count_ b = Z.of_nat (length (data_payload_ proto))
  /\ next_loc h' = next_loc h
  /\ (forall l, data_ b <> Some l -> cells h' !! l = cells h !! l)
  /\ (exists l c c', data_ b = Some l /\ cells h !! l = Some c
        /\ cells h' !! l = Some c'
        /\ use_count c' = use_count c
        /\ SyncedMemory.size (obj c') = SyncedMemory.size (obj c))
  /\ host_values_ h' (data_ b) (count_ b) = Some (data_payload_ proto).
Proof.
  unfold FromProto_data. intros E.
  apply obind_Ok in E as ([h1 l] & Hm & E).
  unfold mutable_cpu_data in Hm. apply obind_Ok in Hm as (u & _ & Hm).
  rewrite length_data_payload. unfold data_payload.
  destruct (0 <? Proto.double_data_size proto);
    apply obind_Ok in E as (u' & Hchk & E);
    apply CHECK_Ok, Z.eqb_eq in Hchk;
    destruct (copy_into_Ok _ _ _ _ _ _ _ _ Hm Hchk E) as (Hp & Hn & Hfr & Hcell & Hv);
    (split; [exact Hchk|]); (split; [exact Hn|]); (split; [|split; [|exact Hv]]).
  - intros l' Hl'. apply Hfr. congruence.
  - destruct Hcell as (c & c' & ?). exists l, c, c'. done.
  - intros l' Hl'. apply Hfr. congruence.
  - destruct Hcell as (c & c' & ?). exists l, c, c'. done.
Qed.

Lemma FromProto_data_total h b proto :
  can_hold elem_type h (data_ b) (count_ b) ->
  count_ b = Z.of_nat (length (data_payload_ proto)) ->
  exists h', FromProto_data_ h b proto = Ok h'.
Proof.
  intros Hcan Hcnt. rewrite length_data_payload in Hcnt.
  unfold FromProto_data, mutable_cpu_data.
  assert (Hnn : non_null (data_ b) = true) by (by destruct Hcan as (l & c & -> & _)).
  rewrite Hnn. simpl.
  destruct (0 <? Proto.double_data_size proto).
  - destruct (copy_into_total of_double (proto_double_data proto) _ _ _ Hcan Hcnt)
      as (h1 & l & h' & -> & Hloop).
    simpl. unfold Proto.double_data_size. rewrite <- Hcnt, Z.eqb_refl. simpl. eauto.
  - destruct (copy_into_total of_float (proto_data proto) _ _ _ Hcan Hcnt)
      as (h1 & l & h' & -> & Hloop).
    simpl. unfold Proto.data_size. rewrite <- Hcnt, Z.eqb_refl. simpl. eauto.
Qed.

(** A count that differs from the message's is caught by the check. *)
Lemma FromProto_data_mismatch h b proto :
  is_Ok (mutable_cpu_data h b) ->
  count_ b <> Z.of_nat (length (data_payload_ proto)) ->
  FromProto_data_ h b proto = Fatal CHECK_FAILED.
Proof.
  intros [[h1 l] Hm] Hne. rewrite length_data_payload in Hne.
  unfold FromProto_data. rewrite Hm. simpl.
  destruct (0 <? Proto.double_data_size proto).
  - unfold Proto.double_data_size.
    destruct (Z.eqb_spec (count_ b) (Z.of_nat (length (proto_double_data proto)))); done.
  - unfold Proto.data_size.
    destruct (Z.eqb_spec (count_ b) (Z.of_nat (length (proto_data proto)))); done.
Qed.

(** The gradients stage, when it returns: without diff content the
    store is untouched; with it the gradients hold the payload. *)
Lemma FromProto_diff_Ok h b proto h' :
  FromProto_diff_ h b proto = Ok h' ->
  match diff_payload_ proto with
  | None => h' = h
  | Some dp =>
      count_ b = Z.of_nat (length dp)
      /\ next_loc h' = next_loc h
      /\ (forall l, diff_ b <> Some l -> cells h' !! l = cells h !! l)
      /\ host_values_ h' (diff_ b) (count_ b) = Some dp
  end.
Proof.
  unfold FromProto_diff, diff_payload. intros E.
  destruct (0 <? Proto.double_diff_size proto);
    [|destruct (0 <? Proto.diff_size proto); [|by injection E]].
  all: apply obind_Ok in E as (u' & Hchk & E); apply CHECK_Ok, Z.eqb_eq in Hchk;
    apply obind_Ok in E as ([h1 l] & Hm & E);
    unfold mutable_cpu_diff in Hm; apply obind_Ok in Hm as (u & _ & Hm);
    destruct (copy_into_Ok _ _ _ _ _ _ _ _ Hm Hchk E) as (Hp & Hn & Hfr & _ & Hv);
    rewrite length_fmap; (split; [exact Hchk|]); (split; [exact Hn|]);
    (split; [|exact Hv]); intros l' Hl'; apply Hfr; congruence.
Qed.

Lemma FromProto_diff_total h b proto :
  (forall dp, diff_payload_ proto = Some dp ->
     can_hold elem_type h (diff_ b) (count_ b)
     /\ count_ b = Z.of_nat (length dp)) ->
  exists h', FromProto_diff_ h b proto = Ok h'.
Proof.
  unfold FromProto_diff, diff_payload, mutable_cpu_diff. intros Hdp.
  destruct (0 <? Proto.double_diff_size proto);
    [|destruct (0 <? Proto.diff_size proto); [|eauto]].
  all: destruct (Hdp _ eq_refl) as [Hcan Hcnt]; rewrite length_fmap in Hcnt;
    assert (Hnn : non_null (diff_ b) = true) by (by destruct Hcan as (l & c & -> & _));
    rewrite Hnn; simpl.
  - destruct (copy_into_total of_double (proto_double_diff proto) _ _ _ Hcan Hcnt)
      as (h1 & l & h' & -> & Hloop).
    unfold Proto.double_diff_size. rewrite <- Hcnt, Z.eqb_refl. simpl. eauto.
  - destruct (copy_into_total of_float (proto_diff proto) _ _ _ Hcan Hcnt)
      as (h1 & l & h' & -> & Hloop).
    unfold Proto.diff_size. rewrite <- Hcnt, Z.eqb_refl. simpl. eauto.
Qed.

Lemma FromProto_diff_mismatch h b proto dp :
  diff_payload_ proto = Some dp ->
  count_ b <> Z.of_nat (length dp) ->
  FromProto_diff_ h b proto = Fatal CHECK_FAILED.
Proof.
  unfold FromProto_diff, diff_payload. intros Hdp Hne.
  destruct (0 <? Proto.double_diff_size proto);
    [|destruct (0 <? Proto.diff_size proto); [|discriminate]].
  all: injection Hdp as <-; rewrite length_fmap in Hne.
  - unfold Proto.double_diff_size.
    destruct (Z.eqb_spec (count_ b) (Z.of_nat (length (proto_double_diff proto)))); done.
  - unfold Proto.diff_size.
    destruct (Z.eqb_spec (count_ b) (Z.of_nat (length (proto_diff proto)))); done.
Qed.

Lemma FromProto_Ok h b proto reshape h' b' :
  FromProto_ h b proto reshape = Ok (h', b') ->
  exists h1 h2,
    FromProto_shape_ h b proto reshape = Ok (h1, b')
    /\ FromProto_data_ h1 b' proto = Ok h2
    /\ FromProto_diff_ h2 b' proto = Ok h'.
Proof.
  unfold FromProto. intros E.
  apply obind_Ok in E as ([h1 b1] & E1 & E).
  apply obind_Ok in E as (h2 & E2 & E).
  apply obind_Ok in E as (h3 & E3 & E).
  injection E as <- <-. eauto.
Qed.

Lemma host_values_frame h h' (p : option nat) (n : Z) :
  (forall l, p = Some l -> cells h' !! l = cells h !! l) ->
  host_values_ h' p n = host_values_ h p n.
Proof.
  intros Hfr. unfold host_values. destruct p as [l|]; simpl; [|done].
  by rewrite Hfr.
Qed.

(** A buffer that could hold the tensor still can after the values
    stage. *)
Lemma can_hold_after_data h b proto h' (p : option nat) (n : Z) :
  FromProto_data_ h b proto = Ok h' ->
  can_hold elem_type h p n -> can_hold elem_type h' p n.
Proof.
  intros E (l & c & -> & Hc & Hsz).
  apply FromProto_data_Ok in E as (_ & _ & Hfr & (l0 & c0 & c0' & Hd & Hc0 & Hc0' & _ & Hs) & _).
  destruct (decide (l0 = l)) as [->|Hne].
  - exists l, c0'. split; [done|]. split; [done|].
    rewrite Hs. rewrite Hc in Hc0. by injection Hc0 as <-.
  - exists l, c. split; [done|]. split; [|done].
    rewrite Hfr; [done|]. rewrite Hd. congruence.
Qed.

(** The shape stage against the spec-side reading of the message. *)
Lemma has_is_Some {A : Type} (f : option A) : Proto.has f = true <-> is_Some f.
Proof.
  destruct f; simpl; split.
  - by eexists.
  - done.
  - discriminate.
  - intros [? [=]].
Qed.

Lemma uses_legacy_fields_encoded proto :
  uses_legacy_fields proto = true <-> legacy_encoded proto.
Proof.
  unfold uses_legacy_fields, legacy_encoded, Proto.has_num, Proto.has_channels,
    Proto.has_height, Proto.has_width.
  rewrite !orb_true_iff, !has_is_Some. tauto.
Qed.

Lemma ShapeEquals_shape_matches b proto :
  ShapeEquals USE_INDEX_64 b proto = true <-> shape_matches USE_INDEX_64 b proto.
Proof.
  pose proof (uses_legacy_fields_encoded proto) as Hleg.
  unfold ShapeEquals, shape_matches.
  destruct (uses_legacy_fields proto).
  - rewrite !andb_true_iff, !Z.eqb_eq, Nat.leb_le. split.
    + intros ((((Hr & H1) & H2) & H3) & H4). left.
      split; [by apply Hleg|]. split; [done|].
      rewrite (LegacyShape_legacy_axes b Hr). unfold legacy_tuple.
      unfold Proto.num, Proto.channels, Proto.height, Proto.width in *. congruence.
    + intros [(_ & Hr & E)|(Hno & _)]; [|destruct Hno; by apply Hleg].
      rewrite (LegacyShape_legacy_axes b Hr) in E. unfold legacy_tuple in E.
      injection E as E1 E2 E3 E4. done.
  - split.
    + intros E. apply bool_decide_eq_true in E. right. split; [|exact E].
      intros Hl. apply Hleg in Hl. discriminate.
    + intros [(Hl & _)|(_ & E)]; [apply Hleg in Hl; discriminate|].
      apply bool_decide_eq_true. exact E.
Qed.

Lemma describes_target_shape proto (S : list Z) :
  describes_shape USE_INDEX_64 proto S <-> S = proto_target_shape USE_INDEX_64 proto.
Proof.
  pose proof (uses_legacy_fields_encoded proto) as Hleg.
  unfold proto_target_shape. split.
  - intros [Hl|Hno].
    + apply Hleg in Hl. by rewrite Hl.
    + destruct (uses_legacy_fields proto); [destruct Hno; by apply Hleg|done].
  - intros ->. destruct (uses_legacy_fields proto).
    + apply described_by_legacy_fields. by apply Hleg.
    + apply described_by_shape_list. intros Hl. apply Hleg in Hl. discriminate.
Qed.

(** The rank bound keeps the byte size of the shape cache inside
    [size_t]. *)
Hypothesis kMaxBlobAxes_fits : Z.of_nat kMaxBlobAxes * 8 < SIZE_T_MODULUS.

(** C6.  Without [reshape], a message whose shape does not match the
    blob's, each dim taken as converted to the index type, dies on the
    check, and a returning call has found it matching and leaves the
    blob as it is.  With [reshape], the shape the message describes is
    (num, channels, height, width) when any legacy field is present and
    its dims, converted, otherwise; a returning call has reshaped to it
    and a shape [Reshape] rejects is fatal.  Either way a returning call
    has found the count equal to the number of elements of the values
    payload and, when the message has diff content, of the diff payload;
    with a different number the call never returns, and it is a fatal
    check failure once the shape stage has returned and the values
    buffer exists (without [reshape], also when it was never
    allocated); the values hold the values payload; without diff
    content the store is the one the values stage left, with it the
    gradients hold the diff payload.  The call returns when its shape
    stage does, the buffers have room for the count and the payload
    sizes equal it. *)
Theorem FromProto_checks_shape_and_counts h b proto :
  (~ shape_matches USE_INDEX_64 b proto ->
     FromProto_ h b proto false = Fatal CHECK_FAILED)
  /\ (forall h' b', FromProto_ h b proto false = Ok (h', b') ->
        b' = b /\ shape_matches USE_INDEX_64 b proto)
  /\ (forall S, describes_shape USE_INDEX_64 proto S ->
        (forall h' b', FromProto_ h b proto true = Ok (h', b') ->
           shape_ b' = S /\ count_ b' = product S)
        /\ (~ valid_shape kMaxBlobAxes MAX S ->
            FromProto_ h b proto true = Fatal CHECK_FAILED))
  /\ (legacy_encoded proto ->
      forall h' b', FromProto_ h b proto true = Ok (h', b') ->
        shape_ b' = [default 0 (proto_num proto); default 0 (proto_channels proto);
                     default 0 (proto_height proto); default 0 (proto_width proto)])
  /\ (~ legacy_encoded proto ->
      forall h' b', FromProto_ h b proto true = Ok (h', b') ->
        shape_ b' = dims_as_index USE_INDEX_64 (proto_shape proto)
        /\ (Forall (int_tp_range USE_INDEX_64) (proto_shape proto) ->
            shape_ b' = proto_shape proto))
  /\ (forall reshape h' b', FromProto_ h b proto reshape = Ok (h', b') ->
        count_ b' = Z.of_nat (length (data_payload_ proto))
        /\ (data_ b' <> diff_ b' ->
            host_values_ h' (data_ b') (count_ b') = Some (data_payload_ proto))
        /\ match diff_payload_ proto with
           | None =>
               exists h1, FromProto_shape_ h b proto reshape = Ok (h1, b')
                          /\ FromProto_data_ h1 b' proto = Ok h'
                          /\ host_values_ h' (data_ b') (count_ b')
                             = Some (data_payload_ proto)
           | Some dp =>
               count_ b' = Z.of_nat (length dp)
               /\ host_values_ h' (diff_ b') (count_ b') = Some dp
           end)
  /\ (count_ b <> Z.of_nat (length (data_payload_ proto)) ->
        ~ is_Ok (FromProto_ h b proto false)
        /\ (shape_matches USE_INDEX_64 b proto ->
            data_ b = None \/ is_Ok (mutable_cpu_data h b) ->
            FromProto_ h b proto false = Fatal CHECK_FAILED))
  /\ (forall S, describes_shape USE_INDEX_64 proto S ->
        product S <> Z.of_nat (length (data_payload_ proto)) ->
        ~ is_Ok (FromProto_ h b proto true))
  /\ (forall reshape h1 b1,
        FromProto_shape_ h b proto reshape = Ok (h1, b1) ->
        is_Ok (mutable_cpu_data h1 b1) ->
        count_ b1 <> Z.of_nat (length (data_payload_ proto)) ->
        FromProto_ h b proto reshape = Fatal CHECK_FAILED)
  /\ (forall reshape h1 b1 h2 dp,
        FromProto_shape_ h b proto reshape = Ok (h1, b1) ->
        FromProto_data_ h1 b1 proto = Ok h2 ->
        diff_payload_ proto = Some dp ->
        count_ b1 <> Z.of_nat (length dp) ->
        FromProto_ h b proto reshape = Fatal CHECK_FAILED)
  /\ (forall reshape : bool,
        (if reshape
         then exists S, describes_shape USE_INDEX_64 proto S
                        /\ valid_shape kMaxBlobAxes MAX S
         else shape_matches USE_INDEX_64 b proto) ->
        exists h1 b1,
          FromProto_shape_ h b proto reshape = Ok (h1, b1)
          /\ (can_hold elem_type h1 (data_ b1) (count_ b1) ->
              count_ b1 = Z.of_nat (length (data_payload_ proto)) ->
              (forall dp, diff_payload_ proto = Some dp ->
                 can_hold elem_type h1 (diff_ b1) (count_ b1)
                 /\ count_ b1 = Z.of_nat (length dp)) ->
              exists h', FromProto_ h b proto reshape = Ok (h', b1))).
Proof.
  assert (Hfalse : forall h' b', FromProto_ h b proto false = Ok (h', b') ->
            b' = b /\ shape_matches USE_INDEX_64 b proto).
  { intros h' b' E. apply FromProto_Ok in E as (h1 & h2 & E1 & _).
    unfold FromProto_shape in E1.
    destruct (ShapeEquals USE_INDEX_64 b proto) eqn:Es; simpl in E1; [|discriminate].
    injection E1 as <- <-. split; [done|]. by apply ShapeEquals_shape_matches. }
  assert (Htrue : forall h' b', FromProto_ h b proto true = Ok (h', b') ->
            shape_ b' = proto_target_shape USE_INDEX_64 proto
            /\ count_ b' = product (proto_target_shape USE_INDEX_64 proto)).
  { intros h' b' E. apply FromProto_Ok in E as (h1 & h2 & E1 & _).
    unfold FromProto_shape, Reshape1 in E1.
    apply obind_Ok in E1 as ([[h0 b0] c] & Er & E1). injection E1 as <- <-.
    apply Reshape_Ok in Er as (_ & Hc & _ & Hs & _). done. }
  assert (Hcount : forall reshape h' b', FromProto_ h b proto reshape = Ok (h', b') ->
            count_ b' = Z.of_nat (length (data_payload_ proto))).
  { intros reshape h' b' E. apply FromProto_Ok in E as (h1 & h2 & _ & E2 & _).
    by apply FromProto_data_Ok in E2 as (Hcnt & _). }
  split; [|split; [exact Hfalse|split; [|split; [|split; [|split; [|split;
    [|split; [|split; [|split]]]]]]]]].
  - intros Hne. unfold FromProto, FromProto_shape.
    destruct (ShapeEquals USE_INDEX_64 b proto) eqn:Es; [|done].
    destruct Hne. by apply ShapeEquals_shape_matches.
  - intros S HS. apply describes_target_shape in HS. subst S. split; [exact Htrue|].
    intros Hbad. unfold FromProto, FromProto_shape, Reshape1.
    rewrite (Reshape_fatal USE_INDEX_64 kMaxBlobAxes elem_type kMaxBlobAxes_fits) by done.
    done.
  - intros Hl h' b' E. apply Htrue in E as (-> & _).
    symmetry. apply describes_target_shape. by apply described_by_legacy_fields.
  - intros Hno h' b' E. apply Htrue in E as (-> & _).
    assert (Ed : dims_as_index USE_INDEX_64 (proto_shape proto)
                 = proto_target_shape USE_INDEX_64 proto)
      by (apply describes_target_shape; by apply described_by_shape_list).
    split; [done|]. intros Hr. rewrite <- Ed.
    exact (dims_to_int_tp_id _ _ Hr).
  - intros reshape h' b' E. pose proof (Hcount _ _ _ E) as Hcnt.
    apply FromProto_Ok in E as (h1 & h2 & E1 & E2 & E3).
    pose proof (FromProto_data_Ok _ _ _ _ E2)
      as (_ & _ & _ & (l & c & c' & Hd & _) & Hv).
    apply FromProto_diff_Ok in E3.
    split; [exact Hcnt|]. split.
    + intros Hne. destruct (diff_payload_ proto) as [dp|]; [|by subst h'].
      destruct E3 as (_ & _ & Hfr & _). rewrite <- Hv.
      apply host_values_frame. intros l' Hl'. apply Hfr. congruence.
    + destruct (diff_payload_ proto) as [dp|].
      * destruct E3 as (Hc & _ & _ & Hg). done.
      * subst h'. exists h1. done.
  - intros Hne. split.
    + intros [[h' b'] E]. pose proof (Hcount _ _ _ E) as Hcnt.
      apply Hfalse in E as (-> & _). done.
    + intros Hm [Hnull|Hlive]; apply ShapeEquals_shape_matches in Hm;
        unfold FromProto, FromProto_shape; rewrite Hm; simpl.
      * unfold FromProto_data, mutable_cpu_data. by rewrite Hnull.
      * by rewrite FromProto_data_mismatch.
  - intros S HS Hne [[h' b'] E]. apply describes_target_shape in HS. subst S.
    pose proof (Hcount _ _ _ E) as Hcnt. apply Htrue in E as (_ & Hp). congruence.
  - intros reshape h1 b1 E1 Hm Hne. unfold FromProto. rewrite E1. simpl.
    by rewrite FromProto_data_mismatch.
  - intros reshape h1 b1 h2 dp E1 E2 Hdp Hne. unfold FromProto. rewrite E1. simpl.
    rewrite E2. simpl. by erewrite FromProto_diff_mismatch.
  - intros reshape Hshape.
    assert (Hs : exists h1 b1, FromProto_shape_ h b proto reshape = Ok (h1, b1)).
    { unfold FromProto_shape. destruct reshape.
      - destruct Hshape as (S & HS & Hv). apply describes_target_shape in HS. subst S.
        destruct (Reshape_total USE_INDEX_64 kMaxBlobAxes elem_type kMaxBlobAxes_fits
                    h b _ (proto_target_shape USE_INDEX_64 proto) Hv)
          as (h1 & b1 & c & E).
        unfold Reshape1. rewrite E. simpl. eauto.
      - apply ShapeEquals_shape_matches in Hshape. rewrite Hshape. simpl. eauto. }
    destruct Hs as (h1 & b1 & E1). exists h1, b1. split; [exact E1|].
    intros Hcan Hcnt Hdiff.
    destruct (FromProto_data_total h1 b1 proto Hcan Hcnt) as [h2 E2].
    destruct (FromProto_diff_total h2 b1 proto) as [h3 E3].
    { intros dp Hdp. destruct (Hdiff dp Hdp) as [Hcan' Hc']. split; [|exact Hc'].
      eapply can_hold_after_data; eauto. }
    exists h3. unfold FromProto. rewrite E1. simpl. rewrite E2. simpl.
    rewrite E3. done.
Qed.
End FromProtoFacts.

(** ** [ToProto] *)

Lemma update_obj_same {Dtype : Type} (h : Heap Dtype) (l : nat) (c : Cell Dtype) :
  cells h !! l = Some c -> update_obj h l (obj c) = h.
Proof.
  intros Hc. destruct h as [cs n]. unfold update_obj. simpl in *. f_equal.
  apply map_eq. intros k. destruct (decide (k = l)) as [->|Hne].
  - rewrite lookup_alter_eq, Hc. simpl. by destruct c.
  - by rewrite lookup_alter_ne.
Qed.

(** Reading a host-resident buffer through [cpu_data] leaves the store
    as it is. *)
Lemma call_on_cpu_data_resident {Dtype : Type} (h : Heap Dtype) (l : nat) (c : Cell Dtype) :
  cells h !! l = Some c ->
  SyncedMemory.head (obj c) = HEAD_AT_CPU \/ SyncedMemory.head (obj c) = SYNCED ->
  call_on h (Some l) SyncedMemory.cpu_data = Ok (h, l).
Proof.
  intros Hc Hhd. unfold call_on. simpl. rewrite Hc. simpl.
  assert (E : SyncedMemory.cpu_data (obj c) = obj c).
  { unfold SyncedMemory.cpu_data, SyncedMemory.to_cpu, SyncedMemory.head in *.
    by destruct Hhd as [-> | ->]. }
  by rewrite E, update_obj_same.
Qed.

Section ToProtoLoops.
Variable elem_type : ElemType.
Context {Dtype Quantizer Float Double : Type}.
Variable zero : Dtype.
Implicit Type h : Heap Dtype.
Implicit Type b : Blob Quantizer.
Implicit Type proto : BlobProto Float Double.

Lemma ToProto_shape_loop_total b (n : nat) : forall i proto,
  (i + n <= length (shape_ b))%nat ->
  (i + n <= length (shape_stride_ b))%nat ->
  exists p',
    ToProto_shape_loop b i n proto = Ok p'
    /\ proto_shape p' = proto_shape proto ++ take n (drop i (shape_ b))
    /\ proto_num p' = proto_num proto /\ proto_channels p' = proto_channels proto
    /\ proto_height p' = proto_height proto /\ proto_width p' = proto_width proto
    /\ proto_data p' = proto_data proto /\ proto_diff p' = proto_diff proto
    /\ proto_double_data p' = proto_double_data proto
    /\ proto_double_diff p' = proto_double_diff proto.
Proof.
  induction n as [|n IH]; intros i proto Hs Ht; simpl.
  - exists proto. rewrite app_nil_r. repeat split; done.
  - destruct (lookup_lt_is_Some_2 (shape_ b) i ltac:(lia)) as [d Hd].
    destruct (lookup_lt_is_Some_2 (shape_stride_ b) i ltac:(lia)) as [t Hst].
    unfold vector_get. rewrite Hd, Hst. simpl.
    destruct (IH (S i) (Proto.add_shape_stride_dim t (Proto.add_shape_dim d proto))
                ltac:(lia) ltac:(lia)) as (p' & -> & Hshape & Hrest).
    exists p'. split; [done|]. split; [|exact Hrest].
    rewrite Hshape. simpl. rewrite <- app_assoc. simpl.
    by rewrite (drop_S _ _ _ Hd).
Qed.

Lemma ToProto_payload_loop_total
    (add : Dtype -> BlobProto Float Double -> BlobProto Float Double)
    h (src : nat) (c : Cell Dtype) (n : nat) : forall i proto,
  cells h !! src = Some c ->
  Z.of_nat (i + n) * sizeof_elem elem_type <= SyncedMemory.size_ (obj c) ->
  ToProto_payload_loop elem_type zero add h src i n proto
  = Ok (foldl (fun p v => add v p) proto
          ((fun j => default zero (SyncedMemory.cpu_mem (obj c) !! j)) <$> seq i n)).
Proof.
  induction n as [|n IH]; intros i proto Hc Hsz; simpl; [done|].
  unfold load. rewrite Hc. simpl.
  unfold SyncedMemory.peek_cpu, SyncedMemory.in_bounds.
  pose proof (sizeof_elem_pos elem_type) as Hpos.
  destruct (Z.leb_spec ((Z.of_nat i + 1) * sizeof_Dtype elem_type)
              (SyncedMemory.size_ (obj c))) as [_|Hout]; simpl.
  2:{ apply Z.lt_nge in Hout. destruct Hout.
      eapply index_in_span; [|exact Hpos|exact Hsz]. lia. }
  apply IH; [done|]. replace (S i + n)%nat with (i + S n)%nat by lia. exact Hsz.
Qed.
End ToProtoLoops.

Section ProtoFolds.
Context {Float Double : Type}.
Implicit Type p : BlobProto Float Double.

Lemma foldl_add_data (vs : list Float) : forall p,
  foldl (fun p v => Proto.add_data v p) p vs = Proto.set_data (proto_data p ++ vs) p.
Proof.
  induction vs as [|v vs IH]; intros p; simpl.
  - rewrite app_nil_r. by destruct p.
  - rewrite IH. unfold Proto.add_data, Proto.set_data. simpl. by rewrite <- app_assoc.
Qed.

Lemma foldl_add_diff (vs : list Float) : forall p,
  foldl (fun p v => Proto.add_diff v p) p vs = Proto.set_diff (proto_diff p ++ vs) p.
Proof.
  induction vs as [|v vs IH]; intros p; simpl.
  - rewrite app_nil_r. by destruct p.
  - rewrite IH. unfold Proto.add_diff, Proto.set_diff. simpl. by rewrite <- app_assoc.
Qed.

Lemma foldl_add_double_data (vs : list Double) : forall p,
  foldl (fun p v => Proto.add_double_data v p) p vs
  = Proto.set_double_data (proto_double_data p ++ vs) p.
Proof.
  induction vs as [|v vs IH]; intros p; simpl.
  - rewrite app_nil_r. by destruct p.
  - rewrite IH. unfold Proto.add_double_data, Proto.set_double_data. simpl.
    by rewrite <- app_assoc.
Qed.

Lemma foldl_add_double_diff (vs : list Double) : forall p,
  foldl (fun p v => Proto.add_double_diff v p) p vs
  = Proto.set_double_diff (proto_double_diff p ++ vs) p.
Proof.
  induction vs as [|v vs IH]; intros p; simpl.
  - rewrite app_nil_r. by destruct p.
  - rewrite IH. unfold Proto.add_double_diff, Proto.set_double_diff. simpl.
    by rewrite <- app_assoc.
Qed.
End ProtoFolds.

Section ReadPayload.
Variable elem_type : ElemType.
Context {Dtype Quantizer Float Double : Type}.
Variable zero : Dtype.
Implicit Type h : Heap Dtype.

(** Serialising the first [n] elements of a host-resident buffer. *)
Lemma read_host_resident h (p : option nat) (n : Z) :
  host_resident elem_type h p n -> 0 <= n ->
  exists l vs,
    p = Some l
    /\ call_on h p SyncedMemory.cpu_data = Ok (h, l)
    /\ host_values zero h p n = Some vs
    /\ length vs = Z.to_nat n
    /\ forall (add : Dtype -> BlobProto Float Double -> BlobProto Float Double) proto,
         ToProto_payload_loop elem_type zero add h l 0 (Z.to_nat n) proto
         = Ok (foldl (fun p v => add v p) proto vs).
Proof.
  intros (l & c & -> & Hc & Hsz & Hhd) Hn.
  exists l, (SyncedMemory.read_mem zero (SyncedMemory.cpu_mem (obj c)) (Z.to_nat n)).
  split; [done|]. split; [by eapply call_on_cpu_data_resident|].
  split; [unfold host_values; simpl; by rewrite Hc|].
  split; [apply length_read_mem|].
  intros add proto. apply ToProto_payload_loop_total; [done|].
  unfold SyncedMemory.size in Hsz. simpl. rewrite Z2Nat.id by done. exact Hsz.
Qed.

Lemma host_values_nil h (p : option nat) (n : Z) :
  can_hold elem_type h p n -> Z.to_nat n = 0%nat ->
  host_values zero h p n = Some [].
Proof.
  intros (l & c & -> & Hc & _) Hn. unfold host_values. simpl.
  by rewrite Hc, Hn.
Qed.

Lemma host_resident_can_hold h (p : option nat) (n : Z) :
  host_resident elem_type h p n -> can_hold elem_type h p n.
Proof. intros (l & c & ? & ? & ? & _). exists l, c. done. Qed.
End ReadPayload.

Section ToProtoFacts.
Context {Float Double Quantizer : Type}.
Variable float_zero : Float.
Variable double_zero : Double.
Implicit Type b : Blob Quantizer.
Implicit Type proto : BlobProto Float Double.

(** What [Blob<float>::ToProto] writes for a host-resident blob. *)
Lemma ToProto_float_Ok (h : Heap Float) b proto (write_diff : bool) :
  host_resident float h (data_ b) (count_ b) ->
  (write_diff = true -> host_resident float h (diff_ b) (count_ b)) ->
  0 <= count_ b ->
  (length (shape_ b) <= length (shape_stride_ b))%nat ->
  exists p,
    ToProto_float float_zero h b proto write_diff = Ok (h, p)
    /\ host_values float_zero h (data_ b) (count_ b) = Some (proto_data p)
    /\ length (proto_data p) = Z.to_nat (count_ b)
    /\ (if write_diff
        then host_values float_zero h (diff_ b) (count_ b) = Some (proto_diff p)
             /\ length (proto_diff p) = Z.to_nat (count_ b)
        else proto_diff p = [])
    /\ proto_shape p = shape_ b
    /\ proto_num p = proto_num proto /\ proto_channels p = proto_channels proto
    /\ proto_height p = proto_height proto /\ proto_width p = proto_width proto
    /\ proto_double_data p = proto_double_data proto
    /\ proto_double_diff p = proto_double_diff proto.
Proof.
  intros Hdata Hdiff Hcnt Hstride. unfold ToProto_float.
  destruct (ToProto_shape_loop_total (Float:=Float) (Double:=Double) b
              (length (shape_ b)) 0 (Proto.clear_shape proto)
              ltac:(lia) ltac:(lia))
    as (p1 & -> & Hshape & Hnum & Hch & Hht & Hw & _ & _ & Hdd & Hdg).
  simpl in Hshape. rewrite drop_0, firstn_all in Hshape. simpl.
  destruct (read_host_resident float (Float:=Float) (Double:=Double)
              float_zero h _ _ Hdata Hcnt)
    as (l & vs & Hp & Hcall & Hvals & Hlen & Hloop).
  unfold cpu_data at 1. rewrite Hp. cbn [non_null CHECK mbind Outcome_bind obind].
  rewrite Hp in Hcall. rewrite Hcall. cbn [mbind Outcome_bind obind].
  rewrite Hloop, foldl_add_data. cbn [mbind Outcome_bind obind].
  destruct write_diff.
  - destruct (read_host_resident float (Float:=Float) (Double:=Double)
                float_zero h _ _ (Hdiff eq_refl) Hcnt)
      as (g & gs & Hq & Hcallg & Hvalsg & Hleng & Hloopg).
    unfold cpu_diff. rewrite Hq. cbn [non_null CHECK mbind Outcome_bind obind].
    rewrite Hq in Hcallg. rewrite Hcallg. cbn [mbind Outcome_bind obind].
    rewrite Hloopg, foldl_add_diff. cbn [mbind Outcome_bind obind].
    eexists. split; [reflexivity|]. cbn -[host_values Z.to_nat].
    repeat split; try done; congruence.
  - eexists. split; [reflexivity|]. cbn -[host_values Z.to_nat].
    repeat split; try done; congruence.
Qed.

(** What [Blob<double>::ToProto] writes for a host-resident blob. *)
Lemma ToProto_double_Ok (h : Heap Double) b proto (write_diff : bool) :
  host_resident double h (data_ b) (count_ b) ->
  (write_diff = true -> host_resident double h (diff_ b) (count_ b)) ->
  0 <= count_ b ->
  (length (shape_ b) <= length (shape_stride_ b))%nat ->
  exists p,
    ToProto_double double_zero h b proto write_diff = Ok (h, p)
    /\ host_values double_zero h (data_ b) (count_ b) = Some (proto_double_data p)
    /\ length (proto_double_data p) = Z.to_nat (count_ b)
    /\ (if write_diff
        then host_values double_zero h (diff_ b) (count_ b) = Some (proto_double_diff p)
             /\ length (proto_double_diff p) = Z.to_nat (count_ b)
        else proto_double_diff p = [])
    /\ proto_shape p = shape_ b
    /\ proto_num p = proto_num proto /\ proto_channels p = proto_channels proto
    /\ proto_height p = proto_height proto /\ proto_width p = proto_width proto
    /\ proto_data p = proto_data proto
    /\ proto_diff p = proto_diff proto.
Proof.
  intros Hdata Hdiff Hcnt Hstride. unfold ToProto_double.
  destruct (ToProto_shape_loop_total (Float:=Float) (Double:=Double) b
              (length (shape_ b)) 0 (Proto.clear_shape proto)
              ltac:(lia) ltac:(lia))
    as (p1 & -> & Hshape & Hnum & Hch & Hht & Hw & Hfd & Hfg & _ & _).
  simpl in Hshape. rewrite drop_0, firstn_all in Hshape. simpl.
  destruct (read_host_resident double (Float:=Float) (Double:=Double)
              double_zero h _ _ Hdata Hcnt)
    as (l & vs & Hp & Hcall & Hvals & Hlen & Hloop).
  unfold cpu_data at 1. rewrite Hp. cbn [non_null CHECK mbind Outcome_bind obind].
  rewrite Hp in Hcall. rewrite Hcall. cbn [mbind Outcome_bind obind].
  rewrite Hloop, foldl_add_double_data. cbn [mbind Outcome_bind obind].
  destruct write_diff.
  - destruct (read_host_resident double (Float:=Float) (Double:=Double)
                double_zero h _ _ (Hdiff eq_refl) Hcnt)
      as (g & gs & Hq & Hcallg & Hvalsg & Hleng & Hloopg).
    unfold cpu_diff. rewrite Hq. cbn [non_null CHECK mbind Outcome_bind obind].
    rewrite Hq in Hcallg. rewrite Hcallg. cbn [mbind Outcome_bind obind].
    rewrite Hloopg, foldl_add_double_diff. cbn [mbind Outcome_bind obind].
    eexists. split; [reflexivity|]. cbn -[host_values Z.to_nat].
    repeat split; try done; congruence.
  - eexists. split; [reflexivity|]. cbn -[host_values Z.to_nat].
    repeat split; try done; congruence.
Qed.
End ToProtoFacts.

(** ** Round trip *)

Section IntoMatching.
Variable USE_INDEX_64 : bool.
Variable kMaxBlobAxes : nat.
Variable elem_type : ElemType.
Context {Dtype Quantizer Float Double : Type}.
Variable zero : Dtype.
Variable of_float : Float -> Dtype.
Variable of_double : Double -> Dtype.
Implicit Type h : Heap Dtype.
Implicit Type b : Blob Quantizer.
Implicit Type proto : BlobProto Float Double.

(** The copy stages of [FromProto] after a shape stage that returned
    [(h, b)], when the buffers of [b] have room. *)
Lemma FromProto_into_matching h0 b0 (reshape : bool) h b proto :
  FromProto_shape USE_INDEX_64 kMaxBlobAxes elem_type h0 b0 proto reshape = Ok (h, b) ->
  can_hold elem_type h (data_ b) (count_ b) ->
  count_ b = Z.of_nat (length (data_payload of_float of_double proto)) ->
  (forall dp, diff_payload of_float of_double proto = Some dp ->
     can_hold elem_type h (diff_ b) (count_ b)
     /\ count_ b = Z.of_nat (length dp)
     /\ data_ b <> diff_ b) ->
  exists h',
    FromProto USE_INDEX_64 kMaxBlobAxes elem_type of_float of_double h0 b0 proto reshape
    = Ok (h', b)
    /\ host_values zero h' (data_ b) (count_ b)
       = Some (data_payload of_float of_double proto)
    /\ (forall dp, diff_payload of_float of_double proto = Some dp ->
          host_values zero h' (diff_ b) (count_ b) = Some dp)
    /\ (diff_payload of_float of_double proto = None ->
        forall p n, can_hold elem_type h p n -> can_hold elem_type h' p n).
Proof.
  intros Hshape Hcan Hcnt Hdiff.
  destruct (FromProto_data_total elem_type of_float of_double h b proto Hcan Hcnt)
    as [h2 E2].
  destruct (FromProto_diff_total elem_type of_float of_double h2 b proto) as [h3 E3].
  { intros dp Hdp. destruct (Hdiff dp Hdp) as (Hcan' & Hc' & _). split; [|exact Hc'].
    eapply can_hold_after_data; eauto. }
  exists h3. split.
  { unfold FromProto. rewrite Hshape. simpl. rewrite E2. simpl. by rewrite E3. }
  pose proof (FromProto_data_Ok elem_type zero of_float of_double _ _ _ _ E2)
    as (_ & _ & _ & _ & Hv).
  pose proof (FromProto_diff_Ok elem_type zero of_float of_double _ _ _ _ E3) as Hd.
  destruct (diff_payload of_float of_double proto) as [dp|].
  - destruct Hd as (_ & _ & Hfr & Hg). destruct (Hdiff dp eq_refl) as (_ & _ & Hne).
    split; [|split; [|done]].
    + rewrite <- Hv. apply host_values_frame. intros l Hl. apply Hfr. congruence.
    + by intros dp' [= <-].
  - subst h3. split; [done|]. split; [done|].
    intros _ p n Hp. eapply can_hold_after_data; eauto.
Qed.

(** The second half of the round trip, for a message [p] that carries
    the values [vs] and the gradients [gs] of [b1], once the shape stage
    has returned the receiving blob with its buffers and count kept. *)
Lemma round_trip_back h b1 b2 b2' proto (reshape write_diff : bool)
    (vs gs : list Dtype) :
  FromProto_shape USE_INDEX_64 kMaxBlobAxes elem_type h b2 proto reshape = Ok (h, b2') ->
  data_ b2' = data_ b2 -> diff_ b2' = diff_ b2 -> count_ b2' = count_ b2 ->
  data_payload of_float of_double proto = vs ->
  diff_payload of_float of_double proto
  = (if 0 <? Z.of_nat (length gs) then Some gs else None) ->
  host_values zero h (data_ b1) (count_ b1) = Some vs ->
  length vs = Z.to_nat (count_ b1) ->
  (if write_diff
   then host_values zero h (diff_ b1) (count_ b1) = Some gs
        /\ length gs = Z.to_nat (count_ b1)
   else gs = []) ->
  0 <= count_ b1 ->
  receiving elem_type h b1 b2 write_diff ->
  exists h',
    FromProto USE_INDEX_64 kMaxBlobAxes elem_type of_float of_double h b2 proto reshape
    = Ok (h', b2')
    /\ host_values zero h' (data_ b2') (count_ b2')
       = host_values zero h (data_ b1) (count_ b1)
    /\ (write_diff = true ->
        host_values zero h' (diff_ b2') (count_ b2')
        = host_values zero h (diff_ b1) (count_ b1)).
Proof.
  intros Hshape Hd' Hg' Hc' Hvs Hdp Hvals Hlen Hgs Hcnt (_ & Hc & Hcan & Hrecv).
  rewrite <- Hd', <- Hg', <- Hc' in *.
  assert (Hcnt2 : count_ b2' = Z.of_nat (length vs)) by lia.
  destruct (FromProto_into_matching h b2 reshape h b2' proto Hshape Hcan)
    as (h' & E & Hv & Hg & Hkeep).
  { by rewrite Hvs. }
  { intros dp Hdp'. rewrite Hdp in Hdp'.
    destruct (Z.ltb_spec 0 (Z.of_nat (length gs))) as [Hpos|]; [|discriminate].
    injection Hdp' as <-.
    destruct write_diff; [|subst gs; simpl in Hpos; lia].
    destruct (Hrecv eq_refl) as [Hcang Hne]. destruct Hgs as [_ Hleng].
    split; [done|]. split; [lia|done]. }
  exists h'. split; [exact E|]. split.
  { by rewrite Hv, Hvs, Hvals. }
  intros ->. destruct Hgs as [Hgvals Hleng]. destruct (Hrecv eq_refl) as [Hcang _].
  rewrite Hdp in Hg, Hkeep.
  destruct (Z.ltb_spec 0 (Z.of_nat (length gs))) as [Hpos|Hzero].
  - by rewrite (Hg gs eq_refl), Hgvals.
  - assert (Hz : Z.to_nat (count_ b1) = 0%nat) by lia.
    destruct gs; [|simpl in Hzero; lia].
    rewrite Hgvals. apply (host_values_nil elem_type); [|by rewrite Hc].
    by apply Hkeep.
Qed.
End IntoMatching.

Section RoundTrip.
Variable USE_INDEX_64 : bool.
Variable kMaxBlobAxes : nat.
Context {Float Double Quantizer : Type}.
Variable float_zero : Float.
Variable double_zero : Double.
Variable double_to_float : Double -> Float.
Variable float_to_double : Float -> Double.
Implicit Type b : Blob Quantizer.
Implicit Type proto : BlobProto Float Double.

Hypothesis kMaxBlobAxes_fits : Z.of_nat kMaxBlobAxes * 8 < SIZE_T_MODULUS.

(** The shape stage of [FromProto] on a message [ToProto] wrote, into a
    blob of the serialised shape: it returns, and the blob keeps its
    buffers and its count. *)
Lemma FromProto_shape_matching (elem_type : ElemType) {Dtype : Type}
    (h : Heap Dtype) b1 b2 (p0 p : BlobProto Float Double) (reshape : bool) :
  uses_legacy_fields p0 = false ->
  proto_num p = proto_num p0 -> proto_channels p = proto_channels p0 ->
  proto_height p = proto_height p0 -> proto_width p = proto_width p0 ->
  proto_shape p = shape_ b1 ->
  Forall (int_tp_range USE_INDEX_64) (shape_ b1) ->
  shape_ b2 = shape_ b1 -> count_ b2 = count_ b1 ->
  (reshape = true -> reshape_keeps USE_INDEX_64 kMaxBlobAxes b1 b2) ->
  exists b2',
    FromProto_shape USE_INDEX_64 kMaxBlobAxes elem_type h b2 p reshape = Ok (h, b2')
    /\ data_ b2' = data_ b2 /\ diff_ b2' = diff_ b2
    /\ count_ b2' = count_ b2 /\ shape_ b2' = shape_ b2.
Proof.
  intros Hleg Hn Hc Hh Hw Hs Hr Hshape Hcount Hkeep.
  assert (E : uses_legacy_fields p = false).
  { revert Hleg. unfold uses_legacy_fields, Proto.has_num, Proto.has_channels,
      Proto.has_height, Proto.has_width. by rewrite Hn, Hc, Hh, Hw. }
  unfold FromProto_shape. destruct reshape.
  - destruct (Hkeep eq_refl) as (Hvalid & Hprod & Hcap).
    unfold proto_target_shape. rewrite E, Hs, dims_to_int_tp_id by done.
    destruct (Reshape_total USE_INDEX_64 kMaxBlobAxes elem_type kMaxBlobAxes_fits
                h b2 (shape_ b1) (shape_ b1) Hvalid) as (h1 & b2' & changed & Er).
    unfold Reshape1. rewrite Er. simpl.
    apply Reshape_Ok in Er as (_ & Hcnt' & _ & Hshp' & _ & _ & _ & Hch & Hsame & _).
    rewrite bool_decide_eq_false_2 in Hch by lia. subst changed.
    destruct (Hsame eq_refl) as (-> & Hd & Hg & _).
    exists b2'. repeat split; try done; congruence.
  - unfold ShapeEquals. rewrite E, Hs, dims_to_int_tp_id by done.
    rewrite bool_decide_eq_true_2 by done. simpl. exists b2. done.
Qed.

(** X23.  A host-resident [Blob<float>] or [Blob<double>] whose
    [shape_stride_] has an entry for every axis, serialised by [ToProto]
    into a message without stale content and deserialised by [FromProto]
    into a blob of the same shape and count, gives that blob the values
    of the first and, when [write_diff] was asked for, its gradients; the
    store is as before the serialisation, and the receiving blob keeps
    its shape, count and buffers.  This holds without [reshape], and
    with it when the receiving blob has the capacity for the count. *)
Theorem ToProto_FromProto_round_trip :
  (forall (h : Heap Float) b1 b2 (p0 : BlobProto Float Double)
          (write_diff reshape : bool),
     serialisable USE_INDEX_64 float h b1 write_diff ->
     receiving float h b1 b2 write_diff ->
     no_stale_content p0 ->
     (reshape = true -> reshape_keeps USE_INDEX_64 kMaxBlobAxes b1 b2) ->
     exists p h' b2',
       ToProto_float float_zero h b1 p0 write_diff = Ok (h, p)
       /\ FromProto_float USE_INDEX_64 kMaxBlobAxes double_to_float h b2 p reshape
          = Ok (h', b2')
       /\ shape_ b2' = shape_ b1 /\ count_ b2' = count_ b1
       /\ data_ b2' = data_ b2 /\ diff_ b2' = diff_ b2
       /\ is_Some (host_values float_zero h (data_ b1) (count_ b1))
       /\ host_values float_zero h' (data_ b2') (count_ b2')
          = host_values float_zero h (data_ b1) (count_ b1)
       /\ (write_diff = true ->
           is_Some (host_values float_zero h (diff_ b1) (count_ b1))
           /\ host_values float_zero h' (diff_ b2') (count_ b2')
              = host_values float_zero h (diff_ b1) (count_ b1)))
  /\ (forall (h : Heap Double) b1 b2 (p0 : BlobProto Float Double)
          (write_diff reshape : bool),
     serialisable USE_INDEX_64 double h b1 write_diff ->
     receiving double h b1 b2 write_diff ->
     no_stale_content p0 ->
     (reshape = true -> reshape_keeps USE_INDEX_64 kMaxBlobAxes b1 b2) ->
     exists p h' b2',
       ToProto_double double_zero h b1 p0 write_diff = Ok (h, p)
       /\ FromProto_double USE_INDEX_64 kMaxBlobAxes float_to_double h b2 p reshape
          = Ok (h', b2')
       /\ shape_ b2' = shape_ b1 /\ count_ b2' = count_ b1
       /\ data_ b2' = data_ b2 /\ diff_ b2' = diff_ b2
       /\ is_Some (host_values double_zero h (data_ b1) (count_ b1))
       /\ host_values double_zero h' (data_ b2') (count_ b2')
          = host_values double_zero h (data_ b1) (count_ b1)
       /\ (write_diff = true ->
           is_Some (host_values double_zero h (diff_ b1) (count_ b1))
           /\ host_values double_zero h' (diff_ b2') (count_ b2')
              = host_values double_zero h (diff_ b1) (count_ b1))).
Proof.
  split.
  - intros h b1 b2 p0 write_diff reshape (Hdata & Hdiff & Hcnt & Hstride & Hrange)
      Hrecv (Hleg & Hd0 & Hg0 & Hdd0 & Hdg0) Hkeep.
    destruct (ToProto_float_Ok float_zero h b1 p0 write_diff Hdata Hdiff Hcnt Hstride)
      as (p & Hto & Hvals & Hlen & Hgs & Hshape & Hn & Hc & Hh & Hw & Hdd & Hdg).
    rewrite Hdd0 in Hdd. rewrite Hdg0 in Hdg.
    pose proof Hrecv as (Hs2 & Hc2 & _).
    destruct (FromProto_shape_matching float h b1 b2 p0 p reshape
                Hleg Hn Hc Hh Hw Hshape Hrange Hs2 Hc2 Hkeep)
      as (b2' & Hstage & Hd' & Hg' & Hc' & Hs').
    destruct (round_trip_back USE_INDEX_64 kMaxBlobAxes float float_zero
                (fun x => x) double_to_float h b1 b2 b2' p reshape write_diff
                (proto_data p) (proto_diff p) Hstage Hd' Hg' Hc')
      as (h' & Hfrom & Hv & Hg); try done.
    + unfold data_payload, Proto.double_data_size. rewrite Hdd. simpl.
      apply list_fmap_id.
    + unfold diff_payload, Proto.double_diff_size, Proto.diff_size. rewrite Hdg. simpl.
      by rewrite list_fmap_id.
    + exists p, h', b2'. split; [done|]. split; [done|].
      split; [congruence|]. split; [congruence|]. split; [done|]. split; [done|].
      split; [by rewrite Hvals|].
      split; [done|]. intros ->. destruct Hgs as [Hgs _].
      split; [by rewrite Hgs|by apply Hg].
  - intros h b1 b2 p0 write_diff reshape (Hdata & Hdiff & Hcnt & Hstride & Hrange)
      Hrecv (Hleg & Hd0 & Hg0 & Hdd0 & Hdg0) Hkeep.
    destruct (ToProto_double_Ok double_zero h b1 p0 write_diff Hdata Hdiff Hcnt Hstride)
      as (p & Hto & Hvals & Hlen & Hgs & Hshape & Hn & Hc & Hh & Hw & Hfd & Hfg).
    rewrite Hd0 in Hfd. rewrite Hg0 in Hfg.
    pose proof Hrecv as (Hs2 & Hc2 & _).
    destruct (FromProto_shape_matching double h b1 b2 p0 p reshape
                Hleg Hn Hc Hh Hw Hshape Hrange Hs2 Hc2 Hkeep)
      as (b2' & Hstage & Hd' & Hg' & Hc' & Hs').
    destruct (round_trip_back USE_INDEX_64 kMaxBlobAxes double double_zero
                float_to_double (fun x => x) h b1 b2 b2' p reshape write_diff
                (proto_double_data p) (proto_double_diff p) Hstage Hd' Hg' Hc')
      as (h' & Hfrom & Hv & Hg); try done.
    + unfold data_payload, Proto.double_data_size. rewrite Hfd.
      destruct (Z.ltb_spec 0 (Z.of_nat (length (proto_double_data p)))) as [|Hz].
      * apply list_fmap_id.
      * destruct (proto_double_data p); [done|simpl in Hz; lia].
    + unfold diff_payload, Proto.double_diff_size, Proto.diff_size. rewrite Hfg. simpl.
      by rewrite list_fmap_id.
    + exists p, h', b2'. split; [done|]. split; [done|].
      split; [congruence|]. split; [congruence|]. split; [done|]. split; [done|].
      split; [by rewrite Hvals|].
      split; [done|]. intros ->. destruct Hgs as [Hgs _].
      split; [by rewrite Hgs|by apply Hg].
Qed.
End RoundTrip.

(** ** The model on concrete inputs

    The helpers are integer stand-ins, so these check the dispatch and
    the plumbing of the buffers, not floating-point arithmetic. *)

Example Reshape_2_3 :
  (fun r => match r with
            | Ok (h, b, changed) =>
                Some (count_ b, capacity_ b, shape_ b, data_ b, diff_ b, changed)
            | _ => None
            end)
    (Reshape false 32 float Example.store0 Example.blob0 [2; 3] [2; 3])
  = Some (6, 6, [2; 3], Some 0%nat, Some 1%nat, true).
Proof. vm_compute. reflexivity. Qed.

Example Reshape_overflow_is_fatal :
  Reshape false 32 float Example.store0 Example.blob0 [65536; 65536] []
  = Fatal CHECK_FAILED.
Proof. vm_compute. reflexivity. Qed.

Example Reshape_zero_extent_skips_check :
  (fun r => match r with Ok (_, b, changed) => Some (count_ b, changed) | _ => None end)
    (Reshape false 32 float Example.store0 Example.blob0 [0; 2147483647; 7] [])
  = Some (0, false).
Proof. vm_compute. reflexivity. Qed.

Example Update_subtracts_gradients :
  Example.values_after
    (Update false float 0 (-1) Example.axpy Example.axpy
            (Example.store_of [5; 5] [1; 2]) (Example.blob_of 2)) 2
  = Some [4; 3].
Proof. vm_compute. reflexivity. Qed.

Example sumsq_data_3_4 :
  Example.result_of
    (sumsq_data false float 0 Example.dot Example.dot
                (Example.store_of [3; 4] [0; 0]) (Example.blob_of 2))
  = Some 25.
Proof. vm_compute. reflexivity. Qed.

Example asum_data_m3_4 :
  Example.result_of
    (asum_data false float 0 Example.asum Example.asum
               (Example.store_of [-3; 4] [0; 0]) (Example.blob_of 2))
  = Some 7.
Proof. vm_compute. reflexivity. Qed.

Example scale_data_by_2 :
  Example.values_after
    (scale_data false float 0 Example.scal Example.scal
                (Example.store_of [1; 2; 3] [0; 0; 0]) (Example.blob_of 3) 2) 3
  = Some [2; 4; 6].
Proof. vm_compute. reflexivity. Qed.

Example FromProto_reshapes_to_message :
  (fun r => match r with
            | Ok (h, b) => Some (shape_ b, count_ b, host_values 0 h (data_ b) (count_ b))
            | _ => None
            end)
    (FromProto false 32 float (fun x : Z => x) (fun x : Z => x)
               Example.store1 Example.blob1 Example.message3 true)
  = Some ([3], 3, Some [7; 8; 9]).
Proof. vm_compute. reflexivity. Qed.

(** ** Instances of the theorems above *)

Lemma rank_bound_32_fits : Z.of_nat 32 * 8 < SIZE_T_MODULUS.
Proof. unfold SIZE_T_MODULUS. lia. Qed.

Lemma valid_shape_2_3 : valid_shape 32 (INT_TP_MAX false) [2; 3].
Proof.
  unfold valid_shape, INT_TP_MAX, INT_MAX. simpl.
  split; [lia|]. split; [repeat constructor; lia|].
  split; [right; rewrite Z.div_1_r; lia|].
  split; [right; apply Z.div_le_lower_bound; lia|done].
Qed.

Lemma Reshape_count_is_checked_product_witness :
  exists h' b' changed,
    Reshape false 32 float Example.store0 Example.blob0 [2; 3] [2; 3]
    = Ok (h', b', changed)
    /\ count_ b' = product [2; 3].
Proof.
  exact (proj1 (Reshape_count_is_checked_product false 32 float rank_bound_32_fits
                  Example.store0 Example.blob0 [2; 3] [2; 3]) valid_shape_2_3).
Defined.

Lemma Reshape_reallocates_iff_count_exceeds_capacity_witness :
  exists h' b' changed,
    Reshape false 32 float Example.store0 Example.blob0 [2; 3] [2; 3]
    = Ok (h', b', changed)
    /\ (changed = true <-> capacity_ Example.blob0 < count_ b').
Proof.
  destruct (Reshape false 32 float Example.store0 Example.blob0 [2; 3] [2; 3])
    as [[[h' b'] changed]| |] eqn:E.
  - exists h', b', changed. split; [reflexivity|].
    exact (proj1 (proj1 (proj2 (Reshape_reallocates_iff_count_exceeds_capacity
                                  false 32 float rank_bound_32_fits))
                    _ _ _ _ _ _ _ E)).
  - vm_compute in E. discriminate.
  - vm_compute in E. discriminate.
Defined.

Lemma Share_aliases_the_buffer_witness :
  exists h1,
    ShareData Example.store2 Example.blob1 Example.blob2
    = Ok (h1, set_data_ (data_ Example.blob2) Example.blob1).
Proof.
  destruct (proj1 (proj2 (Share_aliases_the_buffer float 0
                            Example.store2 Example.blob1 Example.blob2)) eq_refl)
    as (h1 & h2 & E & _).
  exists h1. exact E.
Defined.

Lemma residency_blob2_data :
  residency Example.store2 (data_ Example.blob2) UNINITIALIZED.
Proof. exists 2%nat, (mkCell (SyncedMemory.new 8 0%nat) 1). repeat split; reflexivity. Qed.

Lemma uninitialized_buffer_operations_witness :
  asum_data false float 0 Example.asum Example.asum Example.store2 Example.blob2
  = Ok (Example.store2, 0)
  /\ Update false float 0 (-1) Example.axpy Example.axpy Example.store2 Example.blob2
     = Fatal LOG_FATAL.
Proof.
  destruct (proj1 (uninitialized_buffer_operations false float 0 (-1)
                     Example.axpy Example.asum Example.dot Example.scal
                     Example.axpy Example.asum Example.dot Example.scal
                     Example.store2 Example.blob2 eq_refl) residency_blob2_data)
    as (Hasum & _ & _ & Hupdate).
  split; [exact Hasum|exact Hupdate].
Defined.

Lemma integer_arithmetic_not_implemented_witness :
  Update false int32_t 0 (-1) Example.axpy Example.axpy Example.store1 Example.blob1
  = Fatal NOT_IMPLEMENTED.
Proof.
  refine (proj1 (integer_arithmetic_not_implemented false int32_t 0 (-1)
                   Example.axpy Example.asum Example.dot Example.scal
                   Example.axpy Example.asum Example.dot Example.scal
                   Example.store1 Example.blob1 _)).
  unfold integer_types. simpl. tauto.
Defined.

Lemma FromProto_checks_shape_and_counts_witness :
  FromProto false 32 float (fun x : Z => x) (fun x : Z => x)
            Example.store1 Example.blob1 Example.message3 false
  = Fatal CHECK_FAILED.
Proof.
  apply (proj1 (FromProto_checks_shape_and_counts false 32 float 0
                  (fun x : Z => x) (fun x : Z => x) rank_bound_32_fits
                  Example.store1 Example.blob1 Example.message3)).
  intros [([[x E]|[[x E]|[[x E]|[x E]]]] & _)|(_ & E)];
    vm_compute in E; discriminate E.
Defined.

(** Against C6 as stated: in the 32-bit-index build a message whose one
    dim is 2^32 + 2 is read without [reshape] into a blob of shape [2],
    whose values it overwrites. *)
Lemma FromProto_accepts_wrapped_dims :
  (exists h',
     FromProto false 32 float (fun x : Z => x) (fun x : Z => x)
               Example.store1 Example.blob1 Sample.wrapped_message false
     = Ok (h', Example.blob1)
     /\ host_values 0 h' (data_ Example.blob1) (count_ Example.blob1) = Some [7; 8])
  /\ uses_legacy_fields Sample.wrapped_message = false
  /\ proto_shape Sample.wrapped_message = [4294967298]
  /\ shape_ Example.blob1 = [2].
Proof.
  split; [|repeat split].
  destruct (FromProto false 32 float (fun x : Z => x) (fun x : Z => x)
              Example.store1 Example.blob1 Sample.wrapped_message false)
    as [[h' b']| |] eqn:E; [|vm_compute in E; discriminate E..].
  vm_compute in E. injection E as <- <-. eexists. split; reflexivity.
Qed.

Lemma ShapeEquals_legacy_or_exact_witness :
  ShapeEquals false Example.bias_blob Example.legacy_message = true.
Proof.
  exact (proj1 (proj2 (ShapeEquals_legacy_or_exact false
                         Example.bias_blob Example.legacy_message))
           eq_refl eq_refl eq_refl eq_refl eq_refl).
Defined.

(** Against C7 as stated: in the 32-bit-index build the shape [5] is
    found equal to a descriptor whose one dim is 2^32 + 5. *)
Lemma ShapeEquals_accepts_wrapped_dims :
  ShapeEquals false Sample.blob5 Sample.wrapped_descriptor = true
  /\ uses_legacy_fields Sample.wrapped_descriptor = false
  /\ shape_ Sample.blob5 = [5]
  /\ proto_shape Sample.wrapped_descriptor = [4294967301].
Proof. repeat split. Qed.

Lemma host_resident_blob1_data :
  host_resident float Example.store1 (data_ Example.blob1) (count_ Example.blob1).
Proof.
  exists 0%nat, (mkCell (Example.host_buffer [3; 4]) 1).
  split; [reflexivity|]. split; [reflexivity|]. split; [simpl; lia|by left].
Qed.

Lemma host_resident_blob1_diff :
  host_resident float Example.store1 (diff_ Example.blob1) (count_ Example.blob1).
Proof.
  exists 1%nat, (mkCell (Example.host_buffer [1; 2]) 1).
  split; [reflexivity|]. split; [reflexivity|]. split; [simpl; lia|by left].
Qed.

Lemma host_resident_store2_data :
  host_resident float Example.store2 (data_ Example.blob1) (count_ Example.blob1).
Proof.
  exists 0%nat, (mkCell (Example.host_buffer [3; 4]) 1).
  split; [reflexivity|]. split; [reflexivity|]. split; [simpl; lia|by left].
Qed.

Lemma host_resident_store2_diff :
  host_resident float Example.store2 (diff_ Example.blob1) (count_ Example.blob1).
Proof.
  exists 1%nat, (mkCell (Example.host_buffer [1; 2]) 1).
  split; [reflexivity|]. split; [reflexivity|]. split; [simpl; lia|by left].
Qed.

Lemma serialisable_store2 (write_diff : bool) :
  serialisable false float Example.store2 Example.blob1 write_diff.
Proof.
  split; [exact host_resident_store2_data|].
  split; [intros _; exact host_resident_store2_diff|].
  split; [simpl; lia|]. split; [simpl; lia|].
  repeat constructor; unfold int_tp_bits; simpl; lia.
Qed.

Lemma receiving_store2 (write_diff : bool) :
  receiving float Example.store2 Example.blob1 Example.blob2 write_diff.
Proof.
  split; [done|]. split; [done|].
  split; [exists 2%nat, (mkCell (SyncedMemory.new 8 0%nat) 1);
          split; [reflexivity|]; split; [reflexivity|simpl; lia]|].
  intros _.
  split; [exists 3%nat, (mkCell (SyncedMemory.new 8 0%nat) 1);
          split; [reflexivity|]; split; [reflexivity|simpl; lia]|].
  discriminate.
Qed.

Lemma no_stale_content_new_message : no_stale_content Example.new_message.
Proof. repeat split. Qed.

Lemma reshape_keeps_store2 : reshape_keeps false 32 Example.blob1 Example.blob2.
Proof.
  split; [|split; [reflexivity|simpl; lia]].
  unfold valid_shape, INT_TP_MAX, INT_MAX. simpl.
  split; [lia|]. split; [repeat constructor; lia|].
  split; [right; rewrite Z.div_1_r; lia|done].
Qed.

Lemma ToProto_FromProto_round_trip_witness :
  exists p h' b2',
    ToProto_float 0 Example.store2 Example.blob1 Example.new_message true
    = Ok (Example.store2, p)
    /\ FromProto_float false 32 (fun x : Z => x) Example.store2 Example.blob2 p true
       = Ok (h', b2')
    /\ host_values 0 Example.store2 (data_ Example.blob2) (count_ Example.blob2)
       = Some [0; 0]
    /\ host_values 0 h' (data_ b2') (count_ b2') = Some [3; 4]
    /\ host_values 0 h' (diff_ b2') (count_ b2') = Some [1; 2].
Proof.
  destruct (proj1 (ToProto_FromProto_round_trip false 32 0 0
                     (fun x : Z => x) (fun x : Z => x) rank_bound_32_fits)
              Example.store2 Example.blob1 Example.blob2 Example.new_message true true
              (serialisable_store2 true) (receiving_store2 true)
              no_stale_content_new_message (fun _ => reshape_keeps_store2))
    as (p & h' & b2' & E1 & E2 & _ & _ & _ & _ & _ & Hv & Hg).
  exists p, h', b2'. split; [exact E1|]. split; [exact E2|].
  split; [reflexivity|]. split; [exact Hv|]. exact (proj2 (Hg eq_refl)).
Defined.

(** ** Inputs the code mishandles *)

(** C1.  In the 64-bit-index build the byte size of the new buffers
    wraps around.  The shape [2^61] passes every check of [Reshape]; on
    a newly constructed [Blob<double>] the call answers [true] and sets
    count and capacity to 2^61, but [capacity_ * sizeof(Dtype)] is 2^64,
    which is 0 in [size_t]: both new buffers have 0 bytes and cannot
    hold the count. *)
Theorem Reshape_byte_size_wraps_in_64_bit_build :
  valid_shape 32 (INT_TP_MAX true) [2 ^ 61]
  /\ exists h' b',
       Reshape true 32 double Example.store0 Example.blob0 [2 ^ 61] [2 ^ 61]
       = Ok (h', b', true)
       /\ count_ b' = 2 ^ 61 /\ capacity_ b' = 2 ^ 61
       /\ data_ b' = Some 0%nat /\ diff_ b' = Some 1%nat
       /\ cells h' !! 0%nat = Some (mkCell (SyncedMemory.new 0 0%nat) 1)
       /\ cells h' !! 1%nat = Some (mkCell (SyncedMemory.new 0 0%nat) 1)
       /\ ~ can_hold double h' (data_ b') (count_ b')
       /\ ~ can_hold double h' (diff_ b') (count_ b').
Proof.
  split.
  - split; [simpl; lia|]. split; [repeat constructor; lia|].
    split; [|done]. right. apply Z.leb_le. vm_compute. reflexivity.
  - destruct (Reshape true 32 double Example.store0 Example.blob0 [2 ^ 61] [2 ^ 61])
      as [[[h' b'] changed]| |] eqn:E; [|vm_compute in E; discriminate E..].
    vm_compute in E. injection E as <- <- <-.
    do 2 eexists. split; [reflexivity|].
    do 6 (split; [reflexivity|]).
    split; intros (l & c & Hl & Hc & Hsz);
      injection Hl as <-; vm_compute in Hc; injection Hc as <-;
      vm_compute in Hsz; by apply Hsz.
Qed.

(** C8.  A [Blob<float>] constructed with shape [2], whose values 3, 4
    and gradients 1, 2 were written through the mutable host accessors,
    is valid on the host, yet it cannot be serialised: [Reshape] never
    stored a stride, [shape_stride_] is empty, and [ToProto] reads
    [shape_stride_[0]], for every message and either [write_diff].  The
    same holds for a [Blob<double>] constructed alike. *)
Theorem ToProto_of_constructed_blob_reads_missing_stride :
  (exists h1 b1 h2 p h3 h4 h5 g h6 h7,
     Blob_ctor false 32 float Example.store0 (None : option unit) [2] 0%nat = Ok (h1, b1)
     /\ mutable_cpu_data h1 b1 = Ok (h2, p)
     /\ store float h2 p 0 3 = Ok h3 /\ store float h3 p 1 4 = Ok h4
     /\ mutable_cpu_diff h4 b1 = Ok (h5, g)
     /\ store float h5 g 0 1 = Ok h6 /\ store float h6 g 1 2 = Ok h7
     /\ host_resident float h7 (data_ b1) (count_ b1)
     /\ host_resident float h7 (diff_ b1) (count_ b1)
     /\ host_values 0 h7 (data_ b1) (count_ b1) = Some [3; 4]
     /\ host_values 0 h7 (diff_ b1) (count_ b1) = Some [1; 2]
     /\ shape_ b1 = [2] /\ shape_stride_ b1 = []
     /\ forall (proto : BlobProto Z Z) (write_diff : bool),
          ToProto_float 0 h7 b1 proto write_diff = Undefined)
  /\ (exists h1 b1,
     Blob_ctor false 32 double Example.store0 (None : option unit) [2] 0%nat = Ok (h1, b1)
     /\ forall (h : Heap Z) (proto : BlobProto Z Z) (write_diff : bool),
          ToProto_double 0 h b1 proto write_diff = Undefined).
Proof.
  split.
  - destruct (Blob_ctor false 32 float Example.store0 (None : option unit) [2] 0%nat)
      as [[h1 b1]| |] eqn:E1; [|vm_compute in E1; discriminate E1..].
    vm_compute in E1. injection E1 as <- <-.
    do 10 eexists.
    split; [reflexivity|]. split; [vm_compute; reflexivity|].
    split; [vm_compute; reflexivity|]. split; [vm_compute; reflexivity|].
    split; [vm_compute; reflexivity|].
    split; [vm_compute; reflexivity|]. split; [vm_compute; reflexivity|].
    split; [do 2 eexists; split; [reflexivity|];
            split; [vm_compute; reflexivity|]; split; [simpl; lia|by left]|].
    split; [do 2 eexists; split; [reflexivity|];
            split; [vm_compute; reflexivity|]; split; [simpl; lia|by left]|].
    split; [vm_compute; reflexivity|]. split; [vm_compute; reflexivity|].
    split; [reflexivity|]. split; [reflexivity|].
    intros proto write_diff. reflexivity.
  - destruct (Blob_ctor false 32 double Example.store0 (None : option unit) [2] 0%nat)
      as [[h1 b1]| |] eqn:E1; [|vm_compute in E1; discriminate E1..].
    vm_compute in E1. injection E1 as <- <-.
    do 2 eexists. split; [reflexivity|].
    intros h proto write_diff. reflexivity.
Qed.

(** * Further properties of the members *)

(** ** Blobs as the constructors and [Reshape] leave them *)

Section Constructed.
Variable USE_INDEX_64 : bool.
Variable kMaxBlobAxes : nat.
Variable elem_type : ElemType.
Context {Dtype Quantizer : Type}.
Implicit Type h : Heap Dtype.
Implicit Type b : Blob Quantizer.

Local Abbreviation MAX := (INT_TP_MAX USE_INDEX_64).
Local Abbreviation Reshape_ := (Reshape USE_INDEX_64 kMaxBlobAxes elem_type).
Local Abbreviation sizeof := (sizeof_elem elem_type).
Local Abbreviation owns_buffers_ := (owns_buffers elem_type).

Lemma Reshape_keeps_ownership h b shape shape_stride h' b' changed :
  Reshape_ h b shape shape_stride = Ok (h', b', changed) ->
  owns_buffers_ h b -> capacity_ b <= MAX ->
  owns_buffers_ h' b' /\ capacity_ b' <= MAX
  /\ count_ b' = product (shape_ b') /\ 0 <= count_ b' <= capacity_ b'.
Proof.
  intros H (Hal & Hcap & Hnone & Hsome) Hmax.
  apply Reshape_Ok in H
    as (_ & Hcnt & Hb & Hshp & _ & _ & _ & Hch & Hfalse & Htrue).
  rewrite Hshp, Hcnt. destruct changed.
  - destruct (Htrue eq_refl) as (Hc' & Hd & Hg & Hh).
    symmetry in Hch. apply bool_decide_eq_true in Hch.
    destruct (realloc_store h b (size_t_mul (product shape) sizeof) (device_ b) Hal)
      as (Hn & H1 & H2).
    cbv zeta in Hh, Hn, H1, H2. rewrite <- Hh in Hn, H1, H2.
    split; [|lia].
    split; [|split; [lia|split; [lia|]]].
    + intros l [E|E]; rewrite ?Hd, ?Hg in E; injection E as <-; lia.
    + intros _. exists (next_loc h), (S (next_loc h)). do 2 eexists.
      rewrite Hc'. repeat split; eauto.
  - destruct (Hfalse eq_refl) as (-> & Hd & Hg & Hc').
    symmetry in Hch. apply bool_decide_eq_false in Hch.
    unfold owns_buffers. rewrite Hc'. split; [|lia].
    split; [|split; [lia|split]].
    + intros l. rewrite Hd, Hg. apply Hal.
    + rewrite Hd, Hg. intros E. apply Hnone. lia.
    + rewrite Hd, Hg. intros E. apply Hsome. lia.
Qed.

Lemma Reshape_sequence_keeps_ownership (shapes : list (list Z)) : forall h b h' b',
  Reshape_sequence USE_INDEX_64 kMaxBlobAxes elem_type h b shapes = Ok (h', b') ->
  owns_buffers_ h b /\ capacity_ b <= MAX
  /\ count_ b = product (shape_ b) /\ 0 <= count_ b <= capacity_ b ->
  owns_buffers_ h' b' /\ capacity_ b' <= MAX
  /\ count_ b' = product (shape_ b') /\ 0 <= count_ b' <= capacity_ b'.
Proof.
  induction shapes as [|shp rest IH]; intros h b h' b' H Hinv.
  - by injection H as <- <-.
  - cbn [Reshape_sequence] in H.
    apply obind_Ok in H as ([[h1 b1] ch] & H1 & H).
    apply (IH _ _ _ _ H).
    destruct Hinv as (Ho & Hm & _). unfold Reshape1 in H1.
    by apply (Reshape_keeps_ownership _ _ _ _ _ _ _ H1).
Qed.

Lemma owns_buffers_initial h (q : option Quantizer) dev :
  owns_buffers_ h (mkBlob None None None [] [] 0 0 dev q).
Proof.
  split; [apply handles_allocated_unconstructed|].
  split; [done|]. split; [done|]. simpl. lia.
Qed.

Lemma constructed_owns h h1 b1 :
  constructed USE_INDEX_64 kMaxBlobAxes elem_type h h1 b1 ->
  owns_buffers_ h1 b1 /\ capacity_ b1 <= MAX
  /\ count_ b1 = product (shape_ b1) /\ 0 <= count_ b1 <= capacity_ b1.
Proof.
  pose proof (INT_TP_MAX_pos USE_INDEX_64) as Hpos.
  intros [(q & shape & dev & H)|(q & n & c & hh & w & dev & H)].
  - unfold Blob_ctor, Reshape1 in H.
    apply obind_Ok in H as ([[h' b'] ch] & H & [= <- <-]).
    apply (Reshape_keeps_ownership _ _ _ _ _ _ _ H); [apply owns_buffers_initial|simpl; lia].
  - unfold Blob_ctor4, Reshape4 in H.
    apply obind_Ok in H as ([[h' b'] ch] & H & [= <- <-]).
    apply (Reshape_keeps_ownership _ _ _ _ _ _ _ H); [apply owns_buffers_initial|simpl; lia].
Qed.

Lemma capacity_bytes_fit (c : Z) :
  0 <= c <= MAX ->
  USE_INDEX_64 = false \/ sizeof <= 2 -> c * sizeof < SIZE_T_MODULUS.
Proof.
  intros Hc Hcase.
  pose proof (sizeof_elem_pos elem_type). pose proof (sizeof_elem_le elem_type).
  unfold SIZE_T_MODULUS. destruct Hcase as [->|Hs].
  - unfold INT_TP_MAX, INT_MAX in Hc. nia.
  - unfold INT_TP_MAX, INT_MAX, LONG_MAX in Hc. destruct USE_INDEX_64; nia.
Qed.

(** X1.  A blob made by either constructor and then reshaped any number
    of times has [count_] equal to the product of its shape, within
    [0 .. capacity_], and owns its buffers: none while the capacity is 0,
    then two distinct live ones created for [capacity_] elements.  Where
    [capacity_ * sizeof(Dtype)] fits [size_t] (always in the 32-bit-index
    build and for one- and two-byte elements) both buffers have room for
    [count_] elements and the mutable host accessors return. *)
Theorem constructed_blob_owns_buffers_for_count h h1 b1 shapes h2 b2 :
  constructed USE_INDEX_64 kMaxBlobAxes elem_type h h1 b1 ->
  Reshape_sequence USE_INDEX_64 kMaxBlobAxes elem_type h1 b1 shapes = Ok (h2, b2) ->
  count_ b2 = product (shape_ b2)
  /\ 0 <= count_ b2 <= capacity_ b2
  /\ capacity_ b2 <= MAX
  /\ owns_buffers_ h2 b2
  /\ (USE_INDEX_64 = false \/ sizeof <= 2 -> capacity_ b2 * sizeof < SIZE_T_MODULUS)
  /\ (0 < capacity_ b2 -> capacity_ b2 * sizeof < SIZE_T_MODULUS ->
      can_hold elem_type h2 (data_ b2) (count_ b2)
      /\ can_hold elem_type h2 (diff_ b2) (count_ b2)
      /\ data_ b2 <> diff_ b2
      /\ is_Ok (mutable_cpu_data h2 b2) /\ is_Ok (mutable_cpu_diff h2 b2)).
Proof.
  intros Hc Hseq. apply constructed_owns in Hc.
  apply (Reshape_sequence_keeps_ownership _ _ _ _ _ Hseq) in Hc
    as (Ho & Hm & Hcnt & Hb).
  split; [done|]. split; [done|]. split; [done|]. split; [done|].
  split; [apply capacity_bytes_fit; lia|].
  intros Hpos Hfit.
  destruct Ho as (_ & _ & _ & Hsome).
  destruct (Hsome Hpos) as (l1 & l2 & c1 & c2 & Hd & Hg & Hne & H1 & H2 & S1 & S2).
  pose proof (sizeof_elem_pos elem_type) as Hs.
  rewrite size_t_mul_small in S1, S2 by nia.
  split; [exists l1, c1; rewrite S1; split; [done|split; [done|nia]]|].
  split; [exists l2, c2; rewrite S2; split; [done|split; [done|nia]]|].
  split; [rewrite Hd, Hg; congruence|].
  unfold mutable_cpu_data, mutable_cpu_diff, call_on. rewrite Hd, Hg. simpl.
  rewrite H1, H2. simpl. split; eexists; reflexivity.
Qed.

End Constructed.

Lemma constructed_blob_owns_buffers_for_count_witness :
  exists h1 b1 h2 b2,
    Blob_ctor false 32 float Example.store0 (None : option unit) [2; 3] 0%nat = Ok (h1, b1)
    /\ Reshape_sequence false 32 float h1 b1 [[4]; [1; 2]] = Ok (h2, b2)
    /\ count_ b2 = product (shape_ b2)
    /\ 0 <= count_ b2 <= capacity_ b2.
Proof.
  destruct (Blob_ctor false 32 float Example.store0 (None : option unit) [2; 3] 0%nat)
    as [[h1 b1]| |] eqn:E1; [|vm_compute in E1; discriminate..].
  destruct (Reshape_sequence false 32 float h1 b1 [[4]; [1; 2]])
    as [[h2 b2]| |] eqn:E2.
  - exists h1, b1, h2, b2. split; [reflexivity|]. split; [exact E2|].
    destruct (constructed_blob_owns_buffers_for_count false 32 float
                Example.store0 h1 b1 [[4]; [1; 2]] h2 b2
                (or_introl (ex_intro _ None (ex_intro _ [2; 3] (ex_intro _ 0%nat E1))))
                E2) as (Hc & Hb & _).
    split; [exact Hc|exact Hb].
  - exfalso. vm_compute in E1. injection E1 as <- <-. vm_compute in E2. discriminate.
  - exfalso. vm_compute in E1. injection E1 as <- <-. vm_compute in E2. discriminate.
Defined.

(** ** A blob constructed with no elements *)

Section NeverAllocated.
Variable USE_INDEX_64 : bool.
Variable CPU_ONLY : bool.
Variable kMaxBlobAxes : nat.
Variable elem_type : ElemType.
Context {Dtype Quantizer External : Type}.
Variable zero minus_one : Dtype.
Variable caffe_axpy : Z -> Dtype -> list Dtype -> list Dtype -> list Dtype.
Variable caffe_cpu_asum : Z -> list Dtype -> Dtype.
Variable caffe_cpu_dot : Z -> list Dtype -> list Dtype -> Dtype.
Variable caffe_scal : Z -> Dtype -> list Dtype -> list Dtype.
Variable device_axpy : Z -> Dtype -> list Dtype -> list Dtype -> list Dtype.
Variable device_asum : Z -> list Dtype -> Dtype.
Variable device_dot : Z -> list Dtype -> list Dtype -> Dtype.
Variable device_scal : Z -> Dtype -> list Dtype -> list Dtype.
Variable Backward_cpu : Quantizer -> Z -> list Dtype -> list External.
Variable Forward_cpu : Quantizer -> Z -> list External -> list Dtype.
Implicit Type h : Heap Dtype.
Implicit Type b : Blob Quantizer.

Lemma constructed_empty h h1 b1 :
  constructed USE_INDEX_64 kMaxBlobAxes elem_type h h1 b1 -> count_ b1 = 0 ->
  h1 = h /\ data_ b1 = None /\ diff_ b1 = None /\ capacity_ b1 = 0.
Proof.
  intros [(q & shape & dev & H)|(q & n & c & hh & w & dev & H)] Hz.
  - unfold Blob_ctor, Reshape1 in H.
    apply obind_Ok in H as ([[h' b'] ch] & H & [= <- <-]).
    apply Reshape_Ok in H as (_ & Hcnt & _ & _ & _ & _ & _ & Hch & Hfalse & _).
    rewrite <- Hcnt, Hz in Hch.
    rewrite bool_decide_eq_false_2 in Hch by (simpl; lia).
    destruct (Hfalse Hch) as (-> & -> & -> & ->). done.
  - unfold Blob_ctor4, Reshape4 in H.
    apply obind_Ok in H as ([[h' b'] ch] & H & [= <- <-]).
    apply Reshape_Ok in H as (_ & Hcnt & _ & _ & _ & _ & _ & Hch & Hfalse & _).
    rewrite <- Hcnt, Hz in Hch.
    rewrite bool_decide_eq_false_2 in Hch by (simpl; lia).
    destruct (Hfalse Hch) as (-> & -> & -> & ->). done.
Qed.

(** X2.  Constructing a blob whose shape has a zero extent allocates
    nothing: the store is untouched and both handles stay null.  On such
    a blob every raw accessor dies on its [CHECK], the reductions of the
    floating-point types return zero and the scalings do nothing, but
    [Update], the quantized host accessors and [set_cpu_data] dereference
    the null handle. *)
Theorem zero_count_construction_allocates_nothing h h1 b1 :
  constructed USE_INDEX_64 kMaxBlobAxes elem_type h h1 b1 ->
  count_ b1 = 0 ->
  h1 = h /\ data_ b1 = None /\ diff_ b1 = None /\ capacity_ b1 = 0
  /\ (forall hx : Heap Dtype,
        cpu_data hx b1 = Fatal CHECK_FAILED /\ gpu_data hx b1 = Fatal CHECK_FAILED
        /\ cpu_diff hx b1 = Fatal CHECK_FAILED /\ gpu_diff hx b1 = Fatal CHECK_FAILED
        /\ mutable_cpu_data hx b1 = Fatal CHECK_FAILED
        /\ mutable_gpu_data hx b1 = Fatal CHECK_FAILED
        /\ mutable_cpu_diff hx b1 = Fatal CHECK_FAILED
        /\ mutable_gpu_diff hx b1 = Fatal CHECK_FAILED)
  /\ (is_floating elem_type = true ->
      forall hx : Heap Dtype,
        asum_data CPU_ONLY elem_type zero caffe_cpu_asum device_asum hx b1 = Ok (hx, zero)
        /\ asum_diff CPU_ONLY elem_type zero caffe_cpu_asum device_asum hx b1 = Ok (hx, zero)
        /\ sumsq_data CPU_ONLY elem_type zero caffe_cpu_dot device_dot hx b1 = Ok (hx, zero)
        /\ sumsq_diff CPU_ONLY elem_type zero caffe_cpu_dot device_dot hx b1 = Ok (hx, zero)
        /\ (forall f,
              scale_data CPU_ONLY elem_type zero caffe_scal device_scal hx b1 f = Ok hx
              /\ scale_diff CPU_ONLY elem_type zero caffe_scal device_scal hx b1 f = Ok hx)
        /\ Update CPU_ONLY elem_type zero minus_one caffe_axpy device_axpy hx b1
           = Undefined)
  /\ (forall hx : Heap Dtype,
        cpu_data_out elem_type zero Backward_cpu hx b1 = Undefined
        /\ cpu_diff_out elem_type zero Backward_cpu hx b1 = Undefined
        /\ (forall input,
              set_cpu_data_in elem_type zero Forward_cpu hx b1 input = Undefined
              /\ set_cpu_diff_in elem_type zero Forward_cpu hx b1 input = Undefined)
        /\ (forall ext, set_cpu_data elem_type hx b1 (Some ext) = Undefined)
        /\ (forall ext, set_gpu_data elem_type hx b1 ext = Undefined)).
Proof.
  intros Hc Hz. destruct (constructed_empty _ _ _ Hc Hz) as (Hh & Hd & Hg & Hcap).
  do 4 (split; [done|]).
  split; [|split].
  - intros hx. unfold cpu_data, gpu_data, cpu_diff, gpu_diff, mutable_cpu_data,
      mutable_gpu_data, mutable_cpu_diff, mutable_gpu_diff.
    rewrite Hd, Hg. repeat split.
  - intros Hf hx.
    assert (Hi : is_integer elem_type = false) by (by destruct elem_type).
    unfold asum_data, asum_diff, sumsq_data, sumsq_diff, scale_data, scale_diff, Update.
    rewrite Hi, Hd, Hg. repeat split.
  - intros hx.
    unfold cpu_data_out, cpu_diff_out, set_cpu_data_in, set_cpu_diff_in,
      set_cpu_data, set_gpu_data, size_of.
    rewrite Hd, Hg. repeat split.
Qed.

End NeverAllocated.

Lemma zero_count_construction_allocates_nothing_witness :
  exists h1 b1,
    Blob_ctor false 32 float Example.store1 (Some tt) [2; 0; 3] 0%nat = Ok (h1, b1)
    /\ h1 = Example.store1 /\ data_ b1 = None
    /\ Update false float 0 (-1) Example.axpy Example.axpy Example.store1 b1 = Undefined.
Proof.
  destruct (Blob_ctor false 32 float Example.store1 (Some tt) [2; 0; 3] 0%nat)
    as [[h1 b1]| |] eqn:E1; [|vm_compute in E1; discriminate..].
  exists h1, b1. split; [reflexivity|].
  assert (Hz : count_ b1 = 0) by (vm_compute in E1; by injection E1 as <- <-).
  destruct (zero_count_construction_allocates_nothing false false 32 float 0 (-1)
              Example.axpy Example.asum Example.dot Example.scal
              Example.axpy Example.asum Example.dot Example.scal
              Example.expand (fun (_ : unit) (_ : Z) (xs : list Z) => xs)
              Example.store1 h1 b1
              (or_introl (ex_intro _ (Some tt) (ex_intro _ [2; 0; 3] (ex_intro _ 0%nat E1))))
              Hz) as (Hh & Hd & _ & _ & _ & Hfl & _).
  split; [exact Hh|]. split; [exact Hd|].
  exact (proj2 (proj2 (proj2 (proj2 (proj2 (Hfl eq_refl Example.store1)))))).
Defined.

(** ** The stride vector *)

Section StrideFacts.
Variable USE_INDEX_64 : bool.
Variable kMaxBlobAxes : nat.
Context {Float Double Quantizer : Type}.
Variable float_zero : Float.
Variable double_zero : Double.
Implicit Type b : Blob Quantizer.
Implicit Type proto : BlobProto Float Double.

Lemma ToProto_shape_loop_short b (n : nat) : forall i proto,
  (i + n <= length (shape_ b))%nat ->
  (i <= length (shape_stride_ b) < i + n)%nat ->
  ToProto_shape_loop b i n proto = Undefined.
Proof.
  induction n as [|n IH]; intros i proto Hs Hlt; [lia|].
  cbn [ToProto_shape_loop]. unfold vector_get.
  destruct (shape_ b !! i) as [d|] eqn:Ed;
    [|apply lookup_ge_None in Ed; lia].
  destruct (shape_stride_ b !! i) as [s|] eqn:Es.
  - apply lookup_lt_Some in Es. cbn. apply IH; lia.
  - reflexivity.
Qed.

Lemma Reshape_sequence_keeps_stride (elem_type : ElemType) {Dtype : Type}
    (shapes : list (list Z)) : forall (h : Heap Dtype) b h' b',
  Reshape_sequence USE_INDEX_64 kMaxBlobAxes elem_type h b shapes = Ok (h', b') ->
  shape_stride_ b' = shape_stride_ b.
Proof.
  induction shapes as [|shp rest IH]; intros h b h' b' H.
  - by injection H as <- <-.
  - cbn [Reshape_sequence] in H.
    apply obind_Ok in H as ([[h1 b1] ch] & H1 & H).
    apply IH in H. unfold Reshape1 in H1.
    apply Reshape_Ok in H1 as (_ & _ & _ & _ & Hst & _). congruence.
Qed.

Lemma constructed_stride (elem_type : ElemType) {Dtype : Type}
    (h h1 : Heap Dtype) b1 :
  constructed USE_INDEX_64 kMaxBlobAxes elem_type h h1 b1 -> shape_stride_ b1 = [].
Proof.
  intros [(q & shape & dev & H)|(q & n & c & hh & w & dev & H)].
  - unfold Blob_ctor, Reshape1 in H.
    apply obind_Ok in H as ([[h' b'] ch] & H & [= <- <-]).
    by apply Reshape_Ok in H as (_ & _ & _ & _ & -> & _).
  - unfold Blob_ctor4, Reshape4 in H.
    apply obind_Ok in H as ([[h' b'] ch] & H & [= <- <-]).
    by apply Reshape_Ok in H as (_ & _ & _ & _ & -> & _).
Qed.

(** X3.  [Reshape] drops its stride argument: its outcome does not
    depend on it and [shape_stride_] is left as it was, so a blob made by
    a constructor and reshaped any number of times has an empty stride
    vector.  [ToProto] reads [shape_stride_[i]] for every axis: on a blob
    with fewer stride entries than axes, and so on every constructed blob
    of rank at least one, each [ToProto] is an out-of-range read. *)
Theorem shape_stride_is_never_stored :
  (forall (elem_type : ElemType) (Dtype : Type) (h : Heap Dtype) b
          (shape stride1 stride2 : list Z),
     Reshape USE_INDEX_64 kMaxBlobAxes elem_type h b shape stride1
     = Reshape USE_INDEX_64 kMaxBlobAxes elem_type h b shape stride2)
  /\ (forall (elem_type : ElemType) (Dtype : Type) (h h1 h2 : Heap Dtype) b1 b2 shapes,
     constructed USE_INDEX_64 kMaxBlobAxes elem_type h h1 b1 ->
     Reshape_sequence USE_INDEX_64 kMaxBlobAxes elem_type h1 b1 shapes = Ok (h2, b2) ->
     shape_stride_ b2 = [])
  /\ (forall b,
     (length (shape_stride_ b) < length (shape_ b))%nat ->
     (forall (h : Heap Float) proto (write_diff : bool),
        ToProto_float float_zero h b proto write_diff = Undefined)
     /\ (forall (h : Heap Double) proto (write_diff : bool),
        ToProto_double double_zero h b proto write_diff = Undefined)
     /\ (forall (elem_type : ElemType) (Dtype : Type) (zero : Dtype)
                (h : Heap Dtype) proto (write_diff : bool),
        ToProto_generic elem_type zero h b proto write_diff = Undefined))
  /\ (forall (h h1 h2 : Heap Float) b1 b2 shapes proto (write_diff : bool),
     constructed USE_INDEX_64 kMaxBlobAxes float h h1 b1 ->
     Reshape_sequence USE_INDEX_64 kMaxBlobAxes float h1 b1 shapes = Ok (h2, b2) ->
     shape_ b2 <> [] ->
     ToProto_float float_zero h2 b2 proto write_diff = Undefined).
Proof.
  assert (Hshort : forall b,
     (length (shape_stride_ b) < length (shape_ b))%nat ->
     (forall (h : Heap Float) proto (write_diff : bool),
        ToProto_float float_zero h b proto write_diff = Undefined)
     /\ (forall (h : Heap Double) proto (write_diff : bool),
        ToProto_double double_zero h b proto write_diff = Undefined)
     /\ (forall (elem_type : ElemType) (Dtype : Type) (zero : Dtype)
                (h : Heap Dtype) proto (write_diff : bool),
        ToProto_generic elem_type zero h b proto write_diff = Undefined)).
  { intros b Hlt. split; [|split]; intros;
      unfold ToProto_float, ToProto_double, ToProto_generic;
      rewrite ToProto_shape_loop_short by (simpl; lia); reflexivity. }
  split; [reflexivity|]. split; [|split; [exact Hshort|]].
  - intros elem_type Dtype h h1 h2 b1 b2 shapes Hc Hseq.
    apply Reshape_sequence_keeps_stride in Hseq. apply constructed_stride in Hc.
    congruence.
  - intros h h1 h2 b1 b2 shapes proto write_diff Hc Hseq Hne.
    apply Reshape_sequence_keeps_stride in Hseq. apply constructed_stride in Hc.
    apply Hshort. rewrite Hseq, Hc. destruct (shape_ b2); [done|simpl; lia].
Qed.

End StrideFacts.

Lemma shape_stride_is_never_stored_witness :
  exists h1 b1,
    Blob_ctor false 32 float Example.store0 (None : option unit) [2; 3] 0%nat = Ok (h1, b1)
    /\ ToProto_float 0 h1 b1 Example.new_message false = Undefined.
Proof.
  destruct (Blob_ctor false 32 float Example.store0 (None : option unit) [2; 3] 0%nat)
    as [[h1 b1]| |] eqn:E1; [|vm_compute in E1; discriminate..].
  exists h1, b1. split; [reflexivity|].
  refine (proj2 (proj2 (proj2 (shape_stride_is_never_stored false 32 (Double := Z) 0 0)))
            Example.store0 h1 h1 b1 b1 [] Example.new_message false
            (or_introl (ex_intro _ None (ex_intro _ [2; 3] (ex_intro _ 0%nat E1))))
            eq_refl _).
  vm_compute in E1. injection E1 as <- <-. discriminate.
Defined.

(** ** The message [ToProto] writes *)

Section ToProtoMessage.
Context {Float Double Quantizer : Type}.
Variable float_zero : Float.
Variable double_zero : Double.
Implicit Type b : Blob Quantizer.
Implicit Type proto : BlobProto Float Double.

Lemma ToProto_shape_loop_exact b (n : nat) : forall i proto,
  (i + n <= length (shape_ b))%nat ->
  (i + n <= length (shape_stride_ b))%nat ->
  ToProto_shape_loop b i n proto
  = Ok (mkBlobProto (proto_num proto) (proto_channels proto)
          (proto_height proto) (proto_width proto)
          (proto_shape proto ++ take n (drop i (shape_ b)))
          (proto_shape_stride proto ++ take n (drop i (shape_stride_ b)))
          (proto_data_type proto) (proto_data proto) (proto_diff proto)
          (proto_double_data proto) (proto_double_diff proto)).
Proof.
  induction n as [|n IH]; intros i proto Hs Ht.
  - destruct proto. simpl. by rewrite !app_nil_r.
  - destruct (lookup_lt_is_Some_2 (shape_ b) i ltac:(lia)) as [d Hd].
    destruct (lookup_lt_is_Some_2 (shape_stride_ b) i ltac:(lia)) as [t Hst].
    cbn [ToProto_shape_loop]. unfold vector_get. rewrite Hd, Hst.
    cbn [deref mbind Outcome_bind obind].
    rewrite IH by lia. f_equal. cbn.
    rewrite <- !app_assoc. cbn.
    by rewrite (drop_S _ _ _ Hd), (drop_S _ _ _ Hst).
Qed.

(** X4.  What the [float] and [double] specialisations of [ToProto]
    write for a blob whose values (and gradients, when written) are valid
    on the host: the store is untouched; the message gets the blob's
    shape, its data type and the values (gradients) in the payload fields
    of the blob's own precision; the stride entries are appended to those
    the message already had; the legacy fields and the payload fields of
    the other precision are left as they were. *)
Theorem ToProto_message_contents b proto (write_diff : bool) :
  0 <= count_ b ->
  (length (shape_ b) <= length (shape_stride_ b))%nat ->
  (forall h : Heap Float,
     host_resident float h (data_ b) (count_ b) ->
     (write_diff = true -> host_resident float h (diff_ b) (count_ b)) ->
     exists vs gs,
       host_values float_zero h (data_ b) (count_ b) = Some vs
       /\ (if write_diff
           then host_values float_zero h (diff_ b) (count_ b) = Some gs
           else gs = [])
       /\ ToProto_float float_zero h b proto write_diff
          = Ok (h, mkBlobProto (proto_num proto) (proto_channels proto)
                     (proto_height proto) (proto_width proto)
                     (shape_ b)
                     (proto_shape_stride proto
                      ++ take (length (shape_ b)) (shape_stride_ b))
                     (Some float) vs gs
                     (proto_double_data proto) (proto_double_diff proto)))
  /\ (forall h : Heap Double,
     host_resident double h (data_ b) (count_ b) ->
     (write_diff = true -> host_resident double h (diff_ b) (count_ b)) ->
     exists vs gs,
       host_values double_zero h (data_ b) (count_ b) = Some vs
       /\ (if write_diff
           then host_values double_zero h (diff_ b) (count_ b) = Some gs
           else gs = [])
       /\ ToProto_double double_zero h b proto write_diff
          = Ok (h, mkBlobProto (proto_num proto) (proto_channels proto)
                     (proto_height proto) (proto_width proto)
                     (shape_ b)
                     (proto_shape_stride proto
                      ++ take (length (shape_ b)) (shape_stride_ b))
                     (Some double)
                     (proto_data proto) (proto_diff proto) vs gs)).
Proof.
  intros Hcnt Hstride. split; intros h Hdata Hdiff.
  - unfold ToProto_float.
    rewrite ToProto_shape_loop_exact by (simpl; lia).
    cbn [mbind Outcome_bind obind]. rewrite drop_0, drop_0, firstn_all.
    destruct (read_host_resident float (Float:=Float) (Double:=Double)
                float_zero h _ _ Hdata Hcnt)
      as (l & vs & Hp & Hcall & Hvals & Hlen & Hloop).
    unfold cpu_data at 1. rewrite Hp. cbn [non_null CHECK mbind Outcome_bind obind].
    rewrite Hp in Hcall. rewrite Hcall. cbn [mbind Outcome_bind obind].
    rewrite Hloop, foldl_add_data. cbn [mbind Outcome_bind obind].
    destruct write_diff.
    + destruct (read_host_resident float (Float:=Float) (Double:=Double)
                  float_zero h _ _ (Hdiff eq_refl) Hcnt)
        as (g & gs & Hq & Hcallg & Hvalsg & Hleng & Hloopg).
      unfold cpu_diff. rewrite Hq. cbn [non_null CHECK mbind Outcome_bind obind].
      rewrite Hq in Hcallg. rewrite Hcallg. cbn [mbind Outcome_bind obind].
      rewrite Hloopg, foldl_add_diff. cbn [mbind Outcome_bind obind].
      exists vs, gs. rewrite <- Hp, <- Hq. split; [exact Hvals|]. split; [exact Hvalsg|].
      reflexivity.
    + exists vs, []. rewrite <- Hp. split; [exact Hvals|]. split; [done|]. reflexivity.
  - unfold ToProto_double.
    rewrite ToProto_shape_loop_exact by (simpl; lia).
    cbn [mbind Outcome_bind obind]. rewrite drop_0, drop_0, firstn_all.
    destruct (read_host_resident double (Float:=Float) (Double:=Double)
                double_zero h _ _ Hdata Hcnt)
      as (l & vs & Hp & Hcall & Hvals & Hlen & Hloop).
    unfold cpu_data at 1. rewrite Hp. cbn [non_null CHECK mbind Outcome_bind obind].
    rewrite Hp in Hcall. rewrite Hcall. cbn [mbind Outcome_bind obind].
    rewrite Hloop, foldl_add_double_data. cbn [mbind Outcome_bind obind].
    destruct write_diff.
    + destruct (read_host_resident double (Float:=Float) (Double:=Double)
                  double_zero h _ _ (Hdiff eq_refl) Hcnt)
        as (g & gs & Hq & Hcallg & Hvalsg & Hleng & Hloopg).
      unfold cpu_diff. rewrite Hq. cbn [non_null CHECK mbind Outcome_bind obind].
      rewrite Hq in Hcallg. rewrite Hcallg. cbn [mbind Outcome_bind obind].
      rewrite Hloopg, foldl_add_double_diff. cbn [mbind Outcome_bind obind].
      exists vs, gs. rewrite <- Hp, <- Hq. split; [exact Hvals|]. split; [exact Hvalsg|].
      reflexivity.
    + exists vs, []. rewrite <- Hp. split; [exact Hvals|]. split; [done|]. reflexivity.
Qed.

End ToProtoMessage.

Lemma ToProto_message_contents_witness :
  ToProto_float 0 Example.store1 Example.blob1 Example.legacy_message true
  = Ok (Example.store1,
        mkBlobProto (Some 1) (Some 1) (Some 1) (Some 5) [2] [2] (Some float)
                    [3; 4] [1; 2] ([] : list Z) []).
Proof.
  destruct (proj1 (ToProto_message_contents (Double := Z) 0 0
                     Example.blob1 Example.legacy_message true
                     ltac:(simpl; lia) ltac:(simpl; lia))
              Example.store1 host_resident_blob1_data (fun _ => host_resident_blob1_diff))
    as (vs & gs & Hv & Hg & E).
  vm_compute in Hv. injection Hv as <-. vm_compute in Hg. injection Hg as <-.
  exact E.
Defined.

(** ** A message that already carries payload *)

Section StalePayload.
Variable USE_INDEX_64 : bool.
Variable kMaxBlobAxes : nat.
Context {Float Double Quantizer : Type}.
Variable float_zero : Float.
Variable double_to_float : Double -> Float.
Implicit Type b : Blob Quantizer.

Hypothesis kMaxBlobAxes_fits : Z.of_nat kMaxBlobAxes * 8 < SIZE_T_MODULUS.

(** X5.  [Blob<float>::ToProto] clears [data] and [diff] only, and
    [FromProto] prefers [double_data].  Take a blob that [ToProto] can
    serialise (valid on the host, a stride entry for every axis, extents
    that are [int_tp] values), a receiving blob of the same shape and
    count with room for it (and, with [reshape], the capacity for it),
    and a message without legacy fields and without double diff content
    that already holds double values.  Then, for either [write_diff] and
    either [reshape], reading the written message back does not give
    the serialised values: with as many stale doubles as the blob has
    elements the receiving blob ends up with the stale doubles
    (narrowed), with any other number [FromProto] dies on its count
    check. *)
Theorem stale_double_payload_is_read_back (h : Heap Float) b1 b2
    (p0 : BlobProto Float Double) (write_diff reshape : bool) :
  serialisable USE_INDEX_64 float h b1 write_diff ->
  receiving float h b1 b2 write_diff ->
  (reshape = true -> reshape_keeps USE_INDEX_64 kMaxBlobAxes b1 b2) ->
  uses_legacy_fields p0 = false ->
  proto_double_diff p0 = [] ->
  proto_double_data p0 <> [] ->
  exists p,
    ToProto_float float_zero h b1 p0 write_diff = Ok (h, p)
    /\ (Z.of_nat (length (proto_double_data p0)) = count_ b1 ->
        exists h' b2',
          FromProto_float USE_INDEX_64 kMaxBlobAxes double_to_float h b2 p reshape
          = Ok (h', b2')
          /\ data_ b2' = data_ b2 /\ count_ b2' = count_ b2
          /\ host_values float_zero h' (data_ b2') (count_ b2')
             = Some (double_to_float <$> proto_double_data p0))
    /\ (Z.of_nat (length (proto_double_data p0)) <> count_ b1 ->
        FromProto_float USE_INDEX_64 kMaxBlobAxes double_to_float h b2 p reshape
        = Fatal CHECK_FAILED).
Proof.
  intros (Hdata & Hdiff & Hcnt & Hstride & Hrange) Hrecv Hkeep Hleg Hdg0 Hdd0.
  pose proof Hrecv as (Hs2 & Hc2 & Hroom & Hgroom).
  destruct (ToProto_float_Ok float_zero h b1 p0 write_diff Hdata Hdiff Hcnt Hstride)
    as (p & Hto & Hvals & Hlen & Hgs & Hshape & Hn & Hc & Hh & Hw & Hdd & Hdg).
  exists p. split; [exact Hto|].
  destruct (FromProto_shape_matching USE_INDEX_64 kMaxBlobAxes kMaxBlobAxes_fits
              float h b1 b2 p0 p reshape
              Hleg Hn Hc Hh Hw Hshape Hrange Hs2 Hc2 Hkeep)
    as (b2' & Hstage & Hd' & Hg' & Hc' & Hs').
  assert (Hpos : (0 <? Proto.double_data_size p) = true).
  { unfold Proto.double_data_size. rewrite Hdd. apply Z.ltb_lt.
    destruct (proto_double_data p0); [done|simpl; lia]. }
  assert (Hpay : data_payload (fun x : Float => x) double_to_float p
                 = double_to_float <$> proto_double_data p0).
  { unfold data_payload. by rewrite Hpos, Hdd. }
  assert (Hroom' : can_hold float h (data_ b2') (count_ b2'))
    by (by rewrite Hd', Hc').
  split.
  - intros Heq.
    destruct (FromProto_into_matching USE_INDEX_64 kMaxBlobAxes float float_zero
                (fun x : Float => x) double_to_float h b2 reshape h b2' p
                Hstage Hroom')
      as (h' & Hfrom & Hv & _).
    + rewrite Hpay, length_fmap. lia.
    + intros dp Hdp. unfold diff_payload, Proto.double_diff_size, Proto.diff_size in Hdp.
      rewrite Hdg, Hdg0 in Hdp. cbn [length Z.of_nat Z.ltb Z.compare] in Hdp.
      destruct write_diff.
      * destruct Hgs as [_ Hlg]. destruct (Hgroom eq_refl) as [Hgr Hne].
        destruct (0 <? Z.of_nat (length (proto_diff p))); [|discriminate].
        injection Hdp as <-. rewrite length_fmap, Hlg, Hd', Hg', Hc'.
        split; [exact Hgr|]. split; [lia|exact Hne].
      * rewrite Hgs in Hdp. discriminate.
    + exists h', b2'. split; [exact Hfrom|]. split; [done|]. split; [done|].
      by rewrite Hv, Hpay.
  - intros Hne. unfold FromProto_float, FromProto. rewrite Hstage.
    cbn [mbind Outcome_bind obind].
    rewrite (FromProto_data_mismatch float (fun x : Float => x) double_to_float);
      [done| |rewrite Hpay, length_fmap; lia].
    destruct Hroom' as (l & c & Hl & Hcell & _).
    unfold mutable_cpu_data, call_on. rewrite Hl. simpl. rewrite Hcell. simpl.
    by eexists.
Qed.

End StalePayload.

Lemma stale_double_payload_is_read_back_witness :
  exists p h' b2',
    ToProto_float 0 Example.store2 Example.blob1 Sample.stale_message true
    = Ok (Example.store2, p)
    /\ FromProto_float false 32 (fun x : Z => x) Example.store2 Example.blob2 p true
       = Ok (h', b2')
    /\ host_values 0 Example.store2 (data_ Example.blob1) (count_ Example.blob1)
       = Some [3; 4]
    /\ host_values 0 h' (data_ b2') (count_ b2') = Some [70; 80].
Proof.
  destruct (stale_double_payload_is_read_back false 32 0 (fun x : Z => x)
              rank_bound_32_fits
              Example.store2 Example.blob1 Example.blob2 Sample.stale_message true true
              (serialisable_store2 true) (receiving_store2 true)
              (fun _ => reshape_keeps_store2) eq_refl eq_refl
              ltac:(discriminate))
    as (p & Hto & Hsame & _).
  destruct (Hsame eq_refl) as (h' & b2' & Hfrom & _ & _ & Hv).
  exists p, h', b2'. split; [exact Hto|]. split; [exact Hfrom|].
  split; [reflexivity|exact Hv].
Defined.

(** ** Reading and overwriting the first elements of a buffer *)

Lemma lookup_write_mem {A : Type} (vs : list A) : forall (i : nat) (mem : gmap nat A) (j : nat),
  SyncedMemory.write_mem i vs mem !! j
  = if bool_decide (i <= j < i + length vs)%nat then vs !! (j - i)%nat else mem !! j.
Proof.
  induction vs as [|v vs IH]; intros i mem j; cbn [SyncedMemory.write_mem length].
  - rewrite bool_decide_eq_false_2 by lia. done.
  - rewrite IH. destruct (decide (j = i)) as [->|Hne].
    + rewrite bool_decide_eq_false_2 by lia. rewrite bool_decide_eq_true_2 by lia.
      rewrite lookup_insert_eq. by rewrite Nat.sub_diag.
    + rewrite lookup_insert_ne by done.
      destruct (decide (i < j < S i + length vs)%nat) as [Hin|Hout].
      * rewrite !bool_decide_eq_true_2 by lia.
        replace (j - i)%nat with (S (j - S i)) by lia. done.
      * rewrite !bool_decide_eq_false_2 by lia. done.
Qed.

Lemma read_mem_write_mem {A : Type} (zero : A) (vs : list A) (mem : gmap nat A) :
  SyncedMemory.read_mem zero (SyncedMemory.write_mem 0 vs mem) (length vs) = vs.
Proof.
  apply list_eq. intros j. destruct (decide (j < length vs)%nat) as [Hlt|Hge].
  - rewrite lookup_read_mem by done. rewrite lookup_write_mem.
    rewrite bool_decide_eq_true_2 by lia. rewrite Nat.sub_0_r.
    destruct (lookup_lt_is_Some_2 vs j Hlt) as [v Hv]. by rewrite Hv.
  - rewrite (lookup_ge_None_2 vs) by lia.
    apply lookup_ge_None_2. rewrite length_read_mem. lia.
Qed.

Section BufferFacts.
Variable elem_type : ElemType.
Context {Dtype : Type}.
Variable zero : Dtype.
Implicit Type h : Heap Dtype.

Local Abbreviation sizeof := (sizeof_elem elem_type).

Lemma read_cpu_Ok h (l : nat) (c : Cell Dtype) (n : Z) :
  cells h !! l = Some c -> 0 <= n -> n * sizeof <= SyncedMemory.size (obj c) ->
  read_cpu elem_type zero h l n
  = Ok (SyncedMemory.read_mem zero (SyncedMemory.cpu_mem (obj c)) (Z.to_nat n)).
Proof.
  intros Hc Hn Hsz. unfold read_cpu. rewrite Hc. cbn [deref mbind Outcome_bind obind].
  unfold SyncedMemory.span_ok, sizeof_Dtype. rewrite Z2Nat.id by done.
  unfold SyncedMemory.size in Hsz.
  by destruct (Z.leb_spec (n * sizeof) (SyncedMemory.size_ (obj c))); [|lia].
Qed.

Lemma read_gpu_Ok h (l : nat) (c : Cell Dtype) (n : Z) :
  cells h !! l = Some c -> 0 <= n -> n * sizeof <= SyncedMemory.size (obj c) ->
  read_gpu elem_type zero h l n
  = Ok (SyncedMemory.read_mem zero (SyncedMemory.gpu_mem (obj c)) (Z.to_nat n)).
Proof.
  intros Hc Hn Hsz. unfold read_gpu. rewrite Hc. cbn [deref mbind Outcome_bind obind].
  unfold SyncedMemory.span_ok, sizeof_Dtype. rewrite Z2Nat.id by done.
  unfold SyncedMemory.size in Hsz.
  by destruct (Z.leb_spec (n * sizeof) (SyncedMemory.size_ (obj c))); [|lia].
Qed.

Lemma write_cpu_Ok h (l : nat) (c : Cell Dtype) (vs : list Dtype) :
  cells h !! l = Some c ->
  Z.of_nat (length vs) * sizeof <= SyncedMemory.size (obj c) ->
  write_cpu elem_type h l vs
  = Ok (update_obj h l
          (SyncedMemory.set_cpu_mem
             (SyncedMemory.write_mem 0 vs (SyncedMemory.cpu_mem (obj c))) (obj c))).
Proof.
  intros Hc Hsz. unfold write_cpu. rewrite Hc. cbn [deref mbind Outcome_bind obind].
  unfold SyncedMemory.span_ok, sizeof_Dtype. unfold SyncedMemory.size in Hsz.
  by destruct (Z.leb_spec (Z.of_nat (length vs) * sizeof)
                 (SyncedMemory.size_ (obj c))); [|lia].
Qed.

(** The host values behind [p] after the object there was replaced. *)
Lemma host_values_update_obj h (l : nat) (c : Cell Dtype)
    (m : SyncedMemory.t Dtype) (n : Z) :
  cells h !! l = Some c ->
  host_values zero (update_obj h l m) (Some l) n
  = Some (SyncedMemory.read_mem zero (SyncedMemory.cpu_mem m) (Z.to_nat n)).
Proof.
  intros Hc. unfold host_values. cbn [mbind option_bind].
  by rewrite (lookup_update_obj_eq _ _ _ _ Hc).
Qed.

Lemma host_values_Some h (l : nat) (c : Cell Dtype) (n : Z) :
  cells h !! l = Some c ->
  host_values zero h (Some l) n
  = Some (SyncedMemory.read_mem zero (SyncedMemory.cpu_mem (obj c)) (Z.to_nat n)).
Proof. intros Hc. unfold host_values. cbn [mbind option_bind]. by rewrite Hc. Qed.

End BufferFacts.

(** ** The generic [ToProto] *)

Section GenericToProto.
Variable USE_INDEX_64 : bool.
Variable kMaxBlobAxes : nat.
Variable elem_type : ElemType.
Context {Dtype Quantizer Float Double : Type}.
Variable zero : Dtype.
Variable of_float : Float -> Dtype.
Variable of_double : Double -> Dtype.
Implicit Type h : Heap Dtype.
Implicit Type b : Blob Quantizer.
Implicit Type proto : BlobProto Float Double.

Local Abbreviation FromProto_ :=
  (FromProto USE_INDEX_64 kMaxBlobAxes elem_type of_float of_double).

Lemma FromProto_needs_payload h b proto (reshape : bool) h' b' :
  FromProto_ h b proto reshape = Ok (h', b') ->
  count_ b' = Z.of_nat (length (data_payload of_float of_double proto))
  /\ (if reshape
      then count_ b' = product (proto_target_shape USE_INDEX_64 proto)
      else b' = b).
Proof.
  intros H. apply FromProto_Ok in H as (h1 & h2 & Hs & Hd & _).
  apply FromProto_data_Ok with (zero := zero) in Hd as (Hcnt & _).
  split; [exact Hcnt|].
  unfold FromProto_shape in Hs. destruct reshape.
  - apply obind_Ok in Hs as ([[hx bx] ch] & Hr & [= _ <-]).
    unfold Reshape1 in Hr. by apply Reshape_Ok in Hr as (_ & -> & _).
  - by apply obind_Ok in Hs as (u & _ & [= _ <-]).
Qed.

(** X6.  The generic [ToProto], taken by the half-precision and integer
    blobs, for a blob that is valid on the host and whose
    [shape_stride_] has an entry for every axis (without which the call
    is an out-of-range read): the store is untouched, the packed bytes
    are those of the values, or of the gradients alone when [write_diff]
    is set (the second [set_packed_data] replaces the first); the
    message gets shape and data type, loses its double payload and keeps
    its float payload.  [FromProto] never reads packed bytes: when the
    message handed in had no float payload, the written message cannot
    be read back, without [reshape] into any blob of non-zero count,
    with [reshape] (for a message without legacy fields and extents that
    are [int_tp] values) whenever the shape has a non-zero product. *)
Theorem generic_ToProto_is_not_read_back h b proto (write_diff : bool) :
  host_resident elem_type h (data_ b) (count_ b) ->
  (write_diff = true -> host_resident elem_type h (diff_ b) (count_ b)) ->
  0 <= count_ b ->
  (length (shape_ b) <= length (shape_stride_ b))%nat ->
  exists vs gs p,
    host_values zero h (data_ b) (count_ b) = Some vs
    /\ (if write_diff
        then host_values zero h (diff_ b) (count_ b) = Some gs
        else gs = [])
    /\ ToProto_generic elem_type zero h b proto write_diff
       = Ok (h, p, if write_diff then gs else vs)
    /\ p = mkBlobProto (proto_num proto) (proto_channels proto)
             (proto_height proto) (proto_width proto)
             (shape_ b)
             (proto_shape_stride proto ++ take (length (shape_ b)) (shape_stride_ b))
             (Some elem_type) (proto_data proto) (proto_diff proto) [] []
    /\ (proto_data proto = [] ->
        forall h2 b2, count_ b2 <> 0 -> ~ is_Ok (FromProto_ h2 b2 p false))
    /\ (proto_data proto = [] -> uses_legacy_fields proto = false ->
        Forall (int_tp_range USE_INDEX_64) (shape_ b) ->
        product (shape_ b) <> 0 ->
        forall h2 b2, ~ is_Ok (FromProto_ h2 b2 p true)).
Proof.
  intros (l & c & Hp & Hc & Hsz & Hhd) Hdiff Hcnt Hstride.
  set (p := mkBlobProto (proto_num proto) (proto_channels proto)
             (proto_height proto) (proto_width proto)
             (shape_ b)
             (proto_shape_stride proto ++ take (length (shape_ b)) (shape_stride_ b))
             (Some elem_type) (proto_data proto) (proto_diff proto)
             ([] : list Double) []).
  assert (Hpay : proto_data proto = [] -> data_payload of_float of_double p = []).
  { intros E. unfold data_payload, p. simpl. by rewrite E. }
  assert (Hback1 : proto_data proto = [] ->
        forall h2 b2, count_ b2 <> 0 -> ~ is_Ok (FromProto_ h2 b2 p false)).
  { intros E h2 b2 Hne [[h' b'] H].
    apply FromProto_needs_payload in H as (Hz & ->).
    rewrite (Hpay E) in Hz. simpl in Hz. lia. }
  assert (Hback2 : proto_data proto = [] -> uses_legacy_fields proto = false ->
        Forall (int_tp_range USE_INDEX_64) (shape_ b) ->
        product (shape_ b) <> 0 ->
        forall h2 b2, ~ is_Ok (FromProto_ h2 b2 p true)).
  { intros E Hleg Hrange Hprod h2 b2 [[h' b'] H].
    apply FromProto_needs_payload in H as (Hz & Ht).
    rewrite (Hpay E) in Hz. simpl in Hz.
    unfold proto_target_shape in Ht.
    replace (uses_legacy_fields p) with false in Ht by (by rewrite <- Hleg).
    unfold p in Ht. simpl in Ht. rewrite dims_to_int_tp_id in Ht by done. lia. }
  assert (Hread : forall q : option nat,
     host_resident elem_type h q (count_ b) ->
     exists lq xs, q = Some lq
       /\ call_on h q SyncedMemory.cpu_data = Ok (h, lq)
       /\ read_cpu elem_type zero h lq (count_ b) = Ok xs
       /\ host_values zero h q (count_ b) = Some xs).
  { intros q (lq & cq & -> & Hcq & Hszq & Hhdq).
    exists lq, (SyncedMemory.read_mem zero (SyncedMemory.cpu_mem (obj cq))
                  (Z.to_nat (count_ b))).
    split; [done|]. split; [by eapply call_on_cpu_data_resident|].
    split; [by apply read_cpu_Ok|by apply host_values_Some]. }
  destruct (Hread (data_ b)) as (ld & vs & Hd & Hcall & Hrd & Hv).
  { exists l, c. done. }
  unfold ToProto_generic.
  rewrite ToProto_shape_loop_exact by (simpl; lia).
  cbn [mbind Outcome_bind obind]. rewrite drop_0, drop_0, firstn_all.
  unfold cpu_data at 1. rewrite Hd. cbn [non_null CHECK mbind Outcome_bind obind].
  rewrite Hd in Hcall. rewrite Hcall. cbn [mbind Outcome_bind obind].
  rewrite Hrd. cbn [mbind Outcome_bind obind].
  destruct write_diff.
  - destruct (Hread (diff_ b) (Hdiff eq_refl)) as (lg & gs & Hg & Hcallg & Hrg & Hvg).
    unfold cpu_diff. rewrite Hg. cbn [non_null CHECK mbind Outcome_bind obind].
    rewrite Hg in Hcallg. rewrite Hcallg. cbn [mbind Outcome_bind obind].
    rewrite Hrg. cbn [mbind Outcome_bind obind].
    exists vs, gs, p. rewrite <- Hd, <- Hg. done.
  - exists vs, [], p. rewrite <- Hd. done.
Qed.

End GenericToProto.

Lemma generic_ToProto_is_not_read_back_witness :
  exists p,
    ToProto_generic int32_t 0 Example.store2 Example.blob1 Example.new_message true
    = Ok (Example.store2, p, [1; 2])
    /\ ~ is_Ok (FromProto false 32 int32_t (fun x : Z => x) (fun x : Z => x)
                  Example.store2 Example.blob2 p false)
    /\ ~ is_Ok (FromProto false 32 int32_t (fun x : Z => x) (fun x : Z => x)
                  Example.store2 Example.blob2 p true).
Proof.
  assert (Hd : host_resident int32_t Example.store2
                 (data_ Example.blob1) (count_ Example.blob1)).
  { exists 0%nat, (mkCell (Example.host_buffer [3; 4]) 1).
    split; [reflexivity|]. split; [reflexivity|]. split; [simpl; lia|by left]. }
  assert (Hg : host_resident int32_t Example.store2
                 (diff_ Example.blob1) (count_ Example.blob1)).
  { exists 1%nat, (mkCell (Example.host_buffer [1; 2]) 1).
    split; [reflexivity|]. split; [reflexivity|]. split; [simpl; lia|by left]. }
  destruct (generic_ToProto_is_not_read_back false 32 int32_t 0
              (fun x : Z => x) (fun x : Z => x)
              Example.store2 Example.blob1 Example.new_message true
              Hd (fun _ => Hg) ltac:(simpl; lia) ltac:(simpl; lia))
    as (vs & gs & p & _ & Hgs & E & _ & Hback & Hback').
  vm_compute in Hgs. injection Hgs as <-.
  exists p. split; [exact E|]. split.
  - apply (Hback eq_refl). simpl. lia.
  - apply (Hback' eq_refl eq_refl); [|simpl; lia].
    repeat constructor; unfold int_tp_bits; simpl; lia.
Defined.

(** ** [set_cpu_data] on a raw pointer *)

Section SetPointer.
Variable USE_INDEX_64 : bool.
Variable kMaxBlobAxes : nat.
Variable elem_type : ElemType.
Context {Dtype Quantizer : Type}.
Variable zero : Dtype.
Implicit Type h : Heap Dtype.
Implicit Type b : Blob Quantizer.

Local Abbreviation MAX := (INT_TP_MAX USE_INDEX_64).
Local Abbreviation sizeof := (sizeof_elem elem_type).
Local Abbreviation Reshape_ := (Reshape USE_INDEX_64 kMaxBlobAxes elem_type).
Local Abbreviation set_cpu_data_ := (set_cpu_data elem_type).

Lemma set_cpu_data_same_size h b (ext : gmap nat Dtype) (l : nat) (c : Cell Dtype) :
  data_ b = Some l -> cells h !! l = Some c ->
  SyncedMemory.size (obj c) = size_t_mul (count_ b) sizeof ->
  set_cpu_data_ h b (Some ext)
  = Ok (update_obj h l (SyncedMemory_set_cpu_data ext (obj c)), b).
Proof.
  intros Hd Hc Hsz. unfold set_cpu_data, size_of, call_on.
  rewrite Hd. cbn [non_null CHECK deref mbind Outcome_bind obind].
  rewrite Hc. cbn [deref mbind Outcome_bind obind].
  unfold sizeof_Dtype. rewrite Hsz, Z.eqb_refl. cbn [negb].
  rewrite Hd. cbn [deref mbind Outcome_bind obind].
  rewrite Hc. reflexivity.
Qed.

Lemma reset_buffers_eq h b (size : Z) :
  reset_buffers h b size
  = (release (alloc (release (alloc h (SyncedMemory.new size (device_ b))).1 (data_ b))
                    (SyncedMemory.new size (device_ b))).1 (diff_ b),
     set_diff_ (Some (S (next_loc h))) (set_data_ (Some (next_loc h)) b)).
Proof.
  unfold reset_buffers. cbn [alloc set_data_ set_diff_ data_ diff_ device_ fst].
  by rewrite next_loc_release.
Qed.

Lemma set_cpu_data_other_size h b (ext : gmap nat Dtype) (l : nat) (c : Cell Dtype) :
  data_ b = Some l -> cells h !! l = Some c ->
  SyncedMemory.size (obj c) <> size_t_mul (count_ b) sizeof ->
  handles_allocated h b ->
  let m := SyncedMemory.new (size_t_mul (count_ b) sizeof) (device_ b) in
  let h1 := release (alloc (release (alloc h m).1 (data_ b)) m).1 (diff_ b) in
  set_cpu_data_ h b (Some ext)
  = Ok (update_obj h1 (next_loc h) (SyncedMemory_set_cpu_data ext m),
        set_diff_ (Some (S (next_loc h))) (set_data_ (Some (next_loc h)) b))
  /\ cells (update_obj h1 (next_loc h) (SyncedMemory_set_cpu_data ext m)) !! next_loc h
     = Some (mkCell (SyncedMemory_set_cpu_data ext m) 1)
  /\ cells (update_obj h1 (next_loc h) (SyncedMemory_set_cpu_data ext m)) !! S (next_loc h)
     = Some (mkCell m 1).
Proof.
  intros Hd Hc Hsz Hal m h1.
  destruct (realloc_store h b (size_t_mul (count_ b) sizeof) (device_ b) Hal)
    as (Hn & H1 & H2).
  cbv zeta in Hn, H1, H2. fold m in Hn, H1, H2. fold h1 in Hn, H1, H2.
  split; [|split].
  - unfold set_cpu_data, size_of.
    rewrite Hd. cbn [non_null CHECK deref mbind Outcome_bind obind].
    rewrite Hc. cbn [deref mbind Outcome_bind obind].
    unfold sizeof_Dtype.
    destruct (Z.eqb_spec (SyncedMemory.size (obj c)) (size_t_mul (count_ b) sizeof));
      [done|].
    cbn [negb]. rewrite reset_buffers_eq. fold m. fold h1.
    unfold call_on. cbn [set_data_ set_diff_ data_ deref mbind Outcome_bind obind].
    rewrite H1. reflexivity.
  - by rewrite (lookup_update_obj_eq _ _ _ _ H1).
  - rewrite lookup_update_obj_ne by lia. exact H2.
Qed.

(** Either way the values buffer ends up created for [count_] elements,
    valid on the host, holding the caller's storage; the blob keeps
    shape, count and capacity. *)
Lemma set_cpu_data_total h b (ext : gmap nat Dtype) (l : nat) (c : Cell Dtype) :
  data_ b = Some l -> cells h !! l = Some c ->
  handles_allocated h b ->
  exists h' b' l' c',
    set_cpu_data_ h b (Some ext) = Ok (h', b')
    /\ capacity_ b' = capacity_ b /\ count_ b' = count_ b /\ shape_ b' = shape_ b
    /\ data_ b' = Some l' /\ cells h' !! l' = Some c'
    /\ SyncedMemory.size (obj c') = size_t_mul (count_ b) sizeof
    /\ SyncedMemory.head (obj c') = HEAD_AT_CPU
    /\ SyncedMemory.cpu_mem (obj c') = ext.
Proof.
  intros Hd Hc Hal.
  destruct (decide (SyncedMemory.size (obj c) = size_t_mul (count_ b) sizeof))
    as [Hsz|Hsz].
  - exists (update_obj h l (SyncedMemory_set_cpu_data ext (obj c))), b, l.
    eexists. split; [by apply set_cpu_data_same_size|].
    do 3 (split; [done|]). split; [done|].
    split; [by apply lookup_update_obj_eq|]. done.
  - destruct (set_cpu_data_other_size h b ext l c Hd Hc Hsz Hal) as (E & H1 & H2).
    do 2 eexists. exists (next_loc h). eexists.
    split; [exact E|]. do 3 (split; [done|]). split; [done|].
    split; [exact H1|]. done.
Qed.

(** X7.  [set_cpu_data(Dtype* data)]: a null pointer dies on the
    [CHECK].  Otherwise, when the values buffer has exactly
    [count_ * sizeof(Dtype)] bytes it adopts the caller's storage in
    place and nothing else changes.  When it has any other size (as after
    a [Reshape] to fewer elements) both buffers are replaced by new ones
    of that size: the values buffer holds the caller's storage, the
    gradients buffer is a never-touched one, so the gradients are gone;
    [capacity_] is not adjusted. *)
Theorem set_cpu_data_replaces_both_buffers h b (ext : gmap nat Dtype)
    (l : nat) (c : Cell Dtype) :
  data_ b = Some l -> cells h !! l = Some c ->
  set_cpu_data_ h b None = Fatal CHECK_FAILED
  /\ (SyncedMemory.size (obj c) = size_t_mul (count_ b) sizeof ->
      set_cpu_data_ h b (Some ext)
      = Ok (update_obj h l (SyncedMemory_set_cpu_data ext (obj c)), b))
  /\ (SyncedMemory.size (obj c) <> size_t_mul (count_ b) sizeof ->
      handles_allocated h b ->
      exists h',
        set_cpu_data_ h b (Some ext)
        = Ok (h', set_diff_ (Some (S (next_loc h))) (set_data_ (Some (next_loc h)) b))
        /\ cells h' !! next_loc h
           = Some (mkCell (SyncedMemory_set_cpu_data ext
                             (SyncedMemory.new (size_t_mul (count_ b) sizeof) (device_ b)))
                          1)
        /\ fresh_buffer h h' (S (next_loc h)) (size_t_mul (count_ b) sizeof) (device_ b)
        /\ forall n, host_values zero h' (Some (S (next_loc h))) n
                     = Some (replicate (Z.to_nat n) zero))
  /\ (handles_allocated h b ->
      forall h' b' n,
        set_cpu_data_ h b (Some ext) = Ok (h', b') ->
        capacity_ b' = capacity_ b /\ count_ b' = count_ b /\ shape_ b' = shape_ b
        /\ buffer_of_size h' (data_ b') (size_t_mul (count_ b) sizeof)
        /\ residency h' (data_ b') HEAD_AT_CPU
        /\ host_values zero h' (data_ b') n
           = Some (SyncedMemory.read_mem zero ext (Z.to_nat n))).
Proof.
  intros Hd Hc. split; [reflexivity|]. split; [by apply set_cpu_data_same_size|].
  split.
  - intros Hsz Hal.
    destruct (set_cpu_data_other_size h b ext l c Hd Hc Hsz Hal) as (E & H1 & H2).
    eexists. split; [exact E|]. split; [exact H1|].
    split; [split; [lia|exact H2]|].
    intros n. rewrite (host_values_Some _ _ _ _ _ H2). f_equal.
    apply list_eq. intros j. cbn [obj SyncedMemory.new SyncedMemory.cpu_mem].
    destruct (decide (j < Z.to_nat n)%nat).
    + rewrite lookup_read_mem by done. rewrite lookup_empty.
      by rewrite lookup_replicate_2.
    + rewrite (lookup_ge_None_2 (replicate _ _)) by (rewrite length_replicate; lia).
      apply lookup_ge_None_2. rewrite length_read_mem. lia.
  - intros Hal h' b' n E.
    destruct (set_cpu_data_total h b ext l c Hd Hc Hal)
      as (h1 & b1 & l1 & c1 & E1 & Hcap & Hcnt & Hshp & Hd1 & Hc1 & Hs1 & Hh1 & Hm1).
    rewrite E1 in E. injection E as <- <-.
    do 3 (split; [done|]). rewrite Hd1.
    split; [by exists l1, c1|]. split; [by exists l1, c1|].
    by rewrite (host_values_Some _ _ _ _ _ Hc1), Hm1.
Qed.

Hypothesis kMaxBlobAxes_fits : Z.of_nat kMaxBlobAxes * 8 < SIZE_T_MODULUS.

(** X8.  [set_cpu_data] leaves the values buffer created for [count_]
    elements but does not lower [capacity_].  A later [Reshape] to more
    elements, still within the capacity, therefore keeps that buffer and
    answers false, and the buffer is too small for the new count. *)
Theorem Reshape_after_set_cpu_data_keeps_small_buffer h b (ext : gmap nat Dtype)
    (l : nat) (c : Cell Dtype) (shape : list Z) :
  data_ b = Some l -> cells h !! l = Some c ->
  handles_allocated h b ->
  valid_shape kMaxBlobAxes MAX shape ->
  0 <= count_ b < product shape ->
  product shape <= capacity_ b ->
  product shape * sizeof < SIZE_T_MODULUS ->
  exists h1 b1 b2,
    set_cpu_data_ h b (Some ext) = Ok (h1, b1)
    /\ Reshape_ h1 b1 shape shape = Ok (h1, b2, false)
    /\ data_ b2 = data_ b1 /\ count_ b2 = product shape
    /\ buffer_of_size h1 (data_ b2) (count_ b * sizeof)
    /\ ~ can_hold elem_type h1 (data_ b2) (count_ b2).
Proof.
  intros Hd Hc Hal Hv Hcnt Hcap Hfit.
  pose proof (sizeof_elem_pos elem_type) as Hs.
  destruct (set_cpu_data_total h b ext l c Hd Hc Hal)
    as (h1 & b1 & l1 & c1 & E1 & Hcap1 & Hcnt1 & Hshp1 & Hd1 & Hc1 & Hs1 & Hh1 & Hm1).
  rewrite size_t_mul_small in Hs1 by nia.
  destruct (Reshape_total USE_INDEX_64 kMaxBlobAxes elem_type kMaxBlobAxes_fits
              h1 b1 shape shape Hv) as (h2 & b2 & changed & Er).
  pose proof Er as Hr.
  apply Reshape_Ok in Hr as (_ & Hcnt2 & _ & _ & _ & _ & _ & Hch & Hsame & _).
  rewrite bool_decide_eq_false_2 in Hch by lia. subst changed.
  destruct (Hsame eq_refl) as (-> & Hd2 & _ & _).
  exists h1, b1, b2. split; [exact E1|]. split; [exact Er|].
  split; [exact Hd2|]. split; [exact Hcnt2|].
  rewrite Hd2, Hd1. split; [by exists l1, c1|].
  intros (l' & c' & [= <-] & Hc' & Hroom).
  rewrite Hc1 in Hc'. injection Hc' as <-. rewrite Hs1, Hcnt2 in Hroom. nia.
Qed.

End SetPointer.

Lemma handles_allocated_shrunk_blob :
  handles_allocated Example.store1 Sample.shrunk_blob.
Proof. intros l [[= <-]|[= <-]]; simpl; lia. Qed.

Lemma valid_shape_2 : valid_shape 32 (INT_TP_MAX false) [2].
Proof.
  unfold valid_shape, INT_TP_MAX, INT_MAX. simpl.
  split; [lia|]. split; [repeat constructor; lia|].
  split; [right; rewrite Z.div_1_r; lia|done].
Qed.

Lemma set_cpu_data_replaces_both_buffers_witness :
  exists h',
    set_cpu_data float Example.store1 Sample.shrunk_blob (Some Sample.caller_storage)
    = Ok (h', set_diff_ (Some 3%nat) (set_data_ (Some 2%nat) Sample.shrunk_blob))
    /\ host_values 0 h' (Some 3%nat) 2 = Some [0; 0].
Proof.
  destruct (proj1 (proj2 (proj2 (set_cpu_data_replaces_both_buffers float 0
                     Example.store1 Sample.shrunk_blob Sample.caller_storage
                     0%nat (mkCell (Example.host_buffer [3; 4]) 1) eq_refl eq_refl)))
              ltac:(vm_compute; discriminate) handles_allocated_shrunk_blob)
    as (h' & E & _ & _ & Hz).
  exists h'. split; [exact E|exact (Hz 2)].
Defined.

Lemma Reshape_after_set_cpu_data_keeps_small_buffer_witness :
  exists h1 b1 b2,
    set_cpu_data float Example.store1 Sample.shrunk_blob (Some Sample.caller_storage)
    = Ok (h1, b1)
    /\ Reshape false 32 float h1 b1 [2] [2] = Ok (h1, b2, false)
    /\ ~ can_hold float h1 (data_ b2) (count_ b2).
Proof.
  destruct (Reshape_after_set_cpu_data_keeps_small_buffer false 32 float
              rank_bound_32_fits Example.store1 Sample.shrunk_blob
              Sample.caller_storage 0%nat (mkCell (Example.host_buffer [3; 4]) 1) [2]
              eq_refl eq_refl handles_allocated_shrunk_blob valid_shape_2
              ltac:(simpl; lia) ltac:(simpl; lia)
              ltac:(unfold SIZE_T_MODULUS; simpl; lia))
    as (h1 & b1 & b2 & E1 & E2 & _ & _ & _ & Hno).
  exists h1, b1, b2. split; [exact E1|]. split; [exact E2|exact Hno].
Defined.

(** ** [CopyFrom] *)

Section CopyFromFacts.
Variable USE_INDEX_64 : bool.
Variable kMaxBlobAxes : nat.
Variable elem_type : ElemType.
Context {Dtype Quantizer : Type}.
Variable zero : Dtype.
Variable caffe_cpu_copy : Z -> list Dtype -> list Dtype.
Variable device_copy : Z -> list Dtype -> list Dtype.
Implicit Type h : Heap Dtype.
Implicit Type b : Blob Quantizer.

Local Abbreviation sizeof := (sizeof_elem elem_type).
Local Abbreviation CopyFrom_ mode :=
  (CopyFrom USE_INDEX_64 kMaxBlobAxes elem_type zero mode caffe_cpu_copy device_copy).

(** The host copy proper: source pointer, destination pointer, the
    helper on the first [n] elements. *)
Lemma host_copy_core h (ps pd : option nat) (n : Z) {R : Type} (r : R) :
  (forall k xs, caffe_cpu_copy k xs = xs) ->
  0 <= n ->
  host_resident elem_type h ps n ->
  can_hold elem_type h pd n ->
  exists h',
    ('(h2, src) ← call_on h ps SyncedMemory.cpu_data;
     '(h3, dst) ← call_on h2 pd SyncedMemory.mutable_cpu_data;
     xs ← read_cpu elem_type zero h3 src n;
     _ ← read_cpu elem_type zero h3 dst n;
     h4 ← write_cpu elem_type h3 dst (caffe_cpu_copy n xs);
     Ok (h4, r)) = Ok (h', r)
    /\ host_values zero h' pd n = host_values zero h ps n
    /\ is_Some (host_values zero h ps n)
    /\ next_loc h' = next_loc h
    /\ (forall l, pd <> Some l -> cells h' !! l = cells h !! l).
Proof.
  intros Hcopy Hn (ls & cs & -> & Hcs & Hszs & Hhd) (ld & cd & -> & Hcd & Hszd).
  rewrite (call_on_cpu_data_resident h ls cs Hcs Hhd).
  cbn [mbind Outcome_bind obind].
  unfold call_on at 1. cbn [deref mbind Outcome_bind obind]. rewrite Hcd.
  cbn [deref mbind Outcome_bind obind].
  set (md := SyncedMemory.mutable_cpu_data (obj cd)).
  set (h3 := update_obj h ld md).
  assert (H3d : cells h3 !! ld = Some (mkCell md (use_count cd)))
    by (by apply lookup_update_obj_eq).
  assert (H3s : exists cs', cells h3 !! ls = Some cs'
                 /\ SyncedMemory.size (obj cs') = SyncedMemory.size (obj cs)
                 /\ SyncedMemory.cpu_mem (obj cs') = SyncedMemory.cpu_mem (obj cs)).
  { destruct (decide (ls = ld)) as [->|Hne].
    - rewrite Hcd in Hcs. injection Hcs as ->. eexists. split; [exact H3d|].
      cbn [obj]. unfold md, SyncedMemory.mutable_cpu_data, SyncedMemory.to_cpu.
      unfold SyncedMemory.head in Hhd. by destruct Hhd as [->| ->].
    - exists cs. split; [|done]. unfold h3. by rewrite lookup_update_obj_ne. }
  destruct H3s as (cs' & H3s & Hss & Hms).
  rewrite (read_cpu_Ok elem_type zero h3 ls cs' n H3s Hn) by (by rewrite Hss).
  cbn [mbind Outcome_bind obind].
  assert (Hmd : SyncedMemory.size md = SyncedMemory.size (obj cd))
    by apply size_mutable_cpu_data.
  rewrite (read_cpu_Ok elem_type zero h3 ld _ n H3d Hn) by (cbn [obj]; by rewrite Hmd).
  cbn [mbind Outcome_bind obind]. rewrite Hcopy.
  rewrite (write_cpu_Ok elem_type h3 ld _ _ H3d).
  2:{ rewrite length_read_mem, Z2Nat.id by done. cbn [obj]. by rewrite Hmd. }
  cbn [mbind Outcome_bind obind obj]. eexists. split; [reflexivity|].
  rewrite (host_values_update_obj zero _ _ _ _ n H3d).
  rewrite (host_values_Some zero h ls cs n Hcs).
  split; [|split; [by eexists|split; [done|]]].
  - f_equal. cbn [SyncedMemory.set_cpu_mem SyncedMemory.cpu_mem].
    rewrite Hms.
    set (xs := SyncedMemory.read_mem zero (SyncedMemory.cpu_mem (obj cs)) (Z.to_nat n)).
    rewrite <- (length_read_mem zero (SyncedMemory.cpu_mem (obj cs)) (Z.to_nat n)) at 1.
    apply read_mem_write_mem.
  - intros l Hl. assert (ld <> l) by congruence.
    rewrite lookup_update_obj_ne by done. unfold h3.
    by rewrite lookup_update_obj_ne.
Qed.

Lemma CopyFrom_Ok mode h b source (copy_diff reshape : bool) h' b' :
  CopyFrom_ mode h b source copy_diff reshape = Ok (h', b') ->
  if negb (count source =? count_ b) || negb (bool_decide (shape source = shape_ b))
  then reshape = true
       /\ exists h1 changed,
            ReshapeLike USE_INDEX_64 kMaxBlobAxes elem_type h b source
            = Ok (h1, b', changed)
  else b' = b.
Proof.
  intros H. unfold CopyFrom in H.
  apply obind_Ok in H as ([h1 b1] & Hstage & H).
  assert (Hb : b' = b1).
  { destruct mode, copy_diff;
      apply obind_Ok in H as ([h2 src] & _ & H);
      apply obind_Ok in H as ([h3 dst] & _ & H);
      apply obind_Ok in H as (xs & _ & H);
      apply obind_Ok in H as (ys & _ & H);
      apply obind_Ok in H as (h4 & _ & H);
      by injection H as _ <-. }
  subst b1.
  destruct (negb (count source =? count_ b)
            || negb (bool_decide (shape source = shape_ b))).
  - destruct reshape; [|discriminate]. split; [done|].
    apply obind_Ok in Hstage as ([[hx bx] ch] & Hr & [= <- <-]). by exists hx, ch.
  - by injection Hstage as _ <-.
Qed.

(** X9.  [CopyFrom]: when count or shape differ and [reshape] is off it
    dies on [LOG(FATAL)], in either mode and before touching anything.  A
    returning call leaves the blob with the source's shape (and count,
    for a source whose count is the product of its shape).  In CPU mode,
    with matching blobs and the source valid on the host, the call
    returns and the first [count_] elements of the copied side (gradients
    when [copy_diff], else values) equal the source's, given that the
    copy helper copies; no other object of the store is changed, so the
    side not asked for is untouched. *)
Theorem CopyFrom_copies_one_side h b source (copy_diff : bool) :
  (forall mode,
     count source <> count_ b \/ shape source <> shape_ b ->
     CopyFrom_ mode h b source copy_diff false = Fatal LOG_FATAL)
  /\ (forall mode (reshape : bool) h' b',
     CopyFrom_ mode h b source copy_diff reshape = Ok (h', b') ->
     shape_ b' = shape_ source
     /\ (count_ source = product (shape_ source) -> count_ b' = count_ source))
  /\ (forall reshape : bool,
     (forall k xs, caffe_cpu_copy k xs = xs) ->
     count source = count_ b -> shape source = shape_ b ->
     0 <= count_ b ->
     host_resident elem_type h (copied_side copy_diff source) (count_ b) ->
     can_hold elem_type h (copied_side copy_diff b) (count_ b) ->
     exists h',
       CopyFrom_ CPU h b source copy_diff reshape = Ok (h', b)
       /\ host_values zero h' (copied_side copy_diff b) (count_ b)
          = host_values zero h (copied_side copy_diff source) (count_ b)
       /\ is_Some (host_values zero h (copied_side copy_diff source) (count_ b))
       /\ next_loc h' = next_loc h
       /\ (forall l, copied_side copy_diff b <> Some l ->
             cells h' !! l = cells h !! l)).
Proof.
  split; [|split].
  - intros mode Hne. unfold CopyFrom.
    replace (negb (count source =? count_ b)
             || negb (bool_decide (shape source = shape_ b))) with true; [done|].
    symmetry. apply orb_true_iff. destruct Hne as [Hne|Hne].
    + left. apply negb_true_iff. by apply Z.eqb_neq.
    + right. apply negb_true_iff. by apply bool_decide_eq_false.
  - intros mode reshape h' b' H. apply CopyFrom_Ok in H.
    destruct (negb (count source =? count_ b)
              || negb (bool_decide (shape source = shape_ b))) eqn:Hm.
    + destruct H as (_ & h1 & ch & Hr). unfold ReshapeLike, Reshape1 in Hr.
      apply Reshape_Ok in Hr as (_ & Hcnt & _ & Hshp & _).
      unfold shape in *. split; [done|]. intros ->. done.
    + subst b'. apply orb_false_iff in Hm as (Hc & Hs).
      apply negb_false_iff in Hc, Hs. apply Z.eqb_eq in Hc.
      apply bool_decide_eq_true in Hs. unfold shape, count in *.
      split; [done|]. intros _. done.
  - intros reshape Hcopy Hc Hs Hn Hsrc Hdst. unfold CopyFrom.
    replace (negb (count source =? count_ b)
             || negb (bool_decide (shape source = shape_ b))) with false.
    2:{ symmetry. apply orb_false_iff. split; apply negb_false_iff.
        - by apply Z.eqb_eq. - by apply bool_decide_eq_true. }
    cbn [mbind Outcome_bind obind].
    destruct (host_copy_core h _ _ (count_ b) b Hcopy Hn Hsrc Hdst)
      as (h' & E & Hv & Hsome & Hnl & Hframe).
    exists h'. split; [|done].
    destruct Hsrc as (ls & cs & Hls & _).
    destruct copy_diff; cbn [copied_side] in *.
    + unfold cpu_diff. rewrite Hls in *. exact E.
    + unfold cpu_data. rewrite Hls in *. exact E.
Qed.

End CopyFromFacts.

Lemma CopyFrom_copies_one_side_witness :
  exists h',
    CopyFrom false 32 float 0 CPU (fun _ xs => xs) (fun _ xs => xs)
             Example.store2 Example.blob2 Example.blob1 false false
    = Ok (h', Example.blob2)
    /\ host_values 0 h' (data_ Example.blob2) 2 = Some [3; 4].
Proof.
  destruct (proj2 (proj2 (CopyFrom_copies_one_side false 32 float 0
                            (fun _ xs => xs) (fun _ xs => xs)
                            Example.store2 Example.blob2 Example.blob1 false))
              false (fun _ _ => eq_refl) eq_refl eq_refl ltac:(simpl; lia))
    as (h' & E & Hv & _).
  - exists 0%nat, (mkCell (Example.host_buffer [3; 4]) 1).
    split; [reflexivity|]. split; [reflexivity|]. split; [simpl; lia|by left].
  - exists 2%nat, (mkCell (SyncedMemory.new 8 0%nat) 1).
    split; [reflexivity|]. split; [reflexivity|]. simpl. lia.
  - exists h'. split; [exact E|]. exact Hv.
Defined.

(** ** [Clear] *)

Section ClearFacts.
Variable CPU_ONLY : bool.
Variable elem_type : ElemType.
Context {Dtype Quantizer : Type}.
Variable zero : Dtype.
Variable caffe_set : Z -> Dtype -> list Dtype.
Variable device_set : Z -> Dtype -> list Dtype.
Implicit Type h : Heap Dtype.
Implicit Type b : Blob Quantizer.

Local Abbreviation Clear_ mode :=
  (Clear CPU_ONLY elem_type zero mode caffe_set device_set).

(** X10.  [Clear], which has no integer specialisation and so runs for
    every element type: in CPU mode a blob without gradients buffer dies
    on the accessor's [CHECK]; with a gradients buffer that has room for
    [count_] elements the call returns, the first [count_] gradients read
    zero on the host (given that the fill helper fills), the buffer is
    valid on the host only, and no other object of the store changes.
    In GPU mode a [CPU_ONLY] build dies on [NO_GPU] whatever the blob. *)
Theorem Clear_zeroes_the_gradients h b :
  (CPU_ONLY = true -> Clear_ GPU h b = Fatal NO_GPU)
  /\ (diff_ b = None -> Clear_ CPU h b = Fatal CHECK_FAILED)
  /\ ((forall n a, caffe_set n a = replicate (Z.to_nat n) a) ->
      0 <= count_ b ->
      can_hold elem_type h (diff_ b) (count_ b) ->
      exists h',
        Clear_ CPU h b = Ok h'
        /\ host_values zero h' (diff_ b) (count_ b)
           = Some (replicate (Z.to_nat (count_ b)) zero)
        /\ residency h' (diff_ b) HEAD_AT_CPU
        /\ next_loc h' = next_loc h
        /\ (forall l, diff_ b <> Some l -> cells h' !! l = cells h !! l)).
Proof.
  split; [|split].
  - intros ->. reflexivity.
  - intros Hg. unfold Clear, mutable_cpu_diff. by rewrite Hg.
  - intros Hset Hn (l & c & Hg & Hc & Hsz).
    unfold Clear, mutable_cpu_diff, call_on. rewrite Hg.
    cbn [non_null CHECK deref mbind Outcome_bind obind]. rewrite Hc.
    cbn [deref mbind Outcome_bind obind].
    set (m := SyncedMemory.mutable_cpu_data (obj c)).
    set (h1 := update_obj h l m).
    assert (H1 : cells h1 !! l = Some (mkCell m (use_count c)))
      by (by apply lookup_update_obj_eq).
    assert (Hm : SyncedMemory.size m = SyncedMemory.size (obj c))
      by apply size_mutable_cpu_data.
    unfold count.
    rewrite (read_cpu_Ok elem_type zero h1 l _ _ H1 Hn) by (cbn [obj]; by rewrite Hm).
    cbn [mbind Outcome_bind obind]. rewrite Hset.
    rewrite (write_cpu_Ok elem_type h1 l _ _ H1).
    2:{ rewrite length_replicate, Z2Nat.id by done. cbn [obj]. by rewrite Hm. }
    eexists. split; [reflexivity|].
    rewrite (host_values_update_obj zero _ _ _ _ _ H1).
    split; [|split; [|split; [done|]]].
    + f_equal. cbn [SyncedMemory.set_cpu_mem SyncedMemory.cpu_mem obj].
      set (vs := replicate (Z.to_nat (count_ b)) zero).
      rewrite <- (length_replicate (Z.to_nat (count_ b)) zero) at 1.
      apply read_mem_write_mem.
    + exists l. eexists. split; [done|].
      split; [by apply (lookup_update_obj_eq _ _ _ _ H1)|]. reflexivity.
    + intros l' Hl. assert (l <> l') by congruence.
      rewrite lookup_update_obj_ne by done. unfold h1.
      by rewrite lookup_update_obj_ne.
Qed.

End ClearFacts.

Lemma Clear_zeroes_the_gradients_witness :
  exists h',
    Clear false int32_t 0 CPU (fun n a => replicate (Z.to_nat n) a)
          (fun n a => replicate (Z.to_nat n) a) Example.store1 Example.blob1
    = Ok h'
    /\ host_values 0 h' (diff_ Example.blob1) 2 = Some [0; 0]
    /\ host_values 0 h' (data_ Example.blob1) 2 = Some [3; 4].
Proof.
  destruct (proj2 (proj2 (Clear_zeroes_the_gradients false int32_t 0
                            (fun n a => replicate (Z.to_nat n) a)
                            (fun n a => replicate (Z.to_nat n) a)
                            Example.store1 Example.blob1))
              (fun _ _ => eq_refl) ltac:(simpl; lia))
    as (h' & E & Hv & _ & _ & Hframe).
  - exists 1%nat, (mkCell (Example.host_buffer [1; 2]) 1).
    split; [reflexivity|]. split; [reflexivity|]. simpl. lia.
  - exists h'. split; [exact E|]. split; [exact Hv|].
    unfold host_values. simpl. rewrite (Hframe 0%nat) by discriminate. reflexivity.
Defined.

(** ** The quantized host accessors *)

Section QuantizedAccess.
Variable elem_type : ElemType.
Context {Dtype Quantizer External : Type}.
Variable zero : Dtype.
Variable Backward_cpu : Quantizer -> Z -> list Dtype -> list External.
Variable Forward_cpu : Quantizer -> Z -> list External -> list Dtype.
Implicit Type h : Heap Dtype.
Implicit Type b : Blob Quantizer.

Lemma mutable_cpu_data_twice (m : SyncedMemory.t Dtype) :
  SyncedMemory.mutable_cpu_data (SyncedMemory.mutable_cpu_data m)
  = SyncedMemory.mutable_cpu_data m.
Proof.
  by destruct m as [size hd cm gm dev]; destruct hd.
Qed.

Lemma mutable_after_cpu_data (m : SyncedMemory.t Dtype) :
  SyncedMemory.mutable_cpu_data (SyncedMemory.cpu_data m)
  = SyncedMemory.mutable_cpu_data m.
Proof.
  by destruct m as [size hd cm gm dev]; destruct hd.
Qed.

Lemma call_on_live h (l : nat) (c : Cell Dtype)
    (method : SyncedMemory.t Dtype -> SyncedMemory.t Dtype) :
  cells h !! l = Some c ->
  call_on h (Some l) method = Ok (update_obj h l (method (obj c)), l).
Proof. intros Hc. unfold call_on. cbn [deref mbind Outcome_bind obind]. by rewrite Hc. Qed.

Lemma update_obj_twice h (l : nat) (m1 m2 : SyncedMemory.t Dtype) :
  update_obj (update_obj h l m1) l m2 = update_obj h l m2.
Proof.
  unfold update_obj. cbn [cells next_loc]. f_equal.
  apply map_eq. intros j. destruct (decide (j = l)) as [->|Hne].
  - rewrite !lookup_alter_eq. by destruct (cells h !! l).
  - by rewrite !lookup_alter_ne.
Qed.

Lemma quantized_write_core h (p : option nat) (q : Quantizer) (n : Z)
    (input : list External) :
  can_hold elem_type h p n -> 0 <= n ->
  length (Forward_cpu q n input) = Z.to_nat n ->
  exists h',
    ('(h1, _) ← call_on h p SyncedMemory.cpu_data;
     q' ← deref (Some q);
     '(h2, ptr) ← call_on h1 p SyncedMemory.mutable_cpu_data;
     _ ← read_cpu elem_type zero h2 ptr n;
     write_cpu elem_type h2 ptr (Forward_cpu q' n input)) = Ok h'
    /\ host_values zero h' p n = Some (Forward_cpu q n input)
    /\ host_resident elem_type h' p n
    /\ (forall l, p <> Some l -> cells h' !! l = cells h !! l).
Proof.
  intros (l & c & -> & Hc & Hsz) Hn Hlen.
  rewrite (call_on_live h l c _ Hc). cbn [deref mbind Outcome_bind obind].
  rewrite (call_on_live _ l _ _ (lookup_update_obj_eq _ _ _ _ Hc)).
  cbn [deref mbind Outcome_bind obind obj].
  rewrite update_obj_twice, mutable_after_cpu_data.
  set (m := SyncedMemory.mutable_cpu_data (obj c)).
  set (h2 := update_obj h l m).
  assert (H2 : cells h2 !! l = Some (mkCell m (use_count c)))
    by (by apply lookup_update_obj_eq).
  assert (Hm : SyncedMemory.size m = SyncedMemory.size (obj c))
    by apply size_mutable_cpu_data.
  rewrite (read_cpu_Ok elem_type zero h2 l _ _ H2 Hn) by (cbn [obj]; by rewrite Hm).
  cbn [mbind Outcome_bind obind].
  rewrite (write_cpu_Ok elem_type h2 l _ _ H2).
  2:{ rewrite Hlen, Z2Nat.id by done. cbn [obj]. by rewrite Hm. }
  eexists. split; [reflexivity|].
  rewrite (host_values_update_obj zero _ _ _ _ _ H2).
  split; [|split].
  - f_equal. cbn [SyncedMemory.set_cpu_mem SyncedMemory.cpu_mem obj].
    rewrite <- Hlen. apply read_mem_write_mem.
  - exists l. eexists. split; [done|].
    split; [by apply (lookup_update_obj_eq _ _ _ _ H2)|].
    split; [|by left]. cbn [obj].
    change (n * sizeof_elem elem_type <= SyncedMemory.size m). by rewrite Hm.
  - intros l' Hl. assert (l <> l') by congruence.
    rewrite lookup_update_obj_ne by done. unfold h2.
    by rewrite lookup_update_obj_ne.
Qed.

Lemma quantized_read_core h (p : option nat) (q : Quantizer) (n : Z) :
  can_hold elem_type h p n -> 0 <= n ->
  exists h' vs,
    ('(h1, _) ← call_on h p SyncedMemory.mutable_cpu_data;
     q' ← deref (Some q);
     '(h2, ptr) ← call_on h1 p SyncedMemory.mutable_cpu_data;
     xs ← read_cpu elem_type zero h2 ptr n;
     Ok (h2, Backward_cpu q' n xs)) = Ok (h', Backward_cpu q n vs)
    /\ host_values zero h' p n = Some vs
    /\ residency h' p HEAD_AT_CPU
    /\ (host_resident elem_type h p n -> host_values zero h p n = Some vs).
Proof.
  intros (l & c & -> & Hc & Hsz) Hn.
  rewrite (call_on_live h l c _ Hc). cbn [deref mbind Outcome_bind obind].
  rewrite (call_on_live _ l _ _ (lookup_update_obj_eq _ _ _ _ Hc)).
  cbn [deref mbind Outcome_bind obind obj].
  rewrite update_obj_twice, mutable_cpu_data_twice.
  set (m := SyncedMemory.mutable_cpu_data (obj c)).
  set (h2 := update_obj h l m).
  assert (H2 : cells h2 !! l = Some (mkCell m (use_count c)))
    by (by apply lookup_update_obj_eq).
  assert (Hm : SyncedMemory.size m = SyncedMemory.size (obj c))
    by apply size_mutable_cpu_data.
  rewrite (read_cpu_Ok elem_type zero h2 l _ _ H2 Hn) by (cbn [obj]; by rewrite Hm).
  cbn [mbind Outcome_bind obind].
  do 2 eexists. split; [reflexivity|].
  split; [by rewrite (host_values_Some zero _ _ _ _ H2)|].
  split; [exists l; eexists; split; [done|split; [exact H2|reflexivity]]|].
  intros (l' & c' & [= <-] & Hc' & _ & Hhd).
  rewrite Hc in Hc'. injection Hc' as <-.
  rewrite (host_values_Some zero _ _ _ _ Hc). f_equal. cbn [obj].
  unfold m, SyncedMemory.mutable_cpu_data, SyncedMemory.to_cpu.
  unfold SyncedMemory.head in Hhd. by destruct Hhd as [->| ->].
Qed.

(** X11.  The quantized host accessors, for a blob with a quantizer and
    a values buffer with room for [count_] elements.  [cpu_data(out)]
    returns what [Backward_cpu] makes of the first [count_] host values;
    reaching them through the mutable accessor, it leaves the buffer
    valid on the host only, whatever its state was.  After
    [set_cpu_data(in)] a following [cpu_data(out)] writes
    [Backward_cpu] of [Forward_cpu] of the input.  Without a quantizer
    both dereference a null pointer. *)
Theorem quantized_set_then_get h b (q : Quantizer) :
  can_hold elem_type h (data_ b) (count_ b) ->
  0 <= count_ b ->
  (net_quant_ b = Some q ->
     (exists h' vs,
        cpu_data_out elem_type zero Backward_cpu h b
        = Ok (h', Backward_cpu q (count_ b) vs)
        /\ host_values zero h' (data_ b) (count_ b) = Some vs
        /\ residency h' (data_ b) HEAD_AT_CPU
        /\ (host_resident elem_type h (data_ b) (count_ b) ->
            host_values zero h (data_ b) (count_ b) = Some vs))
     /\ (forall input,
           length (Forward_cpu q (count_ b) input) = Z.to_nat (count_ b) ->
           exists h1 h2,
             set_cpu_data_in elem_type zero Forward_cpu h b input = Ok h1
             /\ host_values zero h1 (data_ b) (count_ b)
                = Some (Forward_cpu q (count_ b) input)
             /\ (forall l, data_ b <> Some l -> cells h1 !! l = cells h !! l)
             /\ cpu_data_out elem_type zero Backward_cpu h1 b
                = Ok (h2, Backward_cpu q (count_ b)
                            (Forward_cpu q (count_ b) input))))
  /\ (net_quant_ b = None ->
      cpu_data_out elem_type zero Backward_cpu h b = Undefined
      /\ forall input, set_cpu_data_in elem_type zero Forward_cpu h b input = Undefined).
Proof.
  intros Hroom Hn. split.
  - intros Hq. split.
    + destruct (quantized_read_core h (data_ b) q (count_ b) Hroom Hn)
        as (h' & vs & E & Hv & Hres & Hsame).
      exists h', vs. unfold cpu_data_out, count. rewrite Hq. done.
    + intros input Hlen.
      destruct (quantized_write_core h (data_ b) q (count_ b) input Hroom Hn Hlen)
        as (h1 & E1 & Hv1 & Hres1 & Hframe).
      destruct (quantized_read_core h1 (data_ b) q (count_ b)
                  (host_resident_can_hold _ _ _ _ Hres1) Hn)
        as (h2 & vs & E2 & _ & _ & Hsame).
      specialize (Hsame Hres1). rewrite Hv1 in Hsame. injection Hsame as <-.
      exists h1, h2. unfold set_cpu_data_in, cpu_data_out, count. rewrite Hq. done.
  - intros Hq. destruct Hroom as (l & c & Hl & Hc & _).
    unfold cpu_data_out, set_cpu_data_in, call_on. rewrite Hl, Hq.
    cbn [deref mbind Outcome_bind obind]. rewrite Hc. done.
Qed.

End QuantizedAccess.

Lemma quantized_set_then_get_witness :
  exists h1 h2,
    set_cpu_data_in float 0 (fun (_ : unit) (_ : Z) (xs : list Z) => xs)
                    Example.store1 Example.blob1 [7; 8] = Ok h1
    /\ cpu_data_out float 0 Example.expand h1 Example.blob1 = Ok (h2, [7; 8]).
Proof.
  destruct (proj2 (proj1 (quantized_set_then_get float 0 Example.expand
                     (fun (_ : unit) (_ : Z) (xs : list Z) => xs)
                     Example.store1 Example.blob1 tt
                     (host_resident_can_hold _ _ _ _ host_resident_blob1_data)
                     ltac:(simpl; lia)) eq_refl) [7; 8] eq_refl)
    as (h1 & h2 & E1 & _ & _ & E2).
  exists h1, h2. split; [exact E1|exact E2].
Defined.

(** ** Sharing followed by a reallocating [Reshape] *)

Section ShareThenReshape.
Variable USE_INDEX_64 : bool.
Variable kMaxBlobAxes : nat.
Variable elem_type : ElemType.
Context {Dtype Quantizer : Type}.
Implicit Type h : Heap Dtype.
Implicit Type b : Blob Quantizer.

Local Abbreviation MAX := (INT_TP_MAX USE_INDEX_64).
Local Abbreviation Reshape_ := (Reshape USE_INDEX_64 kMaxBlobAxes elem_type).

Hypothesis kMaxBlobAxes_fits : Z.of_nat kMaxBlobAxes * 8 < SIZE_T_MODULUS.

(** X12.  Sharing does not survive a reallocation.  After
    [b.ShareData(other)], a [Reshape] of [b] beyond its capacity gives
    [b] two new buffers of its own: [b] no longer aliases [other]'s
    values, while [other]'s buffer stays alive, with the contents and the
    number of handles it had before the sharing. *)
Theorem Reshape_after_ShareData_detaches h b other (l : nat) (c : Cell Dtype)
    (shape : list Z) :
  data_ other = Some l -> cells h !! l = Some c -> (l < next_loc h)%nat ->
  data_ b <> Some l -> diff_ b <> Some l ->
  count_ b = count_ other ->
  valid_shape kMaxBlobAxes MAX shape ->
  capacity_ b < product shape ->
  exists h1 b1 h2 b2,
    ShareData h b other = Ok (h1, b1)
    /\ data_ b1 = data_ other
    /\ Reshape_ h1 b1 shape shape = Ok (h2, b2, true)
    /\ data_ b2 <> data_ other /\ diff_ b2 <> data_ other
    /\ cells h2 !! l = Some c.
Proof.
  intros Ho Hc Hl Hd Hg Hcnt Hv Hcap.
  set (h1 := release (acquire h (data other)) (data_ b)).
  set (b1 := set_data_ (data other) b).
  assert (E1 : ShareData h b other = Ok (h1, b1)).
  { unfold ShareData, count. rewrite Hcnt, Z.eqb_refl. reflexivity. }
  assert (Hn1 : next_loc h1 = next_loc h).
  { unfold h1. rewrite next_loc_release. unfold data. by rewrite Ho. }
  assert (H1 : cells h1 !! l = Some (mkCell (obj c) (Pos.succ (use_count c)))).
  { unfold h1. rewrite lookup_release_ne by done. unfold data. rewrite Ho.
    cbn [acquire cells]. rewrite lookup_alter_eq, Hc. done. }
  destruct (Reshape_total USE_INDEX_64 kMaxBlobAxes elem_type kMaxBlobAxes_fits
              h1 b1 shape shape Hv) as (h2 & b2 & changed & Er).
  pose proof Er as Hr.
  apply Reshape_Ok in Hr as (_ & _ & _ & _ & _ & _ & _ & Hch & _ & Hnew).
  rewrite bool_decide_eq_true_2 in Hch by done. subst changed.
  destruct (Hnew eq_refl) as (_ & Hd2 & Hg2 & Hh2). cbv zeta in Hh2.
  exists h1, b1, h2, b2. split; [exact E1|]. split; [done|]. split; [exact Er|].
  rewrite Hd2, Hg2, Ho, Hn1.
  split; [intros [= E]; lia|]. split; [intros [= E]; lia|].
  rewrite Hh2. change (diff_ b1) with (diff_ b). change (data_ b1) with (data other).
  unfold data. rewrite Ho.
  rewrite lookup_release_ne by done.
  rewrite lookup_alloc_ne by (rewrite next_loc_release; simpl; lia).
  set (m := SyncedMemory.new _ _).
  assert (Ha : cells (alloc h1 m).1 !! l
               = Some (mkCell (obj c) (Pos.succ (use_count c)))).
  { rewrite lookup_alloc_ne by lia. exact H1. }
  unfold release. rewrite Ha. cbn [use_count obj].
  destruct (Pos.eqb_spec (Pos.succ (use_count c)) 1) as [E|_].
  { destruct (use_count c); discriminate. }
  cbn [cells]. rewrite lookup_insert_eq, Pos.pred_succ. by destruct c.
Qed.

End ShareThenReshape.

Lemma Reshape_after_ShareData_detaches_witness :
  exists h1 b1 h2 b2,
    ShareData Example.store2 Example.blob2 Example.blob1 = Ok (h1, b1)
    /\ Reshape false 32 float h1 b1 [2; 3] [2; 3] = Ok (h2, b2, true)
    /\ data_ b2 <> data_ Example.blob1
    /\ cells h2 !! 0%nat = Some (mkCell (Example.host_buffer [3; 4]) 1).
Proof.
  destruct (Reshape_after_ShareData_detaches false 32 float rank_bound_32_fits
              Example.store2 Example.blob2 Example.blob1 0%nat
              (mkCell (Example.host_buffer [3; 4]) 1) [2; 3]
              eq_refl eq_refl ltac:(simpl; lia) ltac:(discriminate) ltac:(discriminate)
              eq_refl valid_shape_2_3 ltac:(simpl; lia))
    as (h1 & b1 & h2 & b2 & E1 & _ & E2 & Hne & _ & Hc).
  exists h1, b1, h2, b2. done.
Defined.

(** ** [FromProto]: what it leaves alone, and an empty tensor *)

Section FromProtoMore.
Variable USE_INDEX_64 : bool.
Variable kMaxBlobAxes : nat.
Variable elem_type : ElemType.
Context {Dtype Quantizer Float Double : Type}.
Variable zero : Dtype.
Variable of_float : Float -> Dtype.
Variable of_double : Double -> Dtype.
Implicit Type h : Heap Dtype.
Implicit Type b : Blob Quantizer.
Implicit Type proto : BlobProto Float Double.

Local Abbreviation MAX := (INT_TP_MAX USE_INDEX_64).
Local Abbreviation FromProto_ :=
  (FromProto USE_INDEX_64 kMaxBlobAxes elem_type of_float of_double).

(** X14.  [FromProto] without [reshape] changes nothing but the
    contents of the blob's own two buffers: the blob's fields are as
    before, no object is created or destroyed, and every object other
    than the values and gradients buffers is untouched; without diff
    content in the message the gradients buffer is untouched too. *)
Theorem FromProto_touches_own_buffers_only h b proto h' b' :
  FromProto_ h b proto false = Ok (h', b') ->
  b' = b
  /\ next_loc h' = next_loc h
  /\ (forall l, data_ b <> Some l -> diff_ b <> Some l ->
        cells h' !! l = cells h !! l)
  /\ (diff_payload of_float of_double proto = None ->
      forall l, data_ b <> Some l -> cells h' !! l = cells h !! l).
Proof.
  intros H. apply FromProto_Ok in H as (h1 & h2 & Hs & Hd & Hg).
  unfold FromProto_shape in Hs.
  apply obind_Ok in Hs as (u & _ & [= <- <-]).
  apply FromProto_data_Ok with (zero := zero) in Hd as (_ & Hn2 & Hf2 & _).
  apply FromProto_diff_Ok with (zero := zero) in Hg.
  split; [done|].
  destruct (diff_payload of_float of_double proto) as [dp|].
  - destruct Hg as (_ & Hn3 & Hf3 & _).
    split; [congruence|]. split; [|done].
    intros l Hld Hlg. rewrite Hf3, Hf2 by done. done.
  - subst h'. split; [done|]. split; [|intros _]; intros l Hld; by auto.
Qed.

Hypothesis kMaxBlobAxes_fits : Z.of_nat kMaxBlobAxes * 8 < SIZE_T_MODULUS.

(** X13.  Deserialising an empty tensor into a blob that never had
    buffers fails: with [reshape], a message whose shape has a zero
    extent makes [Reshape] set the count to 0 and allocate nothing, and
    [FromProto] then dies on the [CHECK] of [mutable_cpu_data]. *)
Theorem FromProto_empty_tensor_into_unallocated_is_fatal h b proto :
  data_ b = None -> 0 <= capacity_ b ->
  valid_shape kMaxBlobAxes MAX (proto_target_shape USE_INDEX_64 proto) ->
  product (proto_target_shape USE_INDEX_64 proto) = 0 ->
  FromProto_ h b proto true = Fatal CHECK_FAILED.
Proof.
  intros Hd Hcap Hv Hz.
  destruct (Reshape_total USE_INDEX_64 kMaxBlobAxes elem_type kMaxBlobAxes_fits
              h b _ (proto_target_shape USE_INDEX_64 proto) Hv)
    as (h1 & b1 & changed & Er).
  pose proof Er as Hr.
  apply Reshape_Ok in Hr as (_ & _ & _ & _ & _ & _ & _ & Hch & Hsame & _).
  rewrite bool_decide_eq_false_2 in Hch by lia. subst changed.
  destruct (Hsame eq_refl) as (-> & Hd1 & _).
  unfold FromProto, FromProto_shape, Reshape1. rewrite Er.
  cbn [mbind Outcome_bind obind].
  unfold FromProto_data, mutable_cpu_data. rewrite Hd1, Hd. reflexivity.
Qed.

End FromProtoMore.

Lemma FromProto_touches_own_buffers_only_witness :
  exists h',
    FromProto false 32 float (fun x : Z => x) (fun x : Z => x)
              Example.store1 Example.blob1 Sample.message2 false
    = Ok (h', Example.blob1)
    /\ cells h' !! 1%nat = cells Example.store1 !! 1%nat.
Proof.
  destruct (FromProto false 32 float (fun x : Z => x) (fun x : Z => x)
              Example.store1 Example.blob1 Sample.message2 false)
    as [[h' b']| |] eqn:E; [|vm_compute in E; discriminate..].
  destruct (FromProto_touches_own_buffers_only false 32 float 0
              (fun x : Z => x) (fun x : Z => x)
              Example.store1 Example.blob1 Sample.message2 h' b' E)
    as (-> & _ & _ & Hframe).
  exists h'. split; [reflexivity|].
  apply (Hframe eq_refl). discriminate.
Defined.

Lemma FromProto_empty_tensor_into_unallocated_is_fatal_witness :
  FromProto false 32 float (fun x : Z => x) (fun x : Z => x)
            Example.store0 Example.blob0 Sample.empty_tensor_message true
  = Fatal CHECK_FAILED.
Proof.
  apply (FromProto_empty_tensor_into_unallocated_is_fatal false 32 float
           (fun x : Z => x) (fun x : Z => x) rank_bound_32_fits
           Example.store0 Example.blob0 Sample.empty_tensor_message eq_refl).
  - simpl. lia.
  - assert (E : proto_target_shape false Sample.empty_tensor_message = [0])
      by (vm_compute; reflexivity).
    rewrite E. unfold valid_shape. simpl.
    split; [lia|]. split; [repeat constructor; lia|].
    split; [right; unfold INT_TP_MAX, INT_MAX; rewrite Z.div_1_r; lia|done].
  - vm_compute. reflexivity.
Defined.

(** ** The [BlobShape] overloads of [Reshape] *)

Section BlobShapeOverloads.
Variable USE_INDEX_64 : bool.
Variable kMaxBlobAxes : nat.
Variable elem_type : ElemType.
Context {Dtype Quantizer : Type}.
Implicit Type h : Heap Dtype.
Implicit Type b : Blob Quantizer.

Local Abbreviation Reshape_ := (Reshape USE_INDEX_64 kMaxBlobAxes elem_type).
Local Abbreviation wrap := (wrap_int_tp USE_INDEX_64).

Lemma take_S_insert {A : Type} (v : list A) (i : nat) (x : A) :
  (i < length v)%nat -> take (S i) (<[i := x]> v) = take i v ++ [x].
Proof.
  intros Hi. rewrite (take_S_r _ _ x) by (by apply list_lookup_insert_eq).
  by rewrite take_insert_ge.
Qed.

Lemma BlobShape_loop1_Ok (shape : list Z) (n : nat) : forall i (vec : list Z),
  length vec = length shape -> (i + n = length shape)%nat ->
  BlobShape_loop1 USE_INDEX_64 shape i n vec
  = Ok (take i vec ++ (wrap <$> drop i shape)).
Proof.
  induction n as [|n IH]; intros i vec Hlen Hin; cbn [BlobShape_loop1].
  - rewrite drop_ge by lia. rewrite take_ge by lia. by rewrite app_nil_r.
  - destruct (lookup_lt_is_Some_2 shape i ltac:(lia)) as [d Hd].
    unfold vector_get, vector_set. rewrite Hd. cbn [deref mbind Outcome_bind obind].
    destruct (Nat.ltb_spec i (length vec)) as [Hi|]; [|lia].
    cbn [mbind Outcome_bind obind].
    rewrite IH by (rewrite ?length_insert; lia).
    rewrite take_S_insert by done. rewrite (drop_S _ _ _ Hd).
    by rewrite <- app_assoc.
Qed.

Lemma BlobShape_loop2_Ok (shape shape_stride : list Z) (n : nat) :
  forall i (vec svec : list Z),
  length vec = length shape -> length svec = length shape ->
  (i + n = length shape)%nat -> (length shape <= length shape_stride)%nat ->
  exists svec',
    BlobShape_loop2 USE_INDEX_64 shape shape_stride i n vec svec
    = Ok (take i vec ++ (wrap <$> drop i shape), svec').
Proof.
  induction n as [|n IH]; intros i vec svec Hlen Hslen Hin Hst;
    cbn [BlobShape_loop2].
  - exists svec. rewrite drop_ge by lia. rewrite take_ge by lia. by rewrite app_nil_r.
  - destruct (lookup_lt_is_Some_2 shape i ltac:(lia)) as [d Hd].
    destruct (lookup_lt_is_Some_2 shape_stride i ltac:(lia)) as [s Hs].
    unfold vector_get, vector_set. rewrite Hd, Hs.
    cbn [deref mbind Outcome_bind obind].
    destruct (Nat.ltb_spec i (length vec)) as [Hi|]; [|lia].
    cbn [mbind Outcome_bind obind].
    destruct (Nat.ltb_spec i (length svec)) as [Hj|]; [|lia].
    cbn [mbind Outcome_bind obind].
    destruct (IH (S i) (<[i := wrap d]> vec) (<[i := wrap s]> svec))
      as (svec' & ->); rewrite ?length_insert; try lia.
    exists svec'. rewrite take_S_insert by done. rewrite (drop_S _ _ _ Hd).
    by rewrite <- app_assoc.
Qed.

Lemma BlobShape_loop2_short (shape shape_stride : list Z) (n : nat) :
  forall i (vec svec : list Z),
  length vec = length shape -> length svec = length shape ->
  (i + n = length shape)%nat ->
  (i <= length shape_stride < length shape)%nat ->
  BlobShape_loop2 USE_INDEX_64 shape shape_stride i n vec svec = Undefined.
Proof.
  induction n as [|n IH]; intros i vec svec Hlen Hslen Hin Hst; [lia|].
  cbn [BlobShape_loop2].
  destruct (lookup_lt_is_Some_2 shape i ltac:(lia)) as [d Hd].
  unfold vector_get, vector_set. rewrite Hd. cbn [deref mbind Outcome_bind obind].
  destruct (Nat.ltb_spec i (length vec)) as [Hi|]; [|lia].
  cbn [mbind Outcome_bind obind].
  destruct (shape_stride !! i) as [s|] eqn:Hs; [|reflexivity].
  apply lookup_lt_Some in Hs. cbn [deref mbind Outcome_bind obind].
  destruct (Nat.ltb_spec i (length svec)) as [Hj|]; [|lia].
  cbn [mbind Outcome_bind obind].
  apply IH; rewrite ?length_insert; lia.
Qed.

(** X15.  The [BlobShape] overloads of [Reshape] behave as the vector
    overload on the message's dims converted to [int_tp]: always for the
    one-message overload, and for the two-message overload when the
    stride message has a dim for every axis.  With a shorter stride
    message and a rank within the bound the two-message overload reads
    [shape_stride.dim(i)] out of range, although the strides are never
    used. *)
Theorem Reshape_BlobShape_as_vector h b (shape shape_stride : list Z) :
  Reshape_BlobShape1 USE_INDEX_64 kMaxBlobAxes elem_type h b shape
  = Reshape_ h b (dims_to_int_tp USE_INDEX_64 shape) (dims_to_int_tp USE_INDEX_64 shape)
  /\ ((length shape <= length shape_stride)%nat ->
      Reshape_BlobShape2 USE_INDEX_64 kMaxBlobAxes elem_type h b shape shape_stride
      = Reshape_ h b (dims_to_int_tp USE_INDEX_64 shape)
                 (dims_to_int_tp USE_INDEX_64 shape))
  /\ ((length shape_stride < length shape)%nat ->
      (length shape <= kMaxBlobAxes)%nat ->
      Reshape_BlobShape2 USE_INDEX_64 kMaxBlobAxes elem_type h b shape shape_stride
      = Undefined).
Proof.
  assert (Hrank : forall st,
            (kMaxBlobAxes < length shape)%nat ->
            Reshape_ h b (dims_to_int_tp USE_INDEX_64 shape) st = Fatal CHECK_FAILED).
  { intros st Hlt. unfold Reshape, dims_to_int_tp. rewrite length_fmap.
    by destruct (Nat.leb_spec (length shape) kMaxBlobAxes); [lia|]. }
  split; [|split].
  - unfold Reshape_BlobShape1.
    destruct (Nat.leb_spec (length shape) kMaxBlobAxes) as [Hle|Hgt].
    + cbn [CHECK mbind Outcome_bind obind].
      rewrite BlobShape_loop1_Ok by (rewrite ?length_replicate; lia).
      cbn [mbind Outcome_bind obind]. by rewrite take_0, drop_0.
    + cbn [CHECK mbind Outcome_bind obind]. by rewrite Hrank.
  - intros Hst. unfold Reshape_BlobShape2.
    destruct (Nat.leb_spec (length shape) kMaxBlobAxes) as [Hle|Hgt].
    + cbn [CHECK mbind Outcome_bind obind].
      destruct (BlobShape_loop2_Ok shape shape_stride (length shape) 0
                  (replicate (length shape) 0) (replicate (length shape) 0))
        as (svec' & ->); rewrite ?length_replicate; try lia.
      cbn [mbind Outcome_bind obind]. by rewrite take_0, drop_0.
    + cbn [CHECK mbind Outcome_bind obind]. by rewrite Hrank.
  - intros Hst Hle. unfold Reshape_BlobShape2.
    destruct (Nat.leb_spec (length shape) kMaxBlobAxes) as [_|]; [|lia].
    cbn [CHECK mbind Outcome_bind obind].
    rewrite BlobShape_loop2_short; rewrite ?length_replicate; try lia. done.
Qed.

End BlobShapeOverloads.

Lemma Reshape_BlobShape_as_vector_witness :
  Reshape_BlobShape2 false 32 float Example.store0 Example.blob0 [2; 3] [3] = Undefined.
Proof.
  exact (proj2 (proj2 (Reshape_BlobShape_as_vector false 32 float
                         Example.store0 Example.blob0 [2; 3] [3]))
           ltac:(simpl; lia) ltac:(simpl; lia)).
Defined.

(** ** Arithmetic on host buffers *)

Section HostArithmetic.
Variable CPU_ONLY : bool.
Variable elem_type : ElemType.
Context {Dtype Quantizer : Type}.
Variable zero minus_one : Dtype.
Variable caffe_axpy : Z -> Dtype -> list Dtype -> list Dtype -> list Dtype.
Variable caffe_cpu_asum : Z -> list Dtype -> Dtype.
Variable caffe_cpu_dot : Z -> list Dtype -> list Dtype -> Dtype.
Variable caffe_scal : Z -> Dtype -> list Dtype -> list Dtype.
Variable device_axpy : Z -> Dtype -> list Dtype -> list Dtype -> list Dtype.
Variable device_asum : Z -> list Dtype -> Dtype.
Variable device_dot : Z -> list Dtype -> list Dtype -> Dtype.
Variable device_scal : Z -> Dtype -> list Dtype -> list Dtype.
Implicit Type h : Heap Dtype.
Implicit Type b : Blob Quantizer.

Local Abbreviation Update_ :=
  (Update CPU_ONLY elem_type zero minus_one caffe_axpy device_axpy).
Local Abbreviation asum_data_ :=
  (asum_data CPU_ONLY elem_type zero caffe_cpu_asum device_asum).
Local Abbreviation asum_diff_ :=
  (asum_diff CPU_ONLY elem_type zero caffe_cpu_asum device_asum).
Local Abbreviation sumsq_data_ :=
  (sumsq_data CPU_ONLY elem_type zero caffe_cpu_dot device_dot).
Local Abbreviation sumsq_diff_ :=
  (sumsq_diff CPU_ONLY elem_type zero caffe_cpu_dot device_dot).
Local Abbreviation scale_data_ :=
  (scale_data CPU_ONLY elem_type zero caffe_scal device_scal).
Local Abbreviation scale_diff_ :=
  (scale_diff CPU_ONLY elem_type zero caffe_scal device_scal).

Lemma mutable_cpu_data_at_cpu (m : SyncedMemory.t Dtype) :
  SyncedMemory.head m = HEAD_AT_CPU -> SyncedMemory.mutable_cpu_data m = m.
Proof. destruct m as [size hd cm gm dev]. cbn. by intros ->. Qed.

Lemma call_on_mutable_at_cpu h (l : nat) (c : Cell Dtype) :
  cells h !! l = Some c -> SyncedMemory.head (obj c) = HEAD_AT_CPU ->
  call_on h (Some l) SyncedMemory.mutable_cpu_data = Ok (h, l).
Proof.
  intros Hc Hhd. unfold call_on. cbn [deref mbind Outcome_bind obind]. rewrite Hc.
  cbn [deref mbind Outcome_bind obind].
  by rewrite (mutable_cpu_data_at_cpu _ Hhd), (update_obj_same _ _ _ Hc).
Qed.

(** Scaling the first [n] elements of a host-only buffer in place. *)
Lemma host_scale_core h (p : option nat) (n : Z) (f : Dtype) (vs : list Dtype) :
  host_only elem_type h p n -> 0 <= n ->
  host_values zero h p n = Some vs ->
  length (caffe_scal n f vs) = Z.to_nat n ->
  exists h',
    ('(h1, q) ← call_on h p SyncedMemory.mutable_cpu_data;
     xs ← read_cpu elem_type zero h1 q n;
     write_cpu elem_type h1 q (caffe_scal n f xs)) = Ok h'
    /\ host_values zero h' p n = Some (caffe_scal n f vs)
    /\ host_only elem_type h' p n
    /\ (forall l, p <> Some l -> cells h' !! l = cells h !! l).
Proof.
  intros (l & c & -> & Hc & Hsz & Hhd) Hn Hv Hlen.
  rewrite (host_values_Some zero _ _ _ _ Hc) in Hv. injection Hv as Hv.
  rewrite (call_on_mutable_at_cpu h l c Hc Hhd). cbn [mbind Outcome_bind obind].
  rewrite (read_cpu_Ok elem_type zero h l c n Hc Hn Hsz).
  cbn [mbind Outcome_bind obind]. rewrite Hv.
  rewrite (write_cpu_Ok elem_type h l c _ Hc)
    by (rewrite Hlen, Z2Nat.id by done; exact Hsz).
  eexists. split; [reflexivity|].
  rewrite (host_values_update_obj zero _ _ _ _ _ Hc).
  split; [|split].
  - f_equal. cbn [SyncedMemory.set_cpu_mem SyncedMemory.cpu_mem].
    rewrite <- Hlen. apply read_mem_write_mem.
  - exists l. eexists. split; [done|].
    split; [by apply (lookup_update_obj_eq _ _ _ _ Hc)|]. done.
  - intros l' Hl. assert (l <> l') by congruence.
    by rewrite lookup_update_obj_ne.
Qed.

(** X16.  What the arithmetic members compute for a floating-point blob
    whose buffer is valid on the host only, with [vs] its first [count_]
    values: [asum_data] and [sumsq_data] return the helper's result on
    [vs] ([caffe_cpu_dot] of [vs] with itself) and leave the store as it
    is; [scale_data] replaces the values by the helper's result and
    changes no other object; [Update], with gradients [gs] valid on the
    host in another buffer, replaces the values by
    [caffe_axpy(count_, -1, gs, vs)] and leaves the gradients as they
    are.  The members on the gradients behave alike. *)
Theorem host_arithmetic_results h b :
  is_floating elem_type = true ->
  0 <= count_ b ->
  (forall vs,
     host_only elem_type h (data_ b) (count_ b) ->
     host_values zero h (data_ b) (count_ b) = Some vs ->
     asum_data_ h b = Ok (h, caffe_cpu_asum (count_ b) vs)
     /\ sumsq_data_ h b = Ok (h, caffe_cpu_dot (count_ b) vs vs)
     /\ (forall f,
           length (caffe_scal (count_ b) f vs) = Z.to_nat (count_ b) ->
           exists h',
             scale_data_ h b f = Ok h'
             /\ host_values zero h' (data_ b) (count_ b)
                = Some (caffe_scal (count_ b) f vs)
             /\ (forall l, data_ b <> Some l -> cells h' !! l = cells h !! l))
     /\ (forall gs,
           host_resident elem_type h (diff_ b) (count_ b) ->
           host_values zero h (diff_ b) (count_ b) = Some gs ->
           data_ b <> diff_ b ->
           length (caffe_axpy (count_ b) minus_one gs vs) = Z.to_nat (count_ b) ->
           exists h',
             Update_ h b = Ok h'
             /\ host_values zero h' (data_ b) (count_ b)
                = Some (caffe_axpy (count_ b) minus_one gs vs)
             /\ host_values zero h' (diff_ b) (count_ b) = Some gs))
  /\ (forall gs,
     host_only elem_type h (diff_ b) (count_ b) ->
     host_values zero h (diff_ b) (count_ b) = Some gs ->
     asum_diff_ h b = Ok (h, caffe_cpu_asum (count_ b) gs)
     /\ sumsq_diff_ h b = Ok (h, caffe_cpu_dot (count_ b) gs gs)
     /\ (forall f,
           length (caffe_scal (count_ b) f gs) = Z.to_nat (count_ b) ->
           exists h',
             scale_diff_ h b f = Ok h'
             /\ host_values zero h' (diff_ b) (count_ b)
                = Some (caffe_scal (count_ b) f gs)
             /\ (forall l, diff_ b <> Some l -> cells h' !! l = cells h !! l))).
Proof.
  intros Hf Hn.
  assert (Hi : is_integer elem_type = false) by (by destruct elem_type).
  split.
  - intros vs Hho Hv.
    pose proof Hho as (l & c & Hp & Hc & Hsz & Hhd).
    assert (Hhead : head_of h (data_ b) = Ok HEAD_AT_CPU).
    { unfold head_of. rewrite Hp. cbn [deref mbind Outcome_bind obind].
      rewrite Hc. cbn [deref mbind Outcome_bind obind]. by rewrite Hhd. }
    assert (Hcall : call_on h (Some l) SyncedMemory.cpu_data = Ok (h, l))
      by (apply (call_on_cpu_data_resident h l c Hc); by left).
    assert (Hread : read_cpu elem_type zero h l (count_ b) = Ok vs).
    { rewrite (read_cpu_Ok elem_type zero h l c _ Hc Hn Hsz).
      rewrite Hp, (host_values_Some zero _ _ _ _ Hc) in Hv. by injection Hv as ->. }
    split; [|split; [|split]].
    + unfold asum_data. rewrite Hi, Hhead. unfold cpu_data. rewrite Hp.
      cbn [non_null negb CHECK mbind Outcome_bind obind]. rewrite Hcall.
      cbn [mbind Outcome_bind obind]. by rewrite Hread.
    + unfold sumsq_data. rewrite Hi, Hhead. unfold cpu_data. rewrite Hp.
      cbn [non_null negb CHECK mbind Outcome_bind obind]. rewrite Hcall.
      cbn [mbind Outcome_bind obind]. by rewrite Hread.
    + intros f Hlen.
      destruct (host_scale_core h (data_ b) (count_ b) f vs Hho Hn Hv Hlen)
        as (h' & E & Hv' & _ & Hframe).
      exists h'. split; [|done].
      unfold scale_data. rewrite Hi, Hhead. unfold mutable_cpu_data.
      rewrite Hp in E |- *. cbn [non_null negb CHECK mbind Outcome_bind obind].
      exact E.
    + intros gs (lg & cg & Hq & Hcg & Hszg & Hhdg) Hvg Hne Hlen.
      assert (Hlne : lg <> l) by congruence.
      unfold Update. rewrite Hi, Hhead, Hq, Hp.
      rewrite (call_on_cpu_data_resident h lg cg Hcg Hhdg).
      cbn [mbind Outcome_bind obind].
      rewrite (call_on_mutable_at_cpu h l c Hc Hhd). cbn [mbind Outcome_bind obind].
      rewrite (read_cpu_Ok elem_type zero h lg cg _ Hcg Hn Hszg).
      cbn [mbind Outcome_bind obind]. rewrite Hread. cbn [mbind Outcome_bind obind].
      rewrite Hq, (host_values_Some zero _ _ _ _ Hcg) in Hvg. injection Hvg as Hvg.
      rewrite Hvg.
      rewrite (write_cpu_Ok elem_type h l c _ Hc)
        by (rewrite Hlen, Z2Nat.id by done; exact Hsz).
      eexists. split; [reflexivity|].
      rewrite (host_values_update_obj zero _ _ _ _ _ Hc).
      split.
      * f_equal. cbn [SyncedMemory.set_cpu_mem SyncedMemory.cpu_mem].
        rewrite <- Hlen. apply read_mem_write_mem.
      * unfold host_values. cbn [mbind option_bind].
        rewrite lookup_update_obj_ne by congruence. rewrite Hcg.
        cbn [mbind option_bind]. by rewrite Hvg.
  - intros gs Hho Hv.
    pose proof Hho as (l & c & Hp & Hc & Hsz & Hhd).
    assert (Hhead : head_of h (diff_ b) = Ok HEAD_AT_CPU).
    { unfold head_of. rewrite Hp. cbn [deref mbind Outcome_bind obind].
      rewrite Hc. cbn [deref mbind Outcome_bind obind]. by rewrite Hhd. }
    assert (Hcall : call_on h (Some l) SyncedMemory.cpu_data = Ok (h, l))
      by (apply (call_on_cpu_data_resident h l c Hc); by left).
    assert (Hread : read_cpu elem_type zero h l (count_ b) = Ok gs).
    { rewrite (read_cpu_Ok elem_type zero h l c _ Hc Hn Hsz).
      rewrite Hp, (host_values_Some zero _ _ _ _ Hc) in Hv. by injection Hv as ->. }
    split; [|split].
    + unfold asum_diff. rewrite Hi, Hhead. unfold cpu_diff. rewrite Hp.
      cbn [non_null negb CHECK mbind Outcome_bind obind]. rewrite Hcall.
      cbn [mbind Outcome_bind obind]. by rewrite Hread.
    + unfold sumsq_diff. rewrite Hi, Hhead. unfold cpu_diff. rewrite Hp.
      cbn [non_null negb CHECK mbind Outcome_bind obind]. rewrite Hcall.
      cbn [mbind Outcome_bind obind]. by rewrite Hread.
    + intros f Hlen.
      destruct (host_scale_core h (diff_ b) (count_ b) f gs Hho Hn Hv Hlen)
        as (h' & E & Hv' & _ & Hframe).
      exists h'. split; [|done].
      unfold scale_diff. rewrite Hi, Hhead. unfold mutable_cpu_diff.
      rewrite Hp in E |- *. cbn [non_null negb CHECK mbind Outcome_bind obind].
      exact E.
Qed.

(** X17.  In a [CPU_ONLY] build the arithmetic members of a
    floating-point blob die on [NO_GPU] as soon as the buffer's head is
    [HEAD_AT_GPU] or [SYNCED], the latter although the host copy is
    valid. *)
Theorem host_only_build_needs_host_head h b :
  CPU_ONLY = true ->
  is_floating elem_type = true ->
  (on_accelerator h (data_ b) ->
     Update_ h b = Fatal NO_GPU
     /\ asum_data_ h b = Fatal NO_GPU
     /\ sumsq_data_ h b = Fatal NO_GPU
     /\ (forall f, scale_data_ h b f = Fatal NO_GPU))
  /\ (on_accelerator h (diff_ b) ->
     asum_diff_ h b = Fatal NO_GPU
     /\ sumsq_diff_ h b = Fatal NO_GPU
     /\ (forall f, scale_diff_ h b f = Fatal NO_GPU)).
Proof.
  intros Hcpu Hf.
  assert (Hi : is_integer elem_type = false) by (by destruct elem_type).
  split; intros [Hr|Hr];
    pose proof (head_of_residency _ _ _ Hr) as Hhead;
    pose proof (residency_non_null _ _ _ Hr) as Hnn;
    unfold Update, asum_data, sumsq_data, scale_data, asum_diff, sumsq_diff, scale_diff;
    rewrite Hi, Hhead, ?Hnn, Hcpu; repeat split.
Qed.

End HostArithmetic.

Lemma host_arithmetic_results_witness :
  exists h',
    Update false float 0 (-1) Example.axpy Example.axpy
           (Example.store_of [5; 5] [1; 2]) (Example.blob_of 2) = Ok h'
    /\ host_values 0 h' (Some 0%nat) 2 = Some [4; 3].
Proof.
  assert (Hho : host_only float (Example.store_of [5; 5] [1; 2])
                  (data_ (Example.blob_of 2)) (count_ (Example.blob_of 2))).
  { exists 0%nat, (mkCell (Example.host_buffer [5; 5]) 1).
    split; [reflexivity|]. split; [reflexivity|]. split; [simpl; lia|reflexivity]. }
  assert (Hg : host_resident float (Example.store_of [5; 5] [1; 2])
                 (diff_ (Example.blob_of 2)) (count_ (Example.blob_of 2))).
  { exists 1%nat, (mkCell (Example.host_buffer [1; 2]) 1).
    split; [reflexivity|]. split; [reflexivity|]. split; [simpl; lia|by left]. }
  destruct (proj1 (host_arithmetic_results false float 0 (-1)
                     Example.axpy Example.asum Example.dot Example.scal
                     Example.axpy Example.asum Example.dot Example.scal
                     (Example.store_of [5; 5] [1; 2]) (Example.blob_of 2)
                     eq_refl ltac:(simpl; lia))
              [5; 5] Hho eq_refl) as (_ & _ & _ & Hup).
  destruct (Hup [1; 2] Hg eq_refl ltac:(discriminate) eq_refl) as (h' & E & Hv & _).
  exists h'. split; [exact E|exact Hv].
Defined.

Lemma host_only_build_needs_host_head_witness :
  asum_data true float 0 Example.asum Example.asum
            Sample.synced_store Sample.synced_blob
  = Fatal NO_GPU.
Proof.
  refine (proj1 (proj2 (proj1 (host_only_build_needs_host_head true float 0 (-1)
                     Example.axpy Example.asum Example.dot Example.scal
                     Example.axpy Example.asum Example.dot Example.scal
                     Sample.synced_store Sample.synced_blob eq_refl eq_refl) _))).
  right. exists 0%nat. eexists. split; [reflexivity|]. split; [reflexivity|reflexivity].
Defined.

(** ** [Reshape] and the objects of other blobs *)

Section ReshapeFrame.
Variable USE_INDEX_64 : bool.
Variable kMaxBlobAxes : nat.
Variable elem_type : ElemType.
Context {Dtype Quantizer : Type}.
Implicit Type h : Heap Dtype.
Implicit Type b : Blob Quantizer.

Local Abbreviation MAX := (INT_TP_MAX USE_INDEX_64).
Local Abbreviation Reshape_ := (Reshape USE_INDEX_64 kMaxBlobAxes elem_type).

Lemma Reshape_frame h b shape shape_stride h' b' changed :
  Reshape_ h b shape shape_stride = Ok (h', b', changed) ->
  (next_loc h <= next_loc h')%nat
  /\ (forall l, (l < next_loc h)%nat -> data_ b <> Some l -> diff_ b <> Some l ->
        cells h' !! l = cells h !! l)
  /\ (data_ b' = data_ b \/ exists l, data_ b' = Some l /\ (next_loc h <= l)%nat)
  /\ (diff_ b' = diff_ b \/ exists l, diff_ b' = Some l /\ (next_loc h <= l)%nat).
Proof.
  intros H.
  apply Reshape_Ok in H as (_ & _ & _ & _ & _ & _ & _ & _ & Hsame & Hnew).
  destruct changed.
  - destruct (Hnew eq_refl) as (_ & Hd & Hg & ->). cbv zeta.
    split; [rewrite next_loc_release; simpl; rewrite next_loc_release; simpl; lia|].
    split; [|split; right; eexists; split; eauto; lia].
    intros l Hl Hld Hlg.
    rewrite lookup_release_ne by done.
    rewrite lookup_alloc_ne by (rewrite next_loc_release; simpl; lia).
    rewrite lookup_release_ne by done.
    by rewrite lookup_alloc_ne by lia.
  - destruct (Hsame eq_refl) as (-> & Hd & Hg & _).
    split; [lia|]. split; [done|]. split; by left.
Qed.

(** X18.  Reshaping a blob, any number of times, leaves alone every
    object of the store that existed before and is not one of the two
    buffers the blob started with: buffers of other blobs keep their
    contents, state and handle count, and locations are only ever
    added. *)
Theorem Reshape_sequence_leaves_other_objects (shapes : list (list Z)) :
  forall h b h' b',
  Reshape_sequence USE_INDEX_64 kMaxBlobAxes elem_type h b shapes = Ok (h', b') ->
  (next_loc h <= next_loc h')%nat
  /\ (forall l, (l < next_loc h)%nat -> data_ b <> Some l -> diff_ b <> Some l ->
        cells h' !! l = cells h !! l)
  /\ (data_ b' = data_ b \/ exists l, data_ b' = Some l /\ (next_loc h <= l)%nat)
  /\ (diff_ b' = diff_ b \/ exists l, diff_ b' = Some l /\ (next_loc h <= l)%nat).
Proof.
  induction shapes as [|shp rest IH]; intros h b h' b' H.
  - injection H as <- <-. split; [lia|]. split; [done|]. split; by left.
  - cbn [Reshape_sequence] in H.
    apply obind_Ok in H as ([[h1 b1] ch] & H1 & H). unfold Reshape1 in H1.
    apply Reshape_frame in H1 as (Hn1 & Hf1 & Hd1 & Hg1).
    apply IH in H as (Hn2 & Hf2 & Hd2 & Hg2).
    split; [lia|]. split; [|split].
    + intros l Hl Hld Hlg. rewrite Hf2; [by apply Hf1|lia| |].
      * destruct Hd1 as [->|(l1 & -> & Hl1)]; [done|]. intros [= ->]. lia.
      * destruct Hg1 as [->|(l1 & -> & Hl1)]; [done|]. intros [= ->]. lia.
    + destruct Hd2 as [->|(l2 & -> & Hl2)]; [exact Hd1|].
      right. exists l2. split; [done|lia].
    + destruct Hg2 as [->|(l2 & -> & Hl2)]; [exact Hg1|].
      right. exists l2. split; [done|lia].
Qed.

End ReshapeFrame.

Lemma Reshape_sequence_leaves_other_objects_witness :
  exists h' b',
    Reshape_sequence false 32 float Example.store2 Example.blob2 [[2; 3]; [1]]
    = Ok (h', b')
    /\ cells h' !! 0%nat = cells Example.store2 !! 0%nat.
Proof.
  destruct (Reshape_sequence false 32 float Example.store2 Example.blob2 [[2; 3]; [1]])
    as [[h' b']| |] eqn:E; [|vm_compute in E; discriminate..].
  exists h', b'. split; [reflexivity|].
  destruct (Reshape_sequence_leaves_other_objects false 32 float [[2; 3]; [1]]
              Example.store2 Example.blob2 h' b' E) as (_ & Hframe & _).
  apply Hframe; [simpl; lia|discriminate|discriminate].
Defined.

(** ** [CopyFrom] with [reshape] *)

Section CopyFromReshape.
Variable USE_INDEX_64 : bool.
Variable kMaxBlobAxes : nat.
Variable elem_type : ElemType.
Context {Dtype Quantizer : Type}.
Variable zero : Dtype.
Variable caffe_cpu_copy : Z -> list Dtype -> list Dtype.
Variable device_copy : Z -> list Dtype -> list Dtype.
Implicit Type h : Heap Dtype.
Implicit Type b : Blob Quantizer.

Local Abbreviation MAX := (INT_TP_MAX USE_INDEX_64).
Local Abbreviation sizeof := (sizeof_elem elem_type).
Local Abbreviation CopyFrom_ mode :=
  (CopyFrom USE_INDEX_64 kMaxBlobAxes elem_type zero mode caffe_cpu_copy device_copy).

Lemma owned_buffers_hold h b :
  owns_buffers elem_type h b ->
  0 < count_ b <= capacity_ b ->
  capacity_ b * sizeof < SIZE_T_MODULUS ->
  can_hold elem_type h (data_ b) (count_ b)
  /\ can_hold elem_type h (diff_ b) (count_ b).
Proof.
  intros (_ & _ & _ & Hsome) Hcnt Hfit.
  destruct (Hsome ltac:(lia)) as (l1 & l2 & c1 & c2 & Hd & Hg & _ & H1 & H2 & S1 & S2).
  pose proof (sizeof_elem_pos elem_type) as Hs.
  rewrite size_t_mul_small in S1, S2 by nia.
  split; [exists l1, c1|exists l2, c2]; (split; [done|split; [done|]]);
    rewrite ?S1, ?S2; nia.
Qed.

Hypothesis kMaxBlobAxes_fits : Z.of_nat kMaxBlobAxes * 8 < SIZE_T_MODULUS.

(** X19.  [CopyFrom] with [reshape], in CPU mode, makes the blob a copy
    of the source on the side asked for.  For a blob that owns its
    buffers and a non-empty source valid on the host in a buffer that is
    not one of the blob's own, the call returns whether or not the
    shapes matched before; afterwards the blob has the source's shape
    and count and its first [count_] elements of that side equal the
    source's (given that the copy helper copies). *)
Theorem CopyFrom_with_reshape_makes_a_copy h b source (copy_diff : bool) :
  (forall k xs, caffe_cpu_copy k xs = xs) ->
  owns_buffers elem_type h b ->
  count_ b <= capacity_ b <= MAX ->
  capacity_ b * sizeof < SIZE_T_MODULUS ->
  valid_shape kMaxBlobAxes MAX (shape_ source) ->
  count_ source = product (shape_ source) ->
  0 < count_ source ->
  count_ source * sizeof < SIZE_T_MODULUS ->
  host_resident elem_type h (copied_side copy_diff source) (count_ source) ->
  (forall l, copied_side copy_diff source = Some l ->
     (l < next_loc h)%nat /\ data_ b <> Some l /\ diff_ b <> Some l) ->
  exists h' b',
    CopyFrom_ CPU h b source copy_diff true = Ok (h', b')
    /\ shape_ b' = shape_ source /\ count_ b' = count_ source
    /\ host_values zero h' (copied_side copy_diff b') (count_ b')
       = host_values zero h (copied_side copy_diff source) (count_ source)
    /\ is_Some (host_values zero h (copied_side copy_diff source) (count_ source)).
Proof.
  intros Hcopy Hown Hcap Hfit Hv Hprod Hpos Hsfit Hsrc Hsep.
  assert (Hstage : exists h1 b1,
    (if negb (count source =? count_ b)
        || negb (bool_decide (shape source = shape_ b))
     then '(hx, bx, _) ← ReshapeLike USE_INDEX_64 kMaxBlobAxes elem_type h b source;
          Ok (hx, bx)
     else Ok (h, b)) = Ok (h1, b1)
    /\ shape_ b1 = shape_ source /\ count_ b1 = count_ source
    /\ owns_buffers elem_type h1 b1
    /\ count_ b1 <= capacity_ b1
    /\ capacity_ b1 * sizeof < SIZE_T_MODULUS
    /\ (forall l, copied_side copy_diff source = Some l ->
          cells h1 !! l = cells h !! l)).
  { destruct (negb (count source =? count_ b)
              || negb (bool_decide (shape source = shape_ b))) eqn:Hm.
    - destruct (Reshape_total USE_INDEX_64 kMaxBlobAxes elem_type kMaxBlobAxes_fits
                  h b (shape_ source) (shape_ source) Hv) as (h1 & b1 & ch & Er).
      unfold ReshapeLike, Reshape1, shape. rewrite Er. cbn [mbind Outcome_bind obind].
      exists h1, b1. split; [done|].
      destruct (Reshape_keeps_ownership _ _ _ _ _ _ _ _ _ _ Er Hown ltac:(lia))
        as (Hown1 & Hmax1 & Hcnt1 & Hb1).
      pose proof (Reshape_frame _ _ _ _ _ _ _ _ _ _ Er) as (_ & Hframe & _).
      apply Reshape_Ok in Er as (_ & Hc1 & _ & Hs1 & _ & _ & _ & _ & Hsame & Hnew).
      split; [done|]. split; [congruence|]. split; [done|]. split; [lia|].
      split.
      + destruct ch.
        * destruct (Hnew eq_refl) as (-> & _). lia.
        * destruct (Hsame eq_refl) as (_ & _ & _ & ->). lia.
      + intros l Hl. destruct (Hsep l Hl) as (? & ? & ?). by apply Hframe.
    - apply orb_false_iff in Hm as (Hc & Hs).
      apply negb_false_iff in Hc, Hs. apply Z.eqb_eq in Hc.
      apply bool_decide_eq_true in Hs. unfold shape, count in *.
      exists h, b. split; [done|]. split; [done|]. split; [done|].
      split; [done|]. split; [lia|]. split; [done|]. done. }
  destruct Hstage as (h1 & b1 & Estage & Hs1 & Hc1 & Hown1 & Hle1 & Hfit1 & Hframe).
  destruct (owned_buffers_hold h1 b1 Hown1 ltac:(lia) Hfit1) as (Hd1 & Hg1).
  assert (Hsrc1 : host_resident elem_type h1 (copied_side copy_diff source) (count_ b1)).
  { destruct Hsrc as (ls & cs & Hls & Hcs & Hrest). exists ls, cs.
    split; [done|]. split; [by rewrite (Hframe ls Hls)|]. by rewrite Hc1. }
  assert (Hdst1 : can_hold elem_type h1 (copied_side copy_diff b1) (count_ b1))
    by (by destruct copy_diff).
  destruct (host_copy_core elem_type zero caffe_cpu_copy h1 _ _ (count_ b1) b1
              Hcopy ltac:(lia) Hsrc1 Hdst1)
    as (h' & E & Hval & Hsome & _).
  assert (Hsame : host_values zero h1 (copied_side copy_diff source) (count_ b1)
                  = host_values zero h (copied_side copy_diff source) (count_ source)).
  { rewrite Hc1. destruct Hsrc as (ls & cs & Hls & Hcs & _).
    unfold host_values. rewrite Hls. cbn [mbind option_bind].
    by rewrite (Hframe ls Hls). }
  exists h', b1. split; [|split; [done|split; [done|]]].
  - unfold CopyFrom. rewrite Estage. cbn [mbind Outcome_bind obind].
    destruct Hsrc as (ls & cs & Hls & _).
    destruct copy_diff; cbn [copied_side] in *.
    + unfold cpu_diff. rewrite Hls in *. exact E.
    + unfold cpu_data. rewrite Hls in *. exact E.
  - rewrite Hval, Hsame. split; [done|]. by rewrite <- Hsame.
Qed.

End CopyFromReshape.

Lemma owns_buffers_blob0 : owns_buffers float Example.store2 Example.blob0.
Proof.
  split; [intros l [[=]|[=]]|]. split; [simpl; lia|]. split; [done|]. simpl. lia.
Qed.

Lemma CopyFrom_with_reshape_makes_a_copy_witness :
  exists h' b',
    CopyFrom false 32 float 0 CPU (fun _ xs => xs) (fun _ xs => xs)
             Example.store2 Example.blob0 Example.blob1 false true
    = Ok (h', b')
    /\ shape_ b' = [2]
    /\ host_values 0 h' (data_ b') (count_ b') = Some [3; 4].
Proof.
  destruct (CopyFrom_with_reshape_makes_a_copy false 32 float 0
              (fun _ xs => xs) (fun _ xs => xs) rank_bound_32_fits
              Example.store2 Example.blob0 Example.blob1 false
              (fun _ _ => eq_refl) owns_buffers_blob0)
    as (h' & b' & E & Hs & _ & Hv & _).
  - unfold INT_TP_MAX, INT_MAX. simpl. lia.
  - unfold SIZE_T_MODULUS. simpl. lia.
  - exact valid_shape_2.
  - reflexivity.
  - simpl. lia.
  - unfold SIZE_T_MODULUS. simpl. lia.
  - exists 0%nat, (mkCell (Example.host_buffer [3; 4]) 1).
    split; [reflexivity|]. split; [reflexivity|]. split; [simpl; lia|by left].
  - intros l [= <-]. split; [simpl; lia|]. split; discriminate.
  - exists h', b'. split; [exact E|]. split; [exact Hs|exact Hv].
Defined.

(** ** [ReshapeLike] followed by sharing *)

Section ReshapeLikeShare.
Variable USE_INDEX_64 : bool.
Variable kMaxBlobAxes : nat.
Variable elem_type : ElemType.
Context {Dtype Quantizer : Type}.
Implicit Type h : Heap Dtype.
Implicit Type b : Blob Quantizer.

(** X20.  After [b.ReshapeLike(other)] the blob has [other]'s shape
    and the product of that shape as count, so [ShareData] and
    [ShareDiff] with [other] pass their count check exactly when
    [other]'s count is the product of its shape; they then only replace
    the handle. *)
Theorem ReshapeLike_then_Share h b other h1 b1 (changed : bool) :
  ReshapeLike USE_INDEX_64 kMaxBlobAxes elem_type h b other = Ok (h1, b1, changed) ->
  shape_ b1 = shape_ other
  /\ count_ b1 = product (shape_ other)
  /\ (count_ other = product (shape_ other) ->
      exists h2 h3,
        ShareData h1 b1 other = Ok (h2, set_data_ (data_ other) b1)
        /\ ShareDiff h1 b1 other = Ok (h3, set_diff_ (diff_ other) b1))
  /\ (count_ other <> product (shape_ other) ->
      ShareData h1 b1 other = Fatal CHECK_FAILED
      /\ ShareDiff h1 b1 other = Fatal CHECK_FAILED).
Proof.
  intros H. unfold ReshapeLike, Reshape1, shape in H.
  apply Reshape_Ok in H as (_ & Hcnt & _ & Hshp & _).
  split; [done|]. split; [done|]. split.
  - intros Ho. unfold ShareData, ShareDiff, count.
    rewrite Hcnt, Ho, Z.eqb_refl. by do 2 eexists.
  - intros Ho. unfold ShareData, ShareDiff, count. rewrite Hcnt.
    by destruct (Z.eqb_spec (product (shape_ other)) (count_ other)); [congruence|].
Qed.

End ReshapeLikeShare.

Lemma ReshapeLike_then_Share_witness :
  exists h1 b1 changed h2,
    ReshapeLike false 32 float Example.store1 Example.blob0 Example.blob1
    = Ok (h1, b1, changed)
    /\ ShareData h1 b1 Example.blob1 = Ok (h2, set_data_ (data_ Example.blob1) b1).
Proof.
  destruct (ReshapeLike false 32 float Example.store1 Example.blob0 Example.blob1)
    as [[[h1 b1] changed]| |] eqn:E; [|vm_compute in E; discriminate..].
  destruct (ReshapeLike_then_Share false 32 float
              Example.store1 Example.blob0 Example.blob1 h1 b1 changed E)
    as (_ & _ & Hshare & _).
  destruct (Hshare eq_refl) as (h2 & h3 & E2 & _).
  exists h1, b1, changed, h2. split; [reflexivity|exact E2].
Defined.

(** ** The shape cache *)

Section ShapeCache.
Variable USE_INDEX_64 : bool.
Variable kMaxBlobAxes : nat.
Variable elem_type : ElemType.
Context {Dtype Quantizer : Type}.
Implicit Type h : Heap Dtype.
Implicit Type b : Blob Quantizer.

Local Abbreviation Reshape_ := (Reshape USE_INDEX_64 kMaxBlobAxes elem_type).

Lemma Reshape_loop_cache rest : forall i cnt shp sd cnt' shp' sd',
  Reshape_loop USE_INDEX_64 i rest cnt shp sd = Ok (cnt', shp', sd') ->
  SyncedMemory.head_ sd' = SyncedMemory.head_ sd
  /\ (forall j, (j < i)%nat ->
        SyncedMemory.cpu_mem sd' !! j = SyncedMemory.cpu_mem sd !! j)
  /\ (forall j, (i <= j < i + length rest)%nat ->
        SyncedMemory.cpu_mem sd' !! j = rest !! (j - i)%nat).
Proof.
  induction rest as [|e rest IH]; intros i cnt shp sd cnt' shp' sd' H;
    cbn [Reshape_loop] in H.
  - injection H as <- <- <-. split; [done|]. split; [done|].
    intros j Hj. simpl in Hj. lia.
  - apply obind_Ok in H as (u1 & _ & H).
    apply obind_Ok in H as (u2 & _ & H).
    apply obind_Ok in H as (shp1 & _ & H).
    apply obind_Ok in H as (sd1 & H4 & H).
    unfold SyncedMemory.poke_cpu in H4.
    destruct (SyncedMemory.in_bounds _ sd i); [|discriminate]. injection H4 as <-.
    apply IH in H as (Hhd & Hlow & Hhigh).
    cbn [SyncedMemory.set_cpu_mem SyncedMemory.head_ SyncedMemory.cpu_mem]
      in Hhd, Hlow, Hhigh.
    split; [done|]. split.
    + intros j Hj. rewrite Hlow by lia. by rewrite lookup_insert_ne by lia.
    + intros j Hj. cbn [length] in Hj. destruct (decide (j = i)) as [->|Hne].
      * rewrite Hlow by lia. rewrite lookup_insert_eq. by rewrite Nat.sub_diag.
      * rewrite Hhigh by lia. replace (j - i)%nat with (S (j - S i)) by lia. done.
Qed.

(** X21.  The shape cache mirrors the shape.  Before any [Reshape] a
    blob has no cache and [gpu_shape] dies on its [CHECK].  After a
    returning [Reshape] the cache's host cells hold the extents of the
    new shape, axis by axis, and [gpu_shape] returns a buffer, valid on
    both sides, whose accelerator cells hold them too. *)
Theorem shape_cache_mirrors_shape :
  (forall q : option Quantizer, gpu_shape (unconstructed q) = Fatal CHECK_FAILED)
  /\ (forall h b shape shape_stride h' b' (changed : bool),
     Reshape_ h b shape shape_stride = Ok (h', b', changed) ->
     exists sd0 b'' sd,
       shape_data_ b' = Some sd0
       /\ SyncedMemory.read_mem 0 (SyncedMemory.cpu_mem sd0) (length shape) = shape
       /\ gpu_shape b' = Ok (b'', sd)
       /\ shape_data_ b'' = Some sd /\ shape_ b'' = shape
       /\ SyncedMemory.head sd = SYNCED
       /\ SyncedMemory.read_mem 0 (SyncedMemory.gpu_mem sd) (length shape) = shape
       /\ SyncedMemory.read_mem 0 (SyncedMemory.cpu_mem sd) (length shape) = shape).
Proof.
  split; [done|].
  intros h b shape shape_stride h' b' changed H.
  pose proof H as Hok.
  apply Reshape_Ok in Hok as (_ & _ & _ & Hshp & _).
  unfold Reshape in H.
  apply obind_Ok in H as (u & _ & H).
  apply obind_Ok in H as ([[cnt shp] sd] & Hloop & H).
  apply Reshape_loop_cache in Hloop as (Hhd & _ & Hcells).
  assert (Hsd : shape_data_ b' = Some sd).
  { cbn [set_shape_state capacity_] in H.
    by destruct (capacity_ b <? cnt); injection H as _ <- _. }
  assert (Hhead : SyncedMemory.head_ sd = HEAD_AT_CPU) by (by rewrite Hhd).
  assert (Hread : SyncedMemory.read_mem 0 (SyncedMemory.cpu_mem sd) (length shape)
                  = shape).
  { apply list_eq. intros j. destruct (decide (j < length shape)%nat) as [Hlt|Hge].
    - rewrite lookup_read_mem by done. rewrite Hcells by lia. rewrite Nat.sub_0_r.
      destruct (lookup_lt_is_Some_2 shape j Hlt) as [v Hv]. by rewrite Hv.
    - rewrite (lookup_ge_None_2 shape) by lia.
      apply lookup_ge_None_2. rewrite length_read_mem. lia. }
  exists sd. do 2 eexists. split; [exact Hsd|]. split; [exact Hread|].
  unfold gpu_shape. rewrite Hsd. cbn [non_null CHECK deref mbind Outcome_bind obind].
  split; [reflexivity|]. cbn [shape_data_ shape_]. split; [done|]. split; [done|].
  unfold SyncedMemory.gpu_data, SyncedMemory.to_gpu, SyncedMemory.head.
  rewrite Hhead. cbn. done.
Qed.

End ShapeCache.

Lemma shape_cache_mirrors_shape_witness :
  exists h' b' changed b'' sd,
    Reshape false 32 float Example.store0 Example.blob0 [2; 3] [] = Ok (h', b', changed)
    /\ gpu_shape b' = Ok (b'', sd)
    /\ SyncedMemory.read_mem 0 (SyncedMemory.gpu_mem sd) 2 = [2; 3].
Proof.
  destruct (Reshape false 32 float Example.store0 Example.blob0 [2; 3] [])
    as [[[h' b'] changed]| |] eqn:E; [|vm_compute in E; discriminate..].
  destruct (proj2 (shape_cache_mirrors_shape false 32 float (Dtype := Z))
              Example.store0 Example.blob0 [2; 3] [] h' b' changed E)
    as (sd0 & b'' & sd & _ & _ & Eg & _ & _ & _ & Hg & _).
  exists h', b', changed, b'', sd. split; [reflexivity|]. split; [exact Eg|exact Hg].
Defined.
